(** * Smart espresso controller: restart analytics, timing and brew cycle

    A shallow embedding of [smart-espresso.ino] (the controller with the
    RTC restart record, health monitor and connection managers) and the
    properties of its reliability supervisor.

    Conventions of the embedding.
    - [uint32_t] and [unsigned long] (32 bits on the ESP8266) are [Z] in
      [0, 2^32); every arithmetic result is reduced with [wrap32].
    - [int] counters are [Z] reduced with [wrapInt] (two's complement).
    - The sketch's global variables are the fields of one record [Sys],
      together with the hardware the code observes: the [millis()] counter,
      the RTC user memory block and the relay pulses sent so far.
    - Each function takes the state and returns the new state; a reading of
      an external collaborator (WiFi status, broker replies, heap sizes, an
      inbound message) is an explicit argument of the function that asks
      for it.  [delay d] advances the [millis()] counter by [d]; other
      statements take no time.
    - Serial output has no effect on the state and is left out. *)

From Stdlib Require Import ZArith List Bool Lia.
From Stdlib.Strings Require Import Byte Ascii String.
Import ListNotations.
Local Open Scope Z_scope.

(* ================================================================== *)
(** * Part I: the embedding                                            *)
(* ================================================================== *)

(** ** Machine integers and bytes *)

Definition wrap32 (z : Z) : Z := z mod 4294967296.

Definition wrapInt (z : Z) : Z := (z + 2147483648) mod 4294967296 - 2147483648.

Definition byteZ (b : byte) : Z := Z.of_N (Byte.to_N b).

Definition Zbyte (z : Z) : byte :=
  match Byte.of_N (Z.to_N (z mod 256)) with
  | Some b => b
  | None => x00
  end.

(** ** Types of the sketch *)

Record RTCData : Type := mkRTCData {
  crc32 : Z;
  totalRestarts : Z;
  watchdogRestarts : Z;
  memoryRestarts : Z;
  wifiRestarts : Z;
  mqttRestarts : Z;
  healthRestarts : Z;
  userRestarts : Z;
  unknownRestarts : Z;
  lastRestartReason : Z;
  coffeePouredTotal : Z
}.

Inductive RestartReason : Type :=
  | RESTART_UNKNOWN
  | RESTART_USER
  | RESTART_WATCHDOG
  | RESTART_MEMORY
  | RESTART_WIFI
  | RESTART_MQTT
  | RESTART_HEALTH
  | RESTART_POWER_ON.

Definition reasonCode (r : RestartReason) : Z :=
  match r with
  | RESTART_UNKNOWN => 0
  | RESTART_USER => 1
  | RESTART_WATCHDOG => 2
  | RESTART_MEMORY => 3
  | RESTART_WIFI => 4
  | RESTART_MQTT => 5
  | RESTART_HEALTH => 6
  | RESTART_POWER_ON => 7
  end.

Inductive State : Type := IDLE | WAITING | POURING.

(** Pins *)
Definition powerOn : Z := 0.
Definition pourDoubleCoffe : Z := 2.

(** Intervals and timeouts (milliseconds) *)
Definition aliveInterval : Z := 60000.
Definition memoryCheckInterval : Z := 300000.
Definition wifiCheckInterval : Z := 30000.
Definition mqttRetryInterval : Z := 5000.
Definition coffeeWaitTime : Z := 150000.
Definition stateTimeout : Z := 300000.
Definition wifiTimeout : Z := 30000.
Definition healthCheckInterval : Z := 120000.
Definition maxSilentTime : Z := 300000.
Definition maxMQTTSilentTime : Z := 600000.
Definition minFreeHeap : Z := 1000.

(** ** The global state

    [millis], [rtcMem] and [relayLog] are the hardware: the millisecond
    counter, the 44-byte block of RTC user memory at offset 0, and the pins
    pulsed so far (latest first).  The other fields are the sketch's
    globals, [lastRTCUpdate] being the static local of [loop]. *)

Record Sys : Type := mkSys {
  millis : Z;
  rtcMem : list byte;
  relayLog : list Z;
  rtcData : RTCData;
  lastSuccessfulMetrics : Z;
  lastMQTTMessage : Z;
  bootTime : Z;
  forceRestart : bool;
  pendingRestartReason : RestartReason;
  currentState : State;
  eventStartTime : Z;
  lastAliveTime : Z;
  lastMemoryCheck : Z;
  lastWiFiCheck : Z;
  lastMQTTAttempt : Z;
  lastConnectionHealth : Z;
  coffeePouredCount : Z;
  systemHealthy : bool;
  consecutiveFailures : Z;
  wifiReconnectCount : Z;
  mqttReconnectCount : Z;
  lastRTCUpdate : Z
}.

Definition set_millis (v : Z) (s : Sys) : Sys :=
  mkSys v (rtcMem s) (relayLog s) (rtcData s) (lastSuccessfulMetrics s)
    (lastMQTTMessage s) (bootTime s) (forceRestart s)
    (pendingRestartReason s) (currentState s) (eventStartTime s)
    (lastAliveTime s) (lastMemoryCheck s) (lastWiFiCheck s)
    (lastMQTTAttempt s) (lastConnectionHealth s) (coffeePouredCount s)
    (systemHealthy s) (consecutiveFailures s) (wifiReconnectCount s)
    (mqttReconnectCount s) (lastRTCUpdate s).

Definition set_rtcMem (v : list byte) (s : Sys) : Sys :=
  mkSys (millis s) v (relayLog s) (rtcData s) (lastSuccessfulMetrics s)
    (lastMQTTMessage s) (bootTime s) (forceRestart s)
    (pendingRestartReason s) (currentState s) (eventStartTime s)
    (lastAliveTime s) (lastMemoryCheck s) (lastWiFiCheck s)
    (lastMQTTAttempt s) (lastConnectionHealth s) (coffeePouredCount s)
    (systemHealthy s) (consecutiveFailures s) (wifiReconnectCount s)
    (mqttReconnectCount s) (lastRTCUpdate s).

Definition set_relayLog (v : list Z) (s : Sys) : Sys :=
  mkSys (millis s) (rtcMem s) v (rtcData s) (lastSuccessfulMetrics s)
    (lastMQTTMessage s) (bootTime s) (forceRestart s)
    (pendingRestartReason s) (currentState s) (eventStartTime s)
    (lastAliveTime s) (lastMemoryCheck s) (lastWiFiCheck s)
    (lastMQTTAttempt s) (lastConnectionHealth s) (coffeePouredCount s)
    (systemHealthy s) (consecutiveFailures s) (wifiReconnectCount s)
    (mqttReconnectCount s) (lastRTCUpdate s).

Definition set_rtcData (v : RTCData) (s : Sys) : Sys :=
  mkSys (millis s) (rtcMem s) (relayLog s) v (lastSuccessfulMetrics s)
    (lastMQTTMessage s) (bootTime s) (forceRestart s)
    (pendingRestartReason s) (currentState s) (eventStartTime s)
    (lastAliveTime s) (lastMemoryCheck s) (lastWiFiCheck s)
    (lastMQTTAttempt s) (lastConnectionHealth s) (coffeePouredCount s)
    (systemHealthy s) (consecutiveFailures s) (wifiReconnectCount s)
    (mqttReconnectCount s) (lastRTCUpdate s).

Definition set_lastSuccessfulMetrics (v : Z) (s : Sys) : Sys :=
  mkSys (millis s) (rtcMem s) (relayLog s) (rtcData s) v (lastMQTTMessage s)
    (bootTime s) (forceRestart s) (pendingRestartReason s) (currentState s)
    (eventStartTime s) (lastAliveTime s) (lastMemoryCheck s)
    (lastWiFiCheck s) (lastMQTTAttempt s) (lastConnectionHealth s)
    (coffeePouredCount s) (systemHealthy s) (consecutiveFailures s)
    (wifiReconnectCount s) (mqttReconnectCount s) (lastRTCUpdate s).

Definition set_lastMQTTMessage (v : Z) (s : Sys) : Sys :=
  mkSys (millis s) (rtcMem s) (relayLog s) (rtcData s)
    (lastSuccessfulMetrics s) v (bootTime s) (forceRestart s)
    (pendingRestartReason s) (currentState s) (eventStartTime s)
    (lastAliveTime s) (lastMemoryCheck s) (lastWiFiCheck s)
    (lastMQTTAttempt s) (lastConnectionHealth s) (coffeePouredCount s)
    (systemHealthy s) (consecutiveFailures s) (wifiReconnectCount s)
    (mqttReconnectCount s) (lastRTCUpdate s).

Definition set_bootTime (v : Z) (s : Sys) : Sys :=
  mkSys (millis s) (rtcMem s) (relayLog s) (rtcData s)
    (lastSuccessfulMetrics s) (lastMQTTMessage s) v (forceRestart s)
    (pendingRestartReason s) (currentState s) (eventStartTime s)
    (lastAliveTime s) (lastMemoryCheck s) (lastWiFiCheck s)
    (lastMQTTAttempt s) (lastConnectionHealth s) (coffeePouredCount s)
    (systemHealthy s) (consecutiveFailures s) (wifiReconnectCount s)
    (mqttReconnectCount s) (lastRTCUpdate s).

Definition set_forceRestart (v : bool) (s : Sys) : Sys :=
  mkSys (millis s) (rtcMem s) (relayLog s) (rtcData s)
    (lastSuccessfulMetrics s) (lastMQTTMessage s) (bootTime s) v
    (pendingRestartReason s) (currentState s) (eventStartTime s)
    (lastAliveTime s) (lastMemoryCheck s) (lastWiFiCheck s)
    (lastMQTTAttempt s) (lastConnectionHealth s) (coffeePouredCount s)
    (systemHealthy s) (consecutiveFailures s) (wifiReconnectCount s)
    (mqttReconnectCount s) (lastRTCUpdate s).

Definition set_pendingRestartReason (v : RestartReason) (s : Sys) : Sys :=
  mkSys (millis s) (rtcMem s) (relayLog s) (rtcData s)
    (lastSuccessfulMetrics s) (lastMQTTMessage s) (bootTime s)
    (forceRestart s) v (currentState s) (eventStartTime s) (lastAliveTime s)
    (lastMemoryCheck s) (lastWiFiCheck s) (lastMQTTAttempt s)
    (lastConnectionHealth s) (coffeePouredCount s) (systemHealthy s)
    (consecutiveFailures s) (wifiReconnectCount s) (mqttReconnectCount s)
    (lastRTCUpdate s).

Definition set_currentState (v : State) (s : Sys) : Sys :=
  mkSys (millis s) (rtcMem s) (relayLog s) (rtcData s)
    (lastSuccessfulMetrics s) (lastMQTTMessage s) (bootTime s)
    (forceRestart s) (pendingRestartReason s) v (eventStartTime s)
    (lastAliveTime s) (lastMemoryCheck s) (lastWiFiCheck s)
    (lastMQTTAttempt s) (lastConnectionHealth s) (coffeePouredCount s)
    (systemHealthy s) (consecutiveFailures s) (wifiReconnectCount s)
    (mqttReconnectCount s) (lastRTCUpdate s).

Definition set_eventStartTime (v : Z) (s : Sys) : Sys :=
  mkSys (millis s) (rtcMem s) (relayLog s) (rtcData s)
    (lastSuccessfulMetrics s) (lastMQTTMessage s) (bootTime s)
    (forceRestart s) (pendingRestartReason s) (currentState s) v
    (lastAliveTime s) (lastMemoryCheck s) (lastWiFiCheck s)
    (lastMQTTAttempt s) (lastConnectionHealth s) (coffeePouredCount s)
    (systemHealthy s) (consecutiveFailures s) (wifiReconnectCount s)
    (mqttReconnectCount s) (lastRTCUpdate s).

Definition set_lastAliveTime (v : Z) (s : Sys) : Sys :=
  mkSys (millis s) (rtcMem s) (relayLog s) (rtcData s)
    (lastSuccessfulMetrics s) (lastMQTTMessage s) (bootTime s)
    (forceRestart s) (pendingRestartReason s) (currentState s)
    (eventStartTime s) v (lastMemoryCheck s) (lastWiFiCheck s)
    (lastMQTTAttempt s) (lastConnectionHealth s) (coffeePouredCount s)
    (systemHealthy s) (consecutiveFailures s) (wifiReconnectCount s)
    (mqttReconnectCount s) (lastRTCUpdate s).

Definition set_lastMemoryCheck (v : Z) (s : Sys) : Sys :=
  mkSys (millis s) (rtcMem s) (relayLog s) (rtcData s)
    (lastSuccessfulMetrics s) (lastMQTTMessage s) (bootTime s)
    (forceRestart s) (pendingRestartReason s) (currentState s)
    (eventStartTime s) (lastAliveTime s) v (lastWiFiCheck s)
    (lastMQTTAttempt s) (lastConnectionHealth s) (coffeePouredCount s)
    (systemHealthy s) (consecutiveFailures s) (wifiReconnectCount s)
    (mqttReconnectCount s) (lastRTCUpdate s).

Definition set_lastWiFiCheck (v : Z) (s : Sys) : Sys :=
  mkSys (millis s) (rtcMem s) (relayLog s) (rtcData s)
    (lastSuccessfulMetrics s) (lastMQTTMessage s) (bootTime s)
    (forceRestart s) (pendingRestartReason s) (currentState s)
    (eventStartTime s) (lastAliveTime s) (lastMemoryCheck s) v
    (lastMQTTAttempt s) (lastConnectionHealth s) (coffeePouredCount s)
    (systemHealthy s) (consecutiveFailures s) (wifiReconnectCount s)
    (mqttReconnectCount s) (lastRTCUpdate s).

Definition set_lastMQTTAttempt (v : Z) (s : Sys) : Sys :=
  mkSys (millis s) (rtcMem s) (relayLog s) (rtcData s)
    (lastSuccessfulMetrics s) (lastMQTTMessage s) (bootTime s)
    (forceRestart s) (pendingRestartReason s) (currentState s)
    (eventStartTime s) (lastAliveTime s) (lastMemoryCheck s)
    (lastWiFiCheck s) v (lastConnectionHealth s) (coffeePouredCount s)
    (systemHealthy s) (consecutiveFailures s) (wifiReconnectCount s)
    (mqttReconnectCount s) (lastRTCUpdate s).

Definition set_coffeePouredCount (v : Z) (s : Sys) : Sys :=
  mkSys (millis s) (rtcMem s) (relayLog s) (rtcData s)
    (lastSuccessfulMetrics s) (lastMQTTMessage s) (bootTime s)
    (forceRestart s) (pendingRestartReason s) (currentState s)
    (eventStartTime s) (lastAliveTime s) (lastMemoryCheck s)
    (lastWiFiCheck s) (lastMQTTAttempt s) (lastConnectionHealth s) v
    (systemHealthy s) (consecutiveFailures s) (wifiReconnectCount s)
    (mqttReconnectCount s) (lastRTCUpdate s).

Definition set_systemHealthy (v : bool) (s : Sys) : Sys :=
  mkSys (millis s) (rtcMem s) (relayLog s) (rtcData s)
    (lastSuccessfulMetrics s) (lastMQTTMessage s) (bootTime s)
    (forceRestart s) (pendingRestartReason s) (currentState s)
    (eventStartTime s) (lastAliveTime s) (lastMemoryCheck s)
    (lastWiFiCheck s) (lastMQTTAttempt s) (lastConnectionHealth s)
    (coffeePouredCount s) v (consecutiveFailures s) (wifiReconnectCount s)
    (mqttReconnectCount s) (lastRTCUpdate s).

Definition set_consecutiveFailures (v : Z) (s : Sys) : Sys :=
  mkSys (millis s) (rtcMem s) (relayLog s) (rtcData s)
    (lastSuccessfulMetrics s) (lastMQTTMessage s) (bootTime s)
    (forceRestart s) (pendingRestartReason s) (currentState s)
    (eventStartTime s) (lastAliveTime s) (lastMemoryCheck s)
    (lastWiFiCheck s) (lastMQTTAttempt s) (lastConnectionHealth s)
    (coffeePouredCount s) (systemHealthy s) v (wifiReconnectCount s)
    (mqttReconnectCount s) (lastRTCUpdate s).

Definition set_wifiReconnectCount (v : Z) (s : Sys) : Sys :=
  mkSys (millis s) (rtcMem s) (relayLog s) (rtcData s)
    (lastSuccessfulMetrics s) (lastMQTTMessage s) (bootTime s)
    (forceRestart s) (pendingRestartReason s) (currentState s)
    (eventStartTime s) (lastAliveTime s) (lastMemoryCheck s)
    (lastWiFiCheck s) (lastMQTTAttempt s) (lastConnectionHealth s)
    (coffeePouredCount s) (systemHealthy s) (consecutiveFailures s) v
    (mqttReconnectCount s) (lastRTCUpdate s).

Definition set_mqttReconnectCount (v : Z) (s : Sys) : Sys :=
  mkSys (millis s) (rtcMem s) (relayLog s) (rtcData s)
    (lastSuccessfulMetrics s) (lastMQTTMessage s) (bootTime s)
    (forceRestart s) (pendingRestartReason s) (currentState s)
    (eventStartTime s) (lastAliveTime s) (lastMemoryCheck s)
    (lastWiFiCheck s) (lastMQTTAttempt s) (lastConnectionHealth s)
    (coffeePouredCount s) (systemHealthy s) (consecutiveFailures s)
    (wifiReconnectCount s) v (lastRTCUpdate s).

Definition set_lastRTCUpdate (v : Z) (s : Sys) : Sys :=
  mkSys (millis s) (rtcMem s) (relayLog s) (rtcData s)
    (lastSuccessfulMetrics s) (lastMQTTMessage s) (bootTime s)
    (forceRestart s) (pendingRestartReason s) (currentState s)
    (eventStartTime s) (lastAliveTime s) (lastMemoryCheck s)
    (lastWiFiCheck s) (lastMQTTAttempt s) (lastConnectionHealth s)
    (coffeePouredCount s) (systemHealthy s) (consecutiveFailures s)
    (wifiReconnectCount s) (mqttReconnectCount s) v.

(** Power-on values of the globals (their C++ initialisers); the RTC memory
    keeps whatever it held. *)
Definition boot (mem : list byte) : Sys :=
  mkSys 0 mem [] (mkRTCData 0 0 0 0 0 0 0 0 0 0 0)
        0 0 0 false RESTART_UNKNOWN IDLE 0 0 0 0 0 0 0 true 0 0 0 0.

Definition State_eqb (a b : State) : bool :=
  match a, b with
  | IDLE, IDLE | WAITING, WAITING | POURING, POURING => true
  | _, _ => false
  end.

(** ** Clock *)

Definition delay (ms : Z) (s : Sys) : Sys :=
  set_millis (wrap32 (millis s + ms)) s.

(** [timeElapsed]: safe time comparison that handles millis() overflow *)
Definition timeElapsed (startTime interval : Z) (s : Sys) : bool :=
  let currentTime := millis s in
  (interval <=? wrap32 (currentTime - startTime)) || (currentTime <? startTime).

(** ** CRC32 of the RTC block *)

(** One turn of the inner [for] loop of [calculateCRC32], for the mask [i]. *)
Definition crcBit (c crc i : Z) : Z :=
  let bit := negb (Z.land crc 0x80000000 =? 0) in
  let bit := if negb (Z.land c i =? 0) then negb bit else bit in
  let crc := wrap32 (Z.shiftl crc 1) in
  if bit then Z.lxor crc 0x04c11db7 else crc.

(** [for (uint32_t i = 0x80; i > 0; i >>= 1)]: the mask is a power of two,
    and halving it is taking the tail of its binary representation. *)
Fixpoint crcBits (i : positive) (c crc : Z) : Z :=
  let crc' := crcBit c crc (Zpos i) in
  match i with
  | xH => crc'
  | xO j | xI j => crcBits j c crc'
  end.

Definition crcByte (crc : Z) (c : byte) : Z := crcBits 0x80 (byteZ c) crc.

Definition calculateCRC32 (data : list byte) : Z :=
  fold_left crcByte data 0xffffffff.

(** ** The RTC record as a block of bytes

    [RTCData] is eleven [uint32_t] fields, 44 bytes without padding; the
    ESP8266 stores each field least significant byte first. *)

Definition le32 (x : Z) : list byte :=
  [Zbyte x; Zbyte (x / 256); Zbyte (x / 65536); Zbyte (x / 16777216)].

Definition rtcBytes (d : RTCData) : list byte :=
  le32 (crc32 d) ++ le32 (totalRestarts d) ++ le32 (watchdogRestarts d) ++
  le32 (memoryRestarts d) ++ le32 (wifiRestarts d) ++ le32 (mqttRestarts d) ++
  le32 (healthRestarts d) ++ le32 (userRestarts d) ++
  le32 (unknownRestarts d) ++ le32 (lastRestartReason d) ++
  le32 (coffeePouredTotal d).

Definition u32At (blk : list byte) (off : nat) : Z :=
  byteZ (nth off blk x00) + 256 * byteZ (nth (off + 1) blk x00) +
  65536 * byteZ (nth (off + 2) blk x00) +
  16777216 * byteZ (nth (off + 3) blk x00).

Definition rtcOfBytes (blk : list byte) : RTCData :=
  mkRTCData (u32At blk 0) (u32At blk 4) (u32At blk 8) (u32At blk 12)
            (u32At blk 16) (u32At blk 20) (u32At blk 24) (u32At blk 28)
            (u32At blk 32) (u32At blk 36) (u32At blk 40).

Definition set_crc32 (v : Z) (d : RTCData) : RTCData :=
  mkRTCData v (totalRestarts d) (watchdogRestarts d) (memoryRestarts d)
            (wifiRestarts d) (mqttRestarts d) (healthRestarts d)
            (userRestarts d) (unknownRestarts d) (lastRestartReason d)
            (coffeePouredTotal d).

Definition set_coffeePouredTotal (v : Z) (d : RTCData) : RTCData :=
  mkRTCData (crc32 d) (totalRestarts d) (watchdogRestarts d)
            (memoryRestarts d) (wifiRestarts d) (mqttRestarts d)
            (healthRestarts d) (userRestarts d) (unknownRestarts d)
            (lastRestartReason d) v.

(** [readRTCData]: [readOk] is the result of [ESP.rtcUserMemoryRead], which
    on success copies the block over [rtcData]; the CRC is then taken over
    the bytes of [rtcData] after its first field. *)
Definition readRTCData (readOk : bool) (s : Sys) : bool * Sys :=
  if readOk then
    let s := set_rtcData (rtcOfBytes (rtcMem s)) s in
    let crcOfData := calculateCRC32 (skipn 4 (rtcBytes (rtcData s))) in
    if crcOfData =? crc32 (rtcData s) then (true, s) else (false, s)
  else (false, s).

Definition writeRTCData (s : Sys) : Sys :=
  let d := rtcData s in
  let d := set_crc32 (calculateCRC32 (skipn 4 (rtcBytes d))) d in
  set_rtcMem (rtcBytes d) (set_rtcData d s).

Definition initRTCData (s : Sys) : Sys :=
  let d := mkRTCData (crc32 (rtcData s)) 0 0 0 0 0 0 0 0
                     (reasonCode RESTART_POWER_ON) 0 in
  writeRTCData (set_rtcData d s).

(** The [switch] of [recordRestart]: the counter of the reason goes up by
    one; reasons without a [case] fall to [default]. *)
Definition countReason (reason : RestartReason) (d : RTCData) : RTCData :=
  let bump x := wrap32 (x + 1) in
  match reason with
  | RESTART_USER =>
      mkRTCData (crc32 d) (totalRestarts d) (watchdogRestarts d)
        (memoryRestarts d) (wifiRestarts d) (mqttRestarts d)
        (healthRestarts d) (bump (userRestarts d)) (unknownRestarts d)
        (lastRestartReason d) (coffeePouredTotal d)
  | RESTART_WATCHDOG =>
      mkRTCData (crc32 d) (totalRestarts d) (bump (watchdogRestarts d))
        (memoryRestarts d) (wifiRestarts d) (mqttRestarts d)
        (healthRestarts d) (userRestarts d) (unknownRestarts d)
        (lastRestartReason d) (coffeePouredTotal d)
  | RESTART_MEMORY =>
      mkRTCData (crc32 d) (totalRestarts d) (watchdogRestarts d)
        (bump (memoryRestarts d)) (wifiRestarts d) (mqttRestarts d)
        (healthRestarts d) (userRestarts d) (unknownRestarts d)
        (lastRestartReason d) (coffeePouredTotal d)
  | RESTART_WIFI =>
      mkRTCData (crc32 d) (totalRestarts d) (watchdogRestarts d)
        (memoryRestarts d) (bump (wifiRestarts d)) (mqttRestarts d)
        (healthRestarts d) (userRestarts d) (unknownRestarts d)
        (lastRestartReason d) (coffeePouredTotal d)
  | RESTART_MQTT =>
      mkRTCData (crc32 d) (totalRestarts d) (watchdogRestarts d)
        (memoryRestarts d) (wifiRestarts d) (bump (mqttRestarts d))
        (healthRestarts d) (userRestarts d) (unknownRestarts d)
        (lastRestartReason d) (coffeePouredTotal d)
  | RESTART_HEALTH =>
      mkRTCData (crc32 d) (totalRestarts d) (watchdogRestarts d)
        (memoryRestarts d) (wifiRestarts d) (mqttRestarts d)
        (bump (healthRestarts d)) (userRestarts d) (unknownRestarts d)
        (lastRestartReason d) (coffeePouredTotal d)
  | RESTART_UNKNOWN | RESTART_POWER_ON =>
      mkRTCData (crc32 d) (totalRestarts d) (watchdogRestarts d)
        (memoryRestarts d) (wifiRestarts d) (mqttRestarts d)
        (healthRestarts d) (userRestarts d) (bump (unknownRestarts d))
        (lastRestartReason d) (coffeePouredTotal d)
  end.

Definition recordRestart (reason : RestartReason) (s : Sys) : Sys :=
  let d := rtcData s in
  (* rtcData.totalRestarts++; rtcData.lastRestartReason = reason; *)
  let d := mkRTCData (crc32 d) (wrap32 (totalRestarts d + 1))
             (watchdogRestarts d) (memoryRestarts d) (wifiRestarts d)
             (mqttRestarts d) (healthRestarts d) (userRestarts d)
             (unknownRestarts d) (reasonCode reason) (coffeePouredTotal d) in
  let d := countReason reason d in
  (* rtcData.coffeePouredTotal = coffeePouredCount; *)
  let d := set_coffeePouredTotal (coffeePouredCount s) d in
  writeRTCData (set_rtcData d s).

(** [performRestart]: the state in which [ESP.restart()] is called. *)
Definition performRestart (reason : RestartReason) (s : Sys) : Sys :=
  delay 1000 (recordRestart reason s).

(** ** Health check (run by the [healthCheck] ticker every 120 s) *)

Definition performHealthCheck (s : Sys) : Sys :=
  let now := millis s in
  if timeElapsed (lastSuccessfulMetrics s) maxSilentTime s then
    set_forceRestart true (set_pendingRestartReason RESTART_HEALTH s)
  else if timeElapsed (lastMQTTMessage s) maxMQTTSilentTime s then
    set_forceRestart true (set_pendingRestartReason RESTART_MQTT s)
  else if 20 <? wifiReconnectCount s then
    set_forceRestart true (set_pendingRestartReason RESTART_WIFI s)
  else if 50 <? mqttReconnectCount s then
    set_forceRestart true (set_pendingRestartReason RESTART_MQTT s)
  else if 86400000 <? wrap32 (now - bootTime s) then
    set_bootTime now (set_mqttReconnectCount 0 (set_wifiReconnectCount 0 s))
  else s.

(** ** WiFi

    [link k] tells whether the [k]-th call of [WiFi.status()] made by
    [setupWiFi] returns [WL_CONNECTED]. *)

(** The waiting loop of [setupWiFi]; returns the number of status readings
    made.  [None] when the fuel runs out. *)
Fixpoint setupWiFi_wait (fuel : nat) (link : nat -> bool) (k : nat)
    (startAttempt : Z) (s : Sys) : option (nat * Sys) :=
  match fuel with
  | O => None
  | S fuel' =>
      if negb (link k) && negb (timeElapsed startAttempt wifiTimeout s)
      then setupWiFi_wait fuel' link (S k) startAttempt (delay 500 s)
      else Some (S k, s)
  end.

Definition setupWiFi (link : nat -> bool) (s : Sys) : option Sys :=
  let s := delay 100 s in
  let startAttempt := millis s in
  match setupWiFi_wait 61 link 0 startAttempt s with
  | None => None
  | Some (k, s) =>
      if link k then
        Some (set_consecutiveFailures 0 (set_systemHealthy true s))
      else
        let s := set_systemHealthy false s in
        let s := set_consecutiveFailures
                   (wrapInt (consecutiveFailures s + 1)) s in
        Some (set_wifiReconnectCount (wrapInt (wifiReconnectCount s + 1)) s)
  end.

(** Readings made by [checkWiFiConnection]: the status before the attempt,
    whether the local address is 0.0.0.0, the readings of [setupWiFi], and
    the status after the attempt. *)
Record WiFiReadings : Type := mkWiFiReadings {
  statusBefore : bool;
  addressIsZero : bool;
  statusDuring : nat -> bool;
  statusAfter : bool
}.

Definition checkWiFiConnection (w : WiFiReadings) (s : Sys) : option Sys :=
  if timeElapsed (lastWiFiCheck s) wifiCheckInterval s then
    let s := set_lastWiFiCheck (millis s) s in
    if negb (statusBefore w) || addressIsZero w then
      match setupWiFi (statusDuring w) s with
      | None => None
      | Some s =>
          if negb (statusAfter w) then
            let s := set_consecutiveFailures
                       (wrapInt (consecutiveFailures s + 1)) s in
            if 5 <=? consecutiveFailures s then
              Some (set_forceRestart true
                      (set_pendingRestartReason RESTART_WIFI s))
            else Some s
          else Some (set_consecutiveFailures 0 s)
      end
    else Some s
  else Some s.

(** ** Appliance *)

Definition powerOnCafeteria (s : Sys) : Sys :=
  let s := delay 700 s in
  set_relayLog (powerOn :: relayLog s) s.

Definition pourCoffee (s : Sys) : Sys :=
  let s := set_currentState POURING s in
  let s := delay 700 s in
  let s := set_relayLog (pourDoubleCoffe :: relayLog s) s in
  let s := set_coffeePouredCount (wrap32 (coffeePouredCount s + 1)) s in
  set_currentState IDLE s.

(** ** Command callback

    The Arduino [String] is a [string] that holds every byte appended to
    it, a NUL included; [trim] removes the white space (as [isspace] sees
    it) at both ends.  [==] with a literal is [String::equals], which is
    [strcmp] on the buffer: it sees the characters before the first NUL
    only. *)

Definition isspace (c : ascii) : bool :=
  let n := nat_of_ascii c in
  ((n =? 32) || ((9 <=? n) && (n <=? 13)))%nat.

Fixpoint dropSpaces (l : list ascii) : list ascii :=
  match l with
  | c :: r => if isspace c then dropSpaces r else l
  | [] => []
  end.

Definition trim (m : string) : string :=
  string_of_list_ascii
    (rev (dropSpaces (rev (dropSpaces (list_ascii_of_string m))))).

(** The C string in a buffer: the characters before the first NUL. *)
Fixpoint cstr (m : string) : string :=
  match m with
  | EmptyString => EmptyString
  | String c r =>
      if (nat_of_ascii c =? 0)%nat then EmptyString else String c (cstr r)
  end.

(** [message == lit] for a literal [lit], which holds no NUL. *)
Definition equals (message lit : string) : bool :=
  (cstr message =? lit)%string.

Definition callback (topic : string) (payload : list byte) (s : Sys) : Sys :=
  let s := set_lastMQTTMessage (millis s) s in
  let message := trim (string_of_list_byte payload) in
  if equals message "on" && State_eqb (currentState s) IDLE then
    let s := powerOnCafeteria s in
    let s := set_eventStartTime (millis s) s in
    set_currentState WAITING s
  else if equals message "on" then s
  else if equals message "reset" then
    let s := set_currentState IDLE s in
    let s := set_coffeePouredCount 0 s in
    initRTCData s
  else if equals message "restart" then
    set_forceRestart true (set_pendingRestartReason RESTART_USER s)
  else if equals message "ping" then s
  else s.

(** ** MQTT connection and metrics *)

(** [wifiUp], [connectOk], [publishOk]: the readings of [WiFi.status()],
    [client.connect] and the test [client.publish]. *)
Definition reconnectMQTT (wifiUp connectOk publishOk : bool) (s : Sys)
    : bool * Sys :=
  if negb wifiUp then (false, s)
  else if timeElapsed (lastMQTTAttempt s) mqttRetryInterval s then
    let s := set_lastMQTTAttempt (millis s) s in
    let s := set_mqttReconnectCount (wrapInt (mqttReconnectCount s + 1)) s in
    let s := delay 100 s in
    if connectOk then (true, set_lastMQTTMessage (millis s) s)
    else (false, s)
  else (false, s).

(** Readings made by [publishMetrics]: [client.connected()] and
    [WiFi.status()] on entry, then for attempt [k] the result of
    [client.publish] and of the [client.connected()] that follows a
    failure. *)
Record PublishReadings : Type := mkPublishReadings {
  brokerUp : bool;
  wifiUpAtPublish : bool;
  publishResult : nat -> bool;
  brokerUpAfter : nat -> bool
}.

(** The retry loop, [left] attempts remaining, [attempt] the loop index. *)
Fixpoint publishMetrics_try (left attempt : nat) (p : PublishReadings)
    (s : Sys) : bool * Sys :=
  match left with
  | O => (false, s)
  | S left' =>
      if publishResult p attempt then
        (true, set_lastSuccessfulMetrics (millis s) s)
      else if negb (brokerUpAfter p attempt) then (false, s)
      else publishMetrics_try left' (S attempt) p (delay 200 s)
  end.

Definition publishMetrics (p : PublishReadings) (s : Sys) : bool * Sys :=
  if negb (brokerUp p) then (false, s)
  else if negb (wifiUpAtPublish p) then (false, s)
  else publishMetrics_try 3 0 p s.

(** The payload text is built from the state but changes none of it. *)
Definition sendPeriodicMetrics (p : PublishReadings) (s : Sys) : Sys :=
  if timeElapsed (lastAliveTime s) aliveInterval s then
    let s := set_lastAliveTime (millis s) s in
    let (ok, s) := publishMetrics p s in
    if negb ok then
      set_consecutiveFailures (wrapInt (consecutiveFailures s + 1))
        (set_systemHealthy false s)
    else set_consecutiveFailures 0 (set_systemHealthy true s)
  else s.

(** ** Memory check *)

Inductive Result (A : Type) : Type :=
  | Ok (a : A)
  | DivisionByZero.
Arguments Ok {A} a.
Arguments DivisionByZero {A}.

(** [freeHeap] and [maxFreeBlockSize] are the readings of
    [ESP.getFreeHeap()] and [ESP.getMaxFreeBlockSize()].  The first is kept
    in a [uint32_t]; the second is stored in a [uint16_t], which keeps its
    low 16 bits.  The product is an [int] (at most 6553500), the quotient
    and the difference are unsigned 32-bit, and the result is stored in a
    [uint8_t]. *)
Definition checkMemory (freeHeap maxFreeBlockSize : Z) (s : Sys)
    : Result Sys :=
  if timeElapsed (lastMemoryCheck s) memoryCheckInterval s then
    let s := set_lastMemoryCheck (millis s) s in
    let maxFreeBlockSize := maxFreeBlockSize mod 65536 in
    if freeHeap =? 0 then DivisionByZero
    else
      let heapFragmentation :=
        wrap32 (100 - (maxFreeBlockSize * 100) / freeHeap) mod 256 in
      let s := if freeHeap <? minFreeHeap then
                 set_forceRestart true
                   (set_pendingRestartReason RESTART_MEMORY s)
               else s in
      let s := if 85 <? heapFragmentation then
                 set_forceRestart true
                   (set_pendingRestartReason RESTART_MEMORY s)
               else s in
      Ok s
  else Ok s.

(** ** Brew cycle *)

Definition checkStateTimeout (s : Sys) : Sys :=
  if negb (State_eqb (currentState s) IDLE)
     && timeElapsed (eventStartTime s) stateTimeout s
  then set_currentState IDLE s
  else s.

Definition handleCoffeeProcess (s : Sys) : Sys :=
  if State_eqb (currentState s) WAITING
     && timeElapsed (eventStartTime s) coffeeWaitTime s
  then pourCoffee s
  else s.

(** ** setup and loop *)

Definition setup (readOk : bool) (link : nat -> bool) (s : Sys)
    : option Sys :=
  let (valid, s) := readRTCData readOk s in
  let s := if valid then set_coffeePouredCount 0 s else initRTCData s in
  let s := set_bootTime (millis s) s in
  let s := set_lastAliveTime (millis s) s in
  let s := set_lastMemoryCheck (millis s) s in
  let s := set_lastWiFiCheck (millis s) s in
  let s := set_lastMQTTAttempt 0 s in
  let s := set_lastSuccessfulMetrics (millis s) s in
  let s := set_lastMQTTMessage (millis s) s in
  setupWiFi link s.

(** The block of [loop] that saves the coffee count every 10 minutes. *)
Definition loop_rtcUpdate (s : Sys) : Sys :=
  if timeElapsed (lastRTCUpdate s) 600000 s then
    let s := set_lastRTCUpdate (millis s) s in
    let d := rtcData s in
    let d := set_coffeePouredTotal
               (wrap32 (coffeePouredTotal d + coffeePouredCount s)) d in
    let s := set_rtcData d s in
    let s := set_coffeePouredCount 0 s in
    writeRTCData s
  else s.

(** [if (client.connected()) client.loop();] where [client.loop()] hands at
    most one inbound message to [callback]. *)
Definition clientLoop (connected : bool) (msg : option (string * list byte))
    (s : Sys) : Sys :=
  if connected then
    match msg with
    | Some (topic, payload) => callback topic payload s
    | None => s
    end
  else s.

(** Everything one iteration of [loop] reads from outside. *)
Record LoopReadings : Type := mkLoopReadings {
  connected1 : bool;  message1 : option (string * list byte);
  wifiCheck : WiFiReadings;
  connected2 : bool;  wifiUp2 : bool;
  mqttWifiUp : bool;  mqttConnectOk : bool;  mqttPublishOk : bool;
  connected3 : bool;  message3 : option (string * list byte);
  metrics : PublishReadings;
  connected4 : bool;  message4 : option (string * list byte);
  heapFree : Z;  heapMaxBlock : Z;
  connected5 : bool;  message5 : option (string * list byte)
}.

(** How an iteration of [loop] ends. *)
Inductive Outcome : Type :=
  | Running (s : Sys)        (* returned; the next iteration follows *)
  | Restarting (s : Sys)     (* ESP.restart() called in state [s] *)
  | Crashed (s : Sys)        (* integer division by zero in state [s] *)
  | OutOfFuel.

Definition loop (r : LoopReadings) (s : Sys) : Outcome :=
  if forceRestart s then Restarting (performRestart (pendingRestartReason s) s)
  else
    let s := clientLoop (connected1 r) (message1 r) s in
    match checkWiFiConnection (wifiCheck r) s with
    | None => OutOfFuel
    | Some s =>
        let s := if negb (connected2 r) && wifiUp2 r then
                   snd (reconnectMQTT (mqttWifiUp r) (mqttConnectOk r)
                          (mqttPublishOk r) s)
                 else s in
        let s := clientLoop (connected3 r) (message3 r) s in
        let s := handleCoffeeProcess s in
        let s := checkStateTimeout s in
        let s := sendPeriodicMetrics (metrics r) s in
        let s := clientLoop (connected4 r) (message4 r) s in
        match checkMemory (heapFree r) (heapMaxBlock r) s with
        | DivisionByZero =>
            (* the division comes after [lastMemoryCheck = millis()] *)
            Crashed (set_lastMemoryCheck (millis s) s)
        | Ok s =>
            let s := loop_rtcUpdate s in
            let s := clientLoop (connected5 r) (message5 r) s in
            Running (delay 50 s)
        end
    end.

(** The core calls [loop] again and again; a run over a list of readings,
    one per iteration, stops at the first iteration that does not return. *)
Fixpoint runLoop (rs : list LoopReadings) (s : Sys) : Outcome :=
  match rs with
  | [] => Running s
  | r :: rs' =>
      match loop r s with
      | Running s' => runLoop rs' s'
      | o => o
      end
  end.

(** ** Vocabulary of the properties *)

(** The command a payload is taken for by the comparisons of [callback]. *)
Inductive Command : Type := CmdOn | CmdReset | CmdRestart | CmdPing | CmdOther.

Definition commandOf (payload : list byte) : Command :=
  let message := trim (string_of_list_byte payload) in
  if equals message "on" then CmdOn
  else if equals message "reset" then CmdReset
  else if equals message "restart" then CmdRestart
  else if equals message "ping" then CmdPing
  else CmdOther.

(** The block with the byte at index [i] replaced by [v]. *)
Definition setByte (i : nat) (v : byte) (blk : list byte) : list byte :=
  firstn i blk ++ v :: skipn (S i) blk.

(** Sum of the per-reason counters of the record. *)
Definition sumRestarts (d : RTCData) : Z :=
  watchdogRestarts d + memoryRestarts d + wifiRestarts d + mqttRestarts d +
  healthRestarts d + userRestarts d + unknownRestarts d.

(** Operations on the persistent store, as the sketch performs them. *)
Inductive StoreOp : Type :=
  | OpRecordRestart (reason : RestartReason)
  | OpCheckpoint
  | OpMessage (topic : string) (payload : list byte)
  | OpPour
  | OpDelay (ms : Z).

Definition applyOp (s : Sys) (op : StoreOp) : Sys :=
  match op with
  | OpRecordRestart reason => recordRestart reason s
  | OpCheckpoint => loop_rtcUpdate s
  | OpMessage topic payload => callback topic payload s
  | OpPour => pourCoffee s
  | OpDelay ms => delay ms s
  end.

Definition runOps (ops : list StoreOp) (s : Sys) : Sys :=
  fold_left applyOp ops s.

Fixpoint restartCount (ops : list StoreOp) : Z :=
  match ops with
  | [] => 0
  | OpRecordRestart _ :: r => 1 + restartCount r
  | _ :: r => restartCount r
  end.

(** The bit-serial form of the CRC used in the proofs: one shift of the
    register with the incoming bit [b]. *)
Definition bitstep (b : bool) (crc : Z) : Z :=
  Z.lxor (wrap32 (Z.shiftl crc 1))
         (if xorb (Z.testbit crc 31) b then 0x04c11db7 else 0).

Definition bitsRun (bs : list bool) (s : Z) : Z := fold_right bitstep s bs.

Definition byteBits (c : Z) : list bool :=
  map (fun i => negb (Z.land c i =? 0)) [1; 2; 4; 8; 16; 32; 64; 128].

Definition bitsValue (bs : list bool) : Z :=
  fold_right (fun b acc => Z.b2z b + 2 * acc) 0 bs.

(** [x] and [y] have the same [m] low bits. *)
Definition agree (m x y : Z) : Prop :=
  forall k, 0 <= k < m -> Z.testbit x k = Z.testbit y k.

(** ** Scenarios used by the examples *)

(** Five cups, a checkpoint, two more cups. *)
Definition fiveThenTwo : list StoreOp :=
  [OpPour; OpPour; OpPour; OpPour; OpPour; OpDelay 600000; OpCheckpoint;
   OpPour; OpPour].

(** The access point is down at every reading. *)
Definition wifiDown : WiFiReadings :=
  mkWiFiReadings false false (fun _ => false) false.

(** A healthy system exactly 24 hours after [bootTime] was stamped. *)
Definition healthyAt24h : Sys :=
  set_mqttReconnectCount 4
    (set_wifiReconnectCount 3
       (set_lastMQTTMessage 86400000
          (set_lastSuccessfulMetrics 86400000
             (set_millis 86400000 (boot []))))).

(** A healthy system 120 s after [bootTime] was stamped, the counter
    having wrapped in between. *)
Definition healthyAfterWrap : Sys :=
  set_mqttReconnectCount 4
    (set_wifiReconnectCount 3
       (set_bootTime 4294960000
          (set_lastMQTTMessage 100000
             (set_lastSuccessfulMetrics 100000
                (set_millis 112704 (boot [])))))).

(** A healthy system 25 hours after [bootTime] was stamped. *)
Definition healthyAt25h : Sys :=
  set_mqttReconnectCount 4
    (set_wifiReconnectCount 3
       (set_lastMQTTMessage 90000000
          (set_lastSuccessfulMetrics 90000000
             (set_millis 90000000 (boot []))))).

(** The command topic and some payloads. *)
Definition commandTopic : string := "cafeteira/start".
Definition payloadOn : list byte := list_byte_of_string "on".
Definition payloadRestart : list byte := list_byte_of_string "restart".
Definition payloadReset : list byte := list_byte_of_string "reset".
Definition payloadOther : list byte := list_byte_of_string "status?".

(** An idle system 1296 ms before the counter wraps. *)
Definition idleBeforeWrap : Sys := set_millis 4294966000 (boot []).

(** An idle system in the middle of the counter's range. *)
Definition idleAtNoon : Sys := set_millis 43200000 (boot []).

(** The state in which [loop] first runs after a cold boot: the RTC block
    does not validate and the access point answers at once. *)
Definition poweredOn : Sys :=
  match setup false (fun _ => true) (boot []) with
  | Some s => s
  | None => boot []
  end.

Definition pubDown : PublishReadings :=
  mkPublishReadings false false (fun _ => false) (fun _ => false).

Definition pubOk : PublishReadings :=
  mkPublishReadings true true (fun _ => true) (fun _ => true).

Definition wifiUp : WiFiReadings :=
  mkWiFiReadings true false (fun _ => true) true.

(** An iteration before the broker connection is made: WiFi is up, the
    broker accepts a connection when one is attempted. *)
Definition connecting : LoopReadings :=
  mkLoopReadings false None wifiUp false true true true true
    false None pubDown false None 30000 20000 false None.

(** An iteration with both links up, no inbound message, every publish
    accepted, 30000 bytes free. *)
Definition online : LoopReadings :=
  mkLoopReadings true None wifiUp true true true true true
    true None pubOk true None 30000 20000 true None.

(** An iteration in which the access point and the broker are down. *)
Definition linksDown : LoopReadings :=
  mkLoopReadings false None wifiDown false false false false false
    false None pubDown false None 30000 20000 false None.

(** An iteration in which the access point and the broker are down and the
    free heap reads 500 bytes. *)
Definition linksDownLowHeap : LoopReadings :=
  mkLoopReadings false None wifiDown false false false false false
    false None pubDown false None 500 400 false None.

(** Four minutes on line after a cold boot (99 iterations until the broker
    connection is made at 5 s, then 4697 iterations of 50 ms), then one
    iteration with the links down and the heap low. *)
Definition linkJustLost : Outcome :=
  runLoop (repeat connecting 99 ++ repeat online 4697 ++ [linksDownLowHeap])
          poweredOn.

(** Three and a half minutes on line after a cold boot, then two
    iterations with the links down. *)
Definition twoAttemptsFailed : Outcome :=
  runLoop (repeat connecting 99 ++ repeat online 4097
           ++ [linksDown; linksDown])
          poweredOn.

(** A WiFi restart request is pending and the memory check is due. *)
Definition wifiRestartPending : Sys :=
  set_forceRestart true
    (set_pendingRestartReason RESTART_WIFI (set_millis 300000 (boot []))).

(** 2^32 - 1 user restarts followed by one WiFi restart. *)
Definition manyRestarts : list StoreOp :=
  repeat (OpRecordRestart RESTART_USER) (Z.to_nat 4294967295)
  ++ [OpRecordRestart RESTART_WIFI].

(** Counters of a record that are non-negative, add up to [totalRestarts]
    modulo 2^32, and to at most [n]. *)
Definition countersOk (n : Z) (d : RTCData) : Prop :=
  0 <= watchdogRestarts d /\ 0 <= memoryRestarts d /\ 0 <= wifiRestarts d /\
  0 <= mqttRestarts d /\ 0 <= healthRestarts d /\ 0 <= userRestarts d /\
  0 <= unknownRestarts d /\
  totalRestarts d = wrap32 (sumRestarts d) /\
  sumRestarts d <= n.

(** Two records with the same restart counters. *)
Definition sameCounters (d d' : RTCData) : Prop :=
  totalRestarts d' = totalRestarts d /\
  watchdogRestarts d' = watchdogRestarts d /\
  memoryRestarts d' = memoryRestarts d /\
  wifiRestarts d' = wifiRestarts d /\
  mqttRestarts d' = mqttRestarts d /\
  healthRestarts d' = healthRestarts d /\
  userRestarts d' = userRestarts d /\
  unknownRestarts d' = unknownRestarts d.

(** ** Vocabulary of the further properties *)

(** The part of the state that belongs to the brew cycle and to the
    persistent store. *)
Definition brewAndStore (s : Sys)
    : RTCData * list byte * State * Z * Z * list Z :=
  (rtcData s, rtcMem s, currentState s, eventStartTime s,
   coffeePouredCount s, relayLog s).

(** The restart request. *)
Definition request (s : Sys) : bool * RestartReason :=
  (forceRestart s, pendingRestartReason s).

(** Every field of the record is a 32-bit value. *)
Definition u32 (x : Z) : Prop := 0 <= x < 4294967296.

Definition rtcInRange (d : RTCData) : Prop :=
  u32 (crc32 d) /\ u32 (totalRestarts d) /\ u32 (watchdogRestarts d) /\
  u32 (memoryRestarts d) /\ u32 (wifiRestarts d) /\ u32 (mqttRestarts d) /\
  u32 (healthRestarts d) /\ u32 (userRestarts d) /\
  u32 (unknownRestarts d) /\ u32 (lastRestartReason d) /\
  u32 (coffeePouredTotal d).

(** The RTC memory holds the bytes of the record, and the record carries
    the CRC of its own data. *)
Definition inSync (s : Sys) : Prop :=
  rtcMem s = rtcBytes (rtcData s) /\
  crc32 (rtcData s) = calculateCRC32 (skipn 4 (rtcBytes (rtcData s))).

(** A software restart: the globals get their power-on values, the RTC
    memory is kept. *)
Definition reboot (s : Sys) : Sys := boot (rtcMem s).

(** The value [sendPeriodicMetrics] reports as ["coffee_poured_total"]:
    [rtcData.coffeePouredTotal + coffeePouredCount]. *)
Definition reportedCoffeeTotal (s : Sys) : Z :=
  wrap32 (coffeePouredTotal (rtcData s) + coffeePouredCount s).

(** The block with the four bytes from offset [off] replaced by [w]. *)
Definition setWord (off : nat) (w : list byte) (blk : list byte)
    : list byte :=
  firstn off blk ++ w ++ skipn (off + 4) blk.

(** The 8-bit value [checkMemory] computes as heap fragmentation, from
    the low 16 bits of the block reading. *)
Definition heapFragmentationOf (freeHeap maxFreeBlockSize : Z) : Z :=
  wrap32 (100 - ((maxFreeBlockSize mod 65536) * 100) / freeHeap) mod 256.

(** Number of pours in a list of store operations, and the lists made of
    pours, checkpoints and delays only. *)
Fixpoint pourCount (ops : list StoreOp) : Z :=
  match ops with
  | [] => 0
  | OpPour :: r => 1 + pourCount r
  | _ :: r => pourCount r
  end.

Definition isBrewOp (op : StoreOp) : bool :=
  match op with
  | OpPour | OpCheckpoint | OpDelay _ => true
  | _ => false
  end.


(** A call of [client.loop()] that hands a restart command to [callback]. *)
Definition deliversRestart (connected : bool)
    (msg : option (string * list byte)) : bool :=
  connected &&
  match msg with
  | Some (_, payload) =>
      match commandOf payload with CmdRestart => true | _ => false end
  | None => false
  end.

(** One of the four calls of [client.loop()] of an iteration does. *)
Definition restartCommanded (r : LoopReadings) : bool :=
  deliversRestart (connected1 r) (message1 r)
  || deliversRestart (connected3 r) (message3 r)
  || deliversRestart (connected4 r) (message4 r)
  || deliversRestart (connected5 r) (message5 r).

(** An iteration with both links up in which the first [client.loop()]
    delivers a restart command. *)
Definition restartOrdered : LoopReadings :=
  mkLoopReadings true (Some (commandTopic, payloadRestart)) wifiUp true true
    true true true true None pubOk true None 30000 20000 true None.
(* ================================================================== *)
(** * Part II: properties                                              *)
(* ================================================================== *)

(** ** The CRC changes whenever one byte of the data changes *)

(** The register computed by [calculateCRC32] (polynomial 0x04C11DB7, most
    significant bit first, initial value 0xFFFFFFFF, no final inversion) on
    the usual check string. *)
Example calculateCRC32_check :
  calculateCRC32 (list_byte_of_string "123456789") = 0x0376E6E7.
Proof. vm_compute. reflexivity. Qed.

Example rtcBytes_initial :
  firstn 8 (rtcMem (initRTCData (boot [])))
  = [xa9; xc3; xe7; xf4; x00; x00; x00; x00].
Proof. vm_compute. reflexivity. Qed.

Lemma land_pow2_testbit a n : 0 <= n ->
  negb (Z.land a (2 ^ n) =? 0) = Z.testbit a n.
Proof.
  intros Hn. destruct (Z.testbit a n) eqn:E.
  - apply negb_true_iff, Z.eqb_neq. intro H0.
    assert (Z.testbit (Z.land a (2 ^ n)) n = true).
    { rewrite Z.land_spec, E, Z.pow2_bits_true; auto. }
    rewrite H0, Z.bits_0 in H. discriminate.
  - apply negb_false_iff, Z.eqb_eq, Z.bits_inj_0. intro k.
    rewrite Z.land_spec.
    destruct (Z.eq_dec n k) as [->|Hk].
    + rewrite E. reflexivity.
    + rewrite (Z.pow2_bits_false n k) by assumption. apply andb_false_r.
Qed.

Lemma crcBit_bitstep c crc i :
  crcBit c crc i = bitstep (negb (Z.land c i =? 0)) crc.
Proof.
  unfold crcBit, bitstep.
  change 0x80000000 with (2 ^ 31).
  rewrite land_pow2_testbit by lia.
  destruct (negb (Z.land c i =? 0)), (Z.testbit crc 31); cbn [negb xorb];
    now rewrite ?Z.lxor_0_r.
Qed.

Lemma bitstep_spec b t k : 0 <= k < 32 ->
  Z.testbit (bitstep b t) k =
  xorb (Z.testbit t (k - 1))
       (xorb (Z.testbit t 31) b && Z.testbit 0x04c11db7 k).
Proof.
  intros Hk. unfold bitstep, wrap32.
  rewrite Z.lxor_spec. change 4294967296 with (2 ^ 32).
  rewrite Z.mod_pow2_bits_low by lia.
  rewrite Z.shiftl_spec by lia. f_equal.
  destruct (xorb (Z.testbit t 31) b); cbn [andb]; auto using Z.bits_0.
Qed.

Lemma bitstep_range b t : 0 <= bitstep b t < 4294967296.
Proof.
  assert (H : bitstep b t = bitstep b t mod 2 ^ 32).
  { apply Z.bits_inj'. intros k Hk.
    rewrite Z.testbit_mod_pow2 by lia.
    destruct (k <? 32) eqn:E; cbn [andb]; [reflexivity|].
    apply Z.ltb_ge in E. unfold bitstep, wrap32.
    change 4294967296 with (2 ^ 32).
    rewrite Z.lxor_spec, Z.mod_pow2_bits_high by lia.
    destruct (xorb (Z.testbit t 31) b); cbn [xorb]; [|apply Z.bits_0].
    change 0x04c11db7 with (0x04c11db7 mod 2 ^ 32).
    apply Z.mod_pow2_bits_high. lia. }
  rewrite H. change 4294967296 with (2 ^ 32). apply Z.mod_pos_bound. lia.
Qed.

Lemma bitstep_low b b' t t' m : 1 <= m <= 32 ->
  agree m (bitstep b t) (bitstep b' t') ->
  xorb (Z.testbit t 31) b = xorb (Z.testbit t' 31) b' /\ agree (m - 1) t t'.
Proof.
  intros Hm H.
  assert (F : xorb (Z.testbit t 31) b = xorb (Z.testbit t' 31) b').
  { specialize (H 0 ltac:(lia)). rewrite !bitstep_spec in H by lia.
    rewrite !Z.testbit_neg_r in H by lia.
    change (Z.testbit 0x04c11db7 0) with true in H.
    rewrite !andb_true_r in H. exact H. }
  split; [exact F|]. intros k Hk.
  specialize (H (k + 1) ltac:(lia)). rewrite !bitstep_spec in H by lia.
  replace (k + 1 - 1) with k in H by lia. rewrite F in H.
  eapply xorb_move_l_r_2 in H. rewrite H.
  now rewrite xorb_assoc, xorb_nilpotent, xorb_false_r.
Qed.

Lemma agree_eq x y : 0 <= x < 4294967296 -> 0 <= y < 4294967296 ->
  agree 32 x y -> x = y.
Proof.
  intros Hx Hy H.
  rewrite <- (Z.mod_small x (2 ^ 32)), <- (Z.mod_small y (2 ^ 32)) by (change (2^32) with 4294967296; lia).
  apply Z.bits_inj'. intros k Hk. rewrite !Z.testbit_mod_pow2 by lia.
  destruct (k <? 32) eqn:E; cbn [andb]; [|reflexivity].
  apply H. apply Z.ltb_lt in E. lia.
Qed.

Lemma crcByte_bitsRun crc c : crcByte crc c = bitsRun (byteBits (byteZ c)) crc.
Proof.
  unfold crcByte, byteBits, bitsRun. cbn [crcBits map fold_right].
  rewrite !crcBit_bitstep. reflexivity.
Qed.

Lemma bitsRun_inj bs : forall bs' s m,
  List.length bs = List.length bs' -> Z.of_nat (List.length bs) <= m <= 32 ->
  agree m (bitsRun bs s) (bitsRun bs' s) -> bs = bs'.
Proof.
  induction bs as [|b q IH]; intros [|b' q'] s m Hl Hm H; try discriminate; auto.
  cbn [List.length] in Hl, Hm. injection Hl as Hl. cbn [bitsRun fold_right] in H.
  apply bitstep_low in H; [|lia]. destruct H as [F A].
  assert (q = q') as <-.
  { eapply (IH q' s (m - 1)); auto. lia. }
  f_equal. fold (bitsRun q s) in F.
  destruct b, b', (Z.testbit (bitsRun q s) 31); cbn in F; congruence.
Qed.

Lemma bitsValue_byteBits c : bitsValue (byteBits (byteZ c)) = byteZ c.
Proof. destruct c; reflexivity. Qed.

Lemma byteZ_inj c c' : byteZ c = byteZ c' -> c = c'.
Proof.
  unfold byteZ. intros H. apply N2Z.inj in H.
  pose proof (Byte.of_to_N c) as E. rewrite H, Byte.of_to_N in E. congruence.
Qed.

Lemma crcByte_range crc c : 0 <= crcByte crc c < 4294967296.
Proof. rewrite crcByte_bitsRun. apply bitstep_range. Qed.

Lemma crcByte_inj_byte crc c c' : crcByte crc c = crcByte crc c' -> c = c'.
Proof.
  rewrite !crcByte_bitsRun. intros H.
  apply byteZ_inj. rewrite <- (bitsValue_byteBits c), <- (bitsValue_byteBits c').
  f_equal. apply (bitsRun_inj _ _ crc 32); [reflexivity|cbn; lia|].
  intros k _. now rewrite H.
Qed.

Lemma bitstep_inj_state b t t' :
  0 <= t < 4294967296 -> 0 <= t' < 4294967296 ->
  bitstep b t = bitstep b t' -> t = t'.
Proof.
  intros Ht Ht' H. apply agree_eq; auto.
  destruct (bitstep_low b b t t' 32) as [F A]; [lia| intros k _; now rewrite H |].
  intros k Hk. destruct (Z.eq_dec k 31) as [->|Hne].
  - destruct b, (Z.testbit t 31), (Z.testbit t' 31); cbn in F; congruence.
  - apply A. lia.
Qed.

Lemma bitsRun_range bs t : 0 <= t < 4294967296 -> 0 <= bitsRun bs t < 4294967296.
Proof. destruct bs; cbn [bitsRun fold_right]; auto using bitstep_range. Qed.

Lemma bitsRun_inj_state bs t t' :
  0 <= t < 4294967296 -> 0 <= t' < 4294967296 ->
  bitsRun bs t = bitsRun bs t' -> t = t'.
Proof.
  intros Ht Ht'. induction bs as [|b q IH]; cbn [bitsRun fold_right]; auto.
  intros H. apply IH. eapply bitstep_inj_state; eauto using bitsRun_range.
Qed.

Lemma crcByte_inj_state c t t' :
  0 <= t < 4294967296 -> 0 <= t' < 4294967296 ->
  crcByte t c = crcByte t' c -> t = t'.
Proof. rewrite !crcByte_bitsRun. apply bitsRun_inj_state. Qed.

Lemma crcFold_range l : forall t, 0 <= t < 4294967296 ->
  0 <= fold_left crcByte l t < 4294967296.
Proof.
  induction l as [|c l IH]; cbn [fold_left]; intros t Ht; [assumption|].
  apply IH, crcByte_range.
Qed.

Lemma crcFold_inj_state l : forall t t',
  0 <= t < 4294967296 -> 0 <= t' < 4294967296 ->
  fold_left crcByte l t = fold_left crcByte l t' -> t = t'.
Proof.
  induction l as [|c l IH]; cbn [fold_left]; intros t t' Ht Ht' H; auto.
  apply IH in H; auto using crcByte_range.
  eapply crcByte_inj_state; eauto.
Qed.

Lemma crc_single_byte_change pre c c' post :
  c <> c' ->
  calculateCRC32 (pre ++ c :: post) <> calculateCRC32 (pre ++ c' :: post).
Proof.
  intros Hc H. unfold calculateCRC32 in H.
  rewrite !fold_left_app in H. cbn [fold_left] in H.
  apply crcFold_inj_state in H; auto using crcByte_range.
  apply crcByte_inj_byte in H. contradiction.
Qed.

(** ** The record and its block of bytes *)

Lemma byteZ_range b : 0 <= byteZ b < 256.
Proof.
  unfold byteZ. pose proof (Byte.to_N_bounded b). lia.
Qed.

Lemma Zbyte_byteZ b : Zbyte (byteZ b) = b.
Proof.
  unfold Zbyte. rewrite Z.mod_small by apply byteZ_range.
  unfold byteZ. now rewrite N2Z.id, Byte.of_to_N.
Qed.

Lemma Zbyte_low b k : Zbyte (byteZ b + 256 * k) = b.
Proof.
  unfold Zbyte. rewrite (Z.mul_comm 256 k), Z_mod_plus_full.
  apply Zbyte_byteZ.
Qed.

Lemma div_low b k : (byteZ b + 256 * k) / 256 = k.
Proof.
  pose proof (byteZ_range b).
  rewrite (Z.mul_comm 256 k), Z.div_add by lia.
  rewrite Z.div_small; lia.
Qed.

Lemma le32_u32 b0 b1 b2 b3 :
  le32 (byteZ b0 + 256 * byteZ b1 + 65536 * byteZ b2 + 16777216 * byteZ b3)
  = [b0; b1; b2; b3].
Proof.
  set (x := byteZ b0 + 256 * byteZ b1 + 65536 * byteZ b2 +
            16777216 * byteZ b3).
  assert (E1 : x = byteZ b0 + 256 * (byteZ b1 + 256 * (byteZ b2 + 256 * byteZ b3)))
    by (unfold x; ring).
  unfold le32.
  change 65536 with (256 * 256). change 16777216 with (256 * 256 * 256).
  rewrite <- !Z.div_div by lia.
  rewrite E1, !div_low, !Zbyte_low, Zbyte_byteZ. reflexivity.
Qed.

Lemma rtcBytes_length d : List.length (rtcBytes d) = 44%nat.
Proof. reflexivity. Qed.

Lemma rtcBytes_rtcOfBytes blk :
  List.length blk = 44%nat -> rtcBytes (rtcOfBytes blk) = blk.
Proof.
  intros H.
  do 44 (destruct blk as [|? blk]; [discriminate H|]).
  destruct blk; [|discriminate H].
  unfold rtcBytes, rtcOfBytes, u32At.
  cbn [crc32 totalRestarts watchdogRestarts memoryRestarts wifiRestarts
       mqttRestarts healthRestarts userRestarts unknownRestarts
       lastRestartReason coffeePouredTotal nth Nat.add].
  rewrite !le32_u32. reflexivity.
Qed.

Lemma skipn4_rtcBytes_set_crc32 v d :
  skipn 4 (rtcBytes (set_crc32 v d)) = skipn 4 (rtcBytes d).
Proof. reflexivity. Qed.

Lemma byteZ_Zbyte z : byteZ (Zbyte z) = z mod 256.
Proof.
  unfold Zbyte, byteZ.
  assert (R : 0 <= z mod 256 < 256) by (apply Z.mod_pos_bound; lia).
  destruct (Byte.of_N (Z.to_N (z mod 256))) as [b|] eqn:E.
  - apply Byte.to_of_N in E. rewrite E. lia.
  - exfalso. pose proof (Byte.of_N_None_iff (Z.to_N (z mod 256))) as [H _].
    specialize (H E). lia.
Qed.

Lemma u32At_le32 x rest : 0 <= x < 4294967296 -> u32At (le32 x ++ rest) 0 = x.
Proof.
  intros Hx. unfold u32At, le32. cbn [app nth Nat.add].
  rewrite !byteZ_Zbyte.
  change 65536 with (256 * 256). change 16777216 with (256 * 256 * 256).
  rewrite <- !Z.div_div by lia.
  pose proof (Z.div_mod x 256 ltac:(lia)).
  pose proof (Z.div_mod (x / 256) 256 ltac:(lia)).
  pose proof (Z.div_mod (x / 256 / 256) 256 ltac:(lia)).
  assert (x / 256 / 256 / 256 < 256).
  { rewrite !Z.div_div by lia. apply Z.div_lt_upper_bound; lia. }
  assert (0 <= x / 256 / 256 / 256) by (rewrite !Z.div_div by lia; apply Z.div_pos; lia).
  rewrite (Z.mod_small (x / 256 / 256 / 256)) by lia.
  lia.
Qed.

Lemma calculateCRC32_range data : 0 <= calculateCRC32 data < 4294967296.
Proof. apply crcFold_range. lia. Qed.

Lemma nth_middle_split (l : list byte) : forall j,
  (j < List.length l)%nat -> l = firstn j l ++ nth j l x00 :: skipn (S j) l.
Proof.
  induction l as [|a l IH]; intros [|j] H; cbn in *; try lia; auto.
  f_equal. apply IH. lia.
Qed.

(** What [readRTCData] compares, for a block of 44 bytes. *)
Lemma readRTCData_spec s :
  List.length (rtcMem s) = 44%nat ->
  fst (readRTCData true s)
  = (calculateCRC32 (skipn 4 (rtcMem s)) =? u32At (rtcMem s) 0).
Proof.
  intros H. unfold readRTCData.
  cbn [rtcData set_rtcData]. rewrite rtcBytes_rtcOfBytes by exact H.
  cbn [rtcOfBytes crc32].
  now destruct (calculateCRC32 (skipn 4 (rtcMem s)) =? u32At (rtcMem s) 0).
Qed.

Lemma rtcMem_writeRTCData s :
  rtcMem (writeRTCData s)
  = le32 (calculateCRC32 (skipn 4 (rtcBytes (rtcData s))))
    ++ skipn 4 (rtcBytes (rtcData s)).
Proof. reflexivity. Qed.

Lemma setByte_length i v (blk : list byte) :
  (i < List.length blk)%nat -> List.length (setByte i v blk) = List.length blk.
Proof.
  intros H. unfold setByte.
  rewrite List.length_app. cbn [List.length].
  rewrite List.length_firstn, List.length_skipn. lia.
Qed.

(** A block made of a CRC followed by its data checks, and stops checking
    when any one of its bytes is replaced by a different one. *)
Lemma block_check (rest : list byte) :
  let blk := le32 (calculateCRC32 rest) ++ rest in
  (calculateCRC32 (skipn 4 blk) =? u32At blk 0) = true /\
  forall i v, (i < 4 + List.length rest)%nat -> v <> nth i blk x00 ->
    (calculateCRC32 (skipn 4 (setByte i v blk))
     =? u32At (setByte i v blk) 0) = false.
Proof.
  intros blk.
  pose proof (calculateCRC32_range rest) as R.
  assert (U : u32At blk 0 = calculateCRC32 rest)
    by (apply u32At_le32; exact R).
  split.
  - rewrite U. apply Z.eqb_eq. reflexivity.
  - intros i v Hi Hv. apply Z.eqb_neq.
    destruct (Nat.lt_ge_cases i 4) as [Hlt|Hge].
    + (* the stored CRC is hit, the data is not *)
      assert (D : skipn 4 (setByte i v blk) = rest).
      { do 4 (destruct i as [|i]; [reflexivity|]). lia. }
      rewrite D, <- U. intros E. symmetry in E.
      apply (f_equal le32) in E. revert E Hv.
      unfold blk, u32At, le32 at 2 4.
      do 4 (destruct i as [|i];
            [ cbn [setByte firstn skipn app nth Nat.add];
              rewrite !le32_u32; intros E Hv; injection E; intros;
              apply Hv; assumption |]).
      lia.
    + (* a data byte is hit, the stored CRC is not *)
      destruct i as [|[|[|[|j]]]]; try lia.
      assert (Hj : (j < List.length rest)%nat) by lia.
      assert (D : skipn 4 (setByte (4 + j) v blk)
                  = firstn j rest ++ v :: skipn (S j) rest) by reflexivity.
      assert (U' : u32At (setByte (4 + j) v blk) 0 = u32At blk 0)
        by reflexivity.
      change (S (S (S (S j)))) with (4 + j)%nat.
      rewrite D, U', U. intros E.
      assert (M : calculateCRC32 rest
                  = calculateCRC32 (firstn j rest ++ nth j rest x00
                                      :: skipn (S j) rest))
        by (rewrite <- nth_middle_split; auto).
      rewrite M in E. revert E.
      apply crc_single_byte_change. exact Hv.
Qed.

(** C7.  Writing the record and reading back the same 44 bytes validates;
    reading a block that differs from the written one in any single byte
    (at any index, to any other value) does not. *)
Theorem C7_checksum_roundtrip (s s' : Sys) :
  (rtcMem s' = rtcMem (writeRTCData s) -> fst (readRTCData true s') = true) /\
  (forall (i : nat) (v : byte),
      (i < 44)%nat ->
      v <> nth i (rtcMem (writeRTCData s)) x00 ->
      rtcMem s' = setByte i v (rtcMem (writeRTCData s)) ->
      fst (readRTCData true s') = false).
Proof.
  pose proof (block_check (skipn 4 (rtcBytes (rtcData s)))) as [Hok Hbad].
  rewrite <- rtcMem_writeRTCData in Hok, Hbad.
  assert (L : List.length (rtcMem (writeRTCData s)) = 44%nat) by reflexivity.
  split.
  - intros E. rewrite readRTCData_spec by (rewrite E; exact L).
    rewrite E. exact Hok.
  - intros i v Hi Hv E.
    rewrite readRTCData_spec by (rewrite E, setByte_length; lia).
    rewrite E. apply Hbad; [|exact Hv].
    change (List.length (skipn 4 (rtcBytes (rtcData s)))) with 40%nat. lia.
Qed.

(** The statement of C7 at a concrete input. *)
Lemma C7_witness :
  fst (readRTCData true (writeRTCData (boot []))) = true /\
  fst (readRTCData true
         (set_rtcMem (setByte 5 xff (rtcMem (writeRTCData (boot []))))
                     (boot []))) = false.
Proof.
  split.
  - apply (proj1 (C7_checksum_roundtrip (boot []) (writeRTCData (boot [])))).
    reflexivity.
  - apply (proj2 (C7_checksum_roundtrip (boot []) _) 5%nat xff).
    + lia.
    + vm_compute. discriminate.
    + reflexivity.
Defined.

(** ** The clock predicate *)

Lemma wrap32_range z : 0 <= wrap32 z < 4294967296.
Proof. unfold wrap32. apply Z.mod_pos_bound. lia. Qed.

Lemma wrap32_small z : 0 <= z < 4294967296 -> wrap32 z = z.
Proof. unfold wrap32. apply Z.mod_small. Qed.

Lemma timeElapsed_true since interval s :
  timeElapsed since interval s = true <->
  interval <= wrap32 (millis s - since) \/ millis s < since.
Proof.
  unfold timeElapsed. rewrite orb_true_iff, Z.leb_le, Z.ltb_lt. reflexivity.
Qed.

Lemma timeElapsed_false since interval s :
  timeElapsed since interval s = false <->
  wrap32 (millis s - since) < interval /\ since <= millis s.
Proof.
  unfold timeElapsed. rewrite orb_false_iff, Z.leb_gt, Z.ltb_ge. reflexivity.
Qed.

(** C2 as stated fails: 15 ms after a stamp taken 10 ms before the counter
    wraps, the wrapped difference (15) is below the interval (1000), yet
    [timeElapsed] answers true. *)
Lemma C2_counterexample :
  let s := set_millis 5 (boot []) in
  let since := 4294967286 in
  let interval := 1000 in
  ~ ((timeElapsed since interval s = true <->
      interval <= wrap32 (millis s - since)) /\
     (millis s < since -> timeElapsed since interval s = true)).
Proof.
  cbv zeta. intros [[H _] _].
  assert (E : timeElapsed 4294967286 1000 (set_millis 5 (boot [])) = true)
    by reflexivity.
  specialize (H E). vm_compute in H. apply H. reflexivity.
Qed.

(** C2 (amended).  [timeElapsed since interval], read when the counter shows
    [millis s], is true exactly when the wrapped difference is at least the
    interval or the counter reads below the stamp; so it is always true
    when the counter reads below the stamp, and when it does not it is
    true exactly when the plain difference is at least the interval. *)
Theorem C2_timeElapsed_spec (since interval : Z) (s : Sys) :
  (timeElapsed since interval s = true <->
   interval <= wrap32 (millis s - since) \/ millis s < since) /\
  (millis s < since -> timeElapsed since interval s = true) /\
  (0 <= since <= millis s -> millis s < 4294967296 ->
   (timeElapsed since interval s = true <-> interval <= millis s - since)).
Proof.
  split; [apply timeElapsed_true|]. split.
  - intros H. apply timeElapsed_true. now right.
  - intros H1 H2. rewrite timeElapsed_true, wrap32_small by lia. lia.
Qed.

(** The statement of C2 at a concrete input. *)
Lemma C2_witness :
  timeElapsed 4294967286 1000 (set_millis 5 (boot [])) = true /\
  (timeElapsed 1000 500 (set_millis 1500 (boot [])) = true <->
   500 <= 1500 - 1000).
Proof.
  split.
  - apply (proj1 (proj2 (C2_timeElapsed_spec 4294967286 1000
                           (set_millis 5 (boot []))))).
    cbn. lia.
  - apply (proj2 (proj2 (C2_timeElapsed_spec 1000 500
                           (set_millis 1500 (boot []))))).
    + cbn. lia.
    + cbn. lia.
Defined.

(** ** The all-time coffee count *)

Lemma recordRestart_coffeePouredTotal reason s :
  coffeePouredTotal (rtcData (recordRestart reason s)) = coffeePouredCount s.
Proof. destruct reason; reflexivity. Qed.

Lemma loop_rtcUpdate_coffeePouredTotal s :
  timeElapsed (lastRTCUpdate s) 600000 s = true ->
  coffeePouredTotal (rtcData (loop_rtcUpdate s))
  = wrap32 (coffeePouredTotal (rtcData s) + coffeePouredCount s) /\
  coffeePouredCount (loop_rtcUpdate s) = 0.
Proof. intros H. unfold loop_rtcUpdate. rewrite H. split; reflexivity. Qed.

(** C1.  [recordRestart] stores the session count over the all-time count
    instead of adding it: after five cups and a checkpoint the record holds
    5; two cups later the session count is 2 and the record still holds 5;
    [recordRestart] leaves 2 in the record, not 7. *)
Theorem C1_recordRestart_overwrites_total :
  let before := runOps fiveThenTwo (initRTCData (boot [])) in
  let after := recordRestart RESTART_USER before in
  coffeePouredTotal (rtcData before) = 5 /\
  coffeePouredCount before = 2 /\
  coffeePouredTotal (rtcData after) = 2 /\
  (forall reason s,
      coffeePouredTotal (rtcData (recordRestart reason s))
      = coffeePouredCount s).
Proof.
  cbv zeta. split; [|split; [|split]].
  - vm_compute. reflexivity.
  - vm_compute. reflexivity.
  - vm_compute. reflexivity.
  - apply recordRestart_coffeePouredTotal.
Qed.

(** ** The memory check *)

(** C10.  With the check due and a free heap reading of 0 the division
    [(maxFreeBlockSize * 100) / freeHeap] has a zero divisor; it comes
    before the low-memory test, and nothing guards it. *)
Theorem C10_checkMemory_divides_by_zero (maxFreeBlockSize : Z) (s : Sys) :
  checkMemory 0 maxFreeBlockSize (set_millis 300000 (boot [])) = DivisionByZero /\
  (timeElapsed (lastMemoryCheck s) memoryCheckInterval s = true ->
   checkMemory 0 maxFreeBlockSize s = DivisionByZero).
Proof.
  split; [reflexivity|].
  intros H. unfold checkMemory. rewrite H. reflexivity.
Qed.

(** The statement of C10 at a concrete input. *)
Lemma C10_witness :
  checkMemory 0 0 (set_millis 300000 (boot [])) = DivisionByZero.
Proof.
  apply (proj2 (C10_checkMemory_divides_by_zero 0 (set_millis 300000 (boot [])))).
  reflexivity.
Defined.

(** ** The health check *)

(** C6 as stated fails.  Exactly 24 hours after the stamp [timeElapsed]
    holds for the 24-hour interval and no check triggers, yet the counters
    are kept; and 120 s after a stamp taken just before the counter
    wrapped [timeElapsed] holds (the reading is below the stamp), yet the
    counters are kept. *)
Lemma C6_counterexample :
  (timeElapsed (lastSuccessfulMetrics healthyAt24h) maxSilentTime
     healthyAt24h = false /\
   timeElapsed (lastMQTTMessage healthyAt24h) maxMQTTSilentTime
     healthyAt24h = false /\
   wifiReconnectCount healthyAt24h <= 20 /\
   mqttReconnectCount healthyAt24h <= 50 /\
   timeElapsed (bootTime healthyAt24h) 86400000 healthyAt24h = true /\
   wifiReconnectCount (performHealthCheck healthyAt24h) = 3 /\
   mqttReconnectCount (performHealthCheck healthyAt24h) = 4) /\
  (timeElapsed (lastSuccessfulMetrics healthyAfterWrap) maxSilentTime
     healthyAfterWrap = false /\
   timeElapsed (lastMQTTMessage healthyAfterWrap) maxMQTTSilentTime
     healthyAfterWrap = false /\
   wifiReconnectCount healthyAfterWrap <= 20 /\
   mqttReconnectCount healthyAfterWrap <= 50 /\
   timeElapsed (bootTime healthyAfterWrap) 86400000 healthyAfterWrap = true /\
   wifiReconnectCount (performHealthCheck healthyAfterWrap) = 3 /\
   mqttReconnectCount (performHealthCheck healthyAfterWrap) = 4).
Proof.
  split; repeat split; try reflexivity; vm_compute; discriminate.
Qed.

(** C6 (amended).  On a health check where none of the four checks trigger,
    the two reconnect counters are zeroed and [bootTime] is set to the
    current reading exactly when the wrapped difference between the
    reading taken at the start of the check and [bootTime] is more than
    86400000 ms, a comparison made on the raw counter and not through
    [timeElapsed]; the restart record and the restart request are left as
    they were.  Otherwise the check changes nothing. *)
Theorem C6_daily_rollover (s : Sys) :
  timeElapsed (lastSuccessfulMetrics s) maxSilentTime s = false ->
  timeElapsed (lastMQTTMessage s) maxMQTTSilentTime s = false ->
  wifiReconnectCount s <= 20 ->
  mqttReconnectCount s <= 50 ->
  (86400000 < wrap32 (millis s - bootTime s) ->
   performHealthCheck s
   = set_bootTime (millis s)
       (set_mqttReconnectCount 0 (set_wifiReconnectCount 0 s)) /\
   wifiReconnectCount (performHealthCheck s) = 0 /\
   mqttReconnectCount (performHealthCheck s) = 0 /\
   bootTime (performHealthCheck s) = millis s /\
   rtcData (performHealthCheck s) = rtcData s /\
   forceRestart (performHealthCheck s) = forceRestart s /\
   pendingRestartReason (performHealthCheck s) = pendingRestartReason s) /\
  (wrap32 (millis s - bootTime s) <= 86400000 -> performHealthCheck s = s).
Proof.
  intros H1 H2 H3 H4.
  apply Z.ltb_ge in H3. apply Z.ltb_ge in H4.
  unfold performHealthCheck. rewrite H1, H2, H3, H4.
  split; intros H.
  - apply Z.ltb_lt in H. rewrite H. repeat split.
  - apply Z.ltb_ge in H. rewrite H. reflexivity.
Qed.

(** The statement of C6 at a concrete input. *)
Lemma C6_witness :
  wifiReconnectCount (performHealthCheck healthyAt25h) = 0 /\
  mqttReconnectCount (performHealthCheck healthyAt25h) = 0 /\
  totalRestarts (rtcData (performHealthCheck healthyAt25h))
  = totalRestarts (rtcData healthyAt25h).
Proof.
  destruct (C6_daily_rollover healthyAt25h) as [H _].
  - reflexivity.
  - reflexivity.
  - vm_compute. discriminate.
  - vm_compute. discriminate.
  - destruct H as (_ & Hw & Hm & _ & Hr & _).
    + vm_compute. reflexivity.
    + rewrite Hw, Hm, Hr. repeat split.
Defined.

(** ** WiFi attempts *)

Section WaitingLoop.

Variable link : nat -> bool.
Variable startAttempt : Z.
Hypothesis startAttempt_range : 0 <= startAttempt < 4294967296.

Lemma setupWiFi_wait_frame fuel : forall k s k' s',
  setupWiFi_wait fuel link k startAttempt s = Some (k', s') ->
  s' = set_millis (millis s') s.
Proof.
  induction fuel as [|fuel IH]; intros k s k' s' H; cbn in H.
  - discriminate.
  - destruct (negb (link k) && negb (timeElapsed startAttempt wifiTimeout s)).
    + apply IH in H. rewrite H. reflexivity.
    + injection H as _ <-. destruct s; reflexivity.
Qed.

(** The waiting loop ends within its 61 condition checks: after 60 delays
    of 500 ms the 30 s timeout has elapsed. *)
Lemma setupWiFi_wait_ends :
  forall fuel j k s,
    (fuel + j = 61)%nat -> (1 <= fuel)%nat ->
    millis s = wrap32 (startAttempt + 500 * Z.of_nat j) ->
    exists k' s', setupWiFi_wait fuel link k startAttempt s = Some (k', s').
Proof.
  pose proof startAttempt_range as Hst.
  induction fuel as [|fuel IH]; intros j k s Hj Hf Hm; [lia|].
  cbn [setupWiFi_wait].
  destruct (link k); cbn [negb andb]; [eauto|].
  destruct (timeElapsed startAttempt wifiTimeout s) eqn:E; cbn [negb]; [eauto|].
  apply timeElapsed_false in E. destruct E as [E1 E2].
  unfold wifiTimeout, wrap32 in *.
  assert (Hno : startAttempt + 500 * Z.of_nat j < 4294967296).
  { rewrite Hm in E2.
    destruct (Z_lt_ge_dec (startAttempt + 500 * Z.of_nat j) 4294967296)
      as [Hlt|Hge]; [exact Hlt|].
    exfalso.
    assert (W : (startAttempt + 500 * Z.of_nat j) mod 4294967296
                = startAttempt + 500 * Z.of_nat j - 4294967296).
    { symmetry. apply (Z.mod_unique _ _ 1); lia. }
    lia. }
  rewrite Z.mod_small in Hm by lia.
  rewrite Hm in E1.
  replace (startAttempt + 500 * Z.of_nat j - startAttempt)
    with (500 * Z.of_nat j) in E1 by lia.
  rewrite Z.mod_small in E1 by lia.
  apply (IH (S j)); [lia|lia|].
  unfold delay, wrap32. cbn [millis set_millis]. rewrite Hm.
  f_equal. lia.
Qed.

End WaitingLoop.

Lemma setupWiFi_total link s : exists s', setupWiFi link s = Some s'.
Proof.
  unfold setupWiFi.
  destruct (setupWiFi_wait_ends link (millis (delay 100 s))
              (wrap32_range _) 61%nat 0%nat 0%nat (delay 100 s))
    as (k' & s' & E); [lia|lia| |].
  - rewrite wrap32_small; [lia|]. replace (millis (delay 100 s) + 500 * Z.of_nat 0) with (millis (delay 100 s)) by lia. apply wrap32_range.
  - rewrite E. destruct (link k'); eauto.
Qed.

Lemma checkWiFiConnection_total w s : exists s', checkWiFiConnection w s = Some s'.
Proof.
  unfold checkWiFiConnection.
  destruct (timeElapsed (lastWiFiCheck s) wifiCheckInterval s); [|eauto].
  destruct (negb (statusBefore w) || addressIsZero w); [|eauto].
  destruct (setupWiFi_total (statusDuring w) (set_lastWiFiCheck (millis s) s))
    as [s1 ->].
  destruct (negb (statusAfter w)); [|eauto].
  match goal with |- context [if ?c then _ else _] => destruct c end; eauto.
Qed.

(** A failed attempt made by [checkWiFiConnection] counts twice in
    [consecutiveFailures]: once in [setupWiFi], once on return. *)
Lemma failed_attempt_counts_twice w s :
  timeElapsed (lastWiFiCheck s) wifiCheckInterval s = true ->
  statusBefore w = false ->
  (forall k, statusDuring w k = false) ->
  statusAfter w = false ->
  exists s', checkWiFiConnection w s = Some s' /\
    consecutiveFailures s'
    = wrapInt (wrapInt (consecutiveFailures s + 1) + 1) /\
    wifiReconnectCount s' = wrapInt (wifiReconnectCount s + 1) /\
    forceRestart s'
    = (5 <=? consecutiveFailures s') || forceRestart s.
Proof.
  intros Hdue Hb Hd Ha.
  unfold checkWiFiConnection. rewrite Hdue, Hb, Ha. cbn [negb orb].
  unfold setupWiFi.
  destruct (setupWiFi_wait_ends (statusDuring w)
              (millis (delay 100 (set_lastWiFiCheck (millis s) s)))
              (wrap32_range _) 61%nat 0%nat 0%nat
              (delay 100 (set_lastWiFiCheck (millis s) s)))
    as (k' & s1 & E); [lia|lia| |].
  { rewrite wrap32_small; [lia|].
    replace (_ + 500 * Z.of_nat 0)
      with (millis (delay 100 (set_lastWiFiCheck (millis s) s))) by lia.
    apply wrap32_range. }
  rewrite E, Hd. apply setupWiFi_wait_frame in E.
  rewrite E. cbn -[wrapInt Z.leb].
  match goal with |- context [if ?c then _ else _] => destruct c eqn:C end;
    eexists; (split; [reflexivity|]); cbn -[wrapInt Z.leb];
    rewrite ?C; repeat split; auto.
Qed.

(** C5.  With the link down at every reading, three calls of
    [checkWiFiConnection] are enough to raise the restart request: each
    failed attempt adds two to [consecutiveFailures], which goes 2, 4, 6
    and is compared with 5.  In a run of [loop] where a failed metrics
    report comes between the attempts and adds one more, the request is
    raised at the second failed attempt. *)
Theorem C5_restart_before_five_failures :
  match checkWiFiConnection wifiDown (delay 30000 poweredOn) with
  | Some s1 =>
      consecutiveFailures (delay 30000 poweredOn) = 0 /\
      consecutiveFailures s1 = 2 /\ forceRestart s1 = false /\
      match checkWiFiConnection wifiDown s1 with
      | Some s2 =>
          consecutiveFailures s2 = 4 /\ forceRestart s2 = false /\
          match checkWiFiConnection wifiDown s2 with
          | Some s3 =>
              consecutiveFailures s3 = 6 /\ forceRestart s3 = true /\
              pendingRestartReason s3 = RESTART_WIFI /\
              wifiReconnectCount s3 = 3
          | None => False
          end
      | None => False
      end
  | None => False
  end /\
  match twoAttemptsFailed with
  | Running s =>
      forceRestart s = true /\ pendingRestartReason s = RESTART_WIFI /\
      wifiReconnectCount s = 2 /\ consecutiveFailures s = 5
  | _ => False
  end.
Proof.
  vm_compute. repeat split.
Qed.

(** ** The command callback *)

Example commandOf_trims :
  commandOf (list_byte_of_string "  reset ") = CmdReset /\
  commandOf (list_byte_of_string "o n") = CmdOther.
Proof. split; vm_compute; reflexivity. Qed.

(** The comparison stops at a NUL in the payload: the bytes [6f 6e 00 78]
    are taken for "on", and [00 6f 6e] for no command. *)
Example commandOf_stops_at_NUL :
  commandOf [x6f; x6e; x00; x78] = CmdOn /\
  commandOf (list_byte_of_string "restart" ++ [x00]) = CmdRestart /\
  commandOf [x00; x6f; x6e] = CmdOther /\
  currentState (callback commandTopic [x6f; x6e; x00; x78] idleAtNoon)
  = WAITING.
Proof. repeat split; vm_compute; reflexivity. Qed.

(** Case analysis on the string comparisons made by [callback]. *)
Ltac callback_cases :=
  unfold commandOf, callback, equals;
  repeat match goal with
         | |- context [(?m =? ?lit)%string] => destruct (m =? lit)%string
         end;
  cbn [andb].

Lemma callback_other topic payload s :
  commandOf payload = CmdOther \/ commandOf payload = CmdPing ->
  callback topic payload s = set_lastMQTTMessage (millis s) s.
Proof.
  callback_cases; intros [H|H]; try discriminate H; reflexivity.
Qed.

Lemma callback_on topic payload s :
  commandOf payload = CmdOn ->
  callback topic payload s
  = if State_eqb (currentState s) IDLE then
      let s1 := powerOnCafeteria (set_lastMQTTMessage (millis s) s) in
      set_currentState WAITING (set_eventStartTime (millis s1) s1)
    else set_lastMQTTMessage (millis s) s.
Proof.
  callback_cases; intros H; try discriminate H;
    cbn [currentState set_lastMQTTMessage];
    destruct (State_eqb (currentState s) IDLE); reflexivity.
Qed.

Lemma callback_reset topic payload s :
  commandOf payload = CmdReset ->
  callback topic payload s
  = initRTCData
      (set_coffeePouredCount 0
         (set_currentState IDLE (set_lastMQTTMessage (millis s) s))).
Proof.
  callback_cases; intros H; try discriminate H; reflexivity.
Qed.

Lemma callback_restart topic payload s :
  commandOf payload = CmdRestart ->
  callback topic payload s
  = set_forceRestart true
      (set_pendingRestartReason RESTART_USER
         (set_lastMQTTMessage (millis s) s)).
Proof.
  callback_cases; intros H; try discriminate H; reflexivity.
Qed.

Lemma callback_lastMQTTMessage topic payload s :
  lastMQTTMessage (callback topic payload s) = millis s.
Proof.
  destruct (commandOf payload) eqn:C.
  - rewrite callback_on by exact C.
    destruct (State_eqb (currentState s) IDLE); reflexivity.
  - rewrite callback_reset by exact C. reflexivity.
  - rewrite callback_restart by exact C. reflexivity.
  - rewrite callback_other by auto. reflexivity.
  - rewrite callback_other by auto. reflexivity.
Qed.

(** C9.  Whatever the topic and the payload, [callback] leaves the reading
    of [millis()] taken on entry in [lastMQTTMessage]; for a payload that
    the comparisons of [callback] take for none of the four commands (the
    trimmed message, read up to its first NUL, is not one of them) and for
    "ping", nothing else changes, and the MQTT-silence test of the health
    check is then negative. *)
Theorem C9_callback_stamps_activity (topic : string) (payload : list byte)
    (s : Sys) :
  lastMQTTMessage (callback topic payload s) = millis s /\
  (commandOf payload = CmdOther \/ commandOf payload = CmdPing ->
   callback topic payload s = set_lastMQTTMessage (millis s) s /\
   timeElapsed (lastMQTTMessage (callback topic payload s))
     maxMQTTSilentTime (callback topic payload s) = false).
Proof.
  split; [apply callback_lastMQTTMessage|].
  intros H. rewrite (callback_other topic payload s H).
  split; [reflexivity|].
  apply timeElapsed_false. cbn [lastMQTTMessage millis set_lastMQTTMessage].
  rewrite Z.sub_diag. unfold maxMQTTSilentTime. split; [reflexivity|lia].
Qed.

(** The statement of C9 at a concrete input. *)
Lemma C9_witness :
  callback commandTopic payloadOther idleAtNoon
  = set_lastMQTTMessage (millis idleAtNoon) idleAtNoon.
Proof.
  apply (proj2 (C9_callback_stamps_activity commandTopic payloadOther
                  idleAtNoon)).
  left. vm_compute. reflexivity.
Defined.

(** ** The brew cycle *)

(** C8 as stated fails: a start command 1296 ms before the counter wraps
    puts the machine in WAITING with the stamp 4294966700; a second later
    the counter reads 404, below the stamp, and [handleCoffeeProcess] pours
    although 1000 ms, not 150000 ms, have passed. *)
Lemma C8_counterexample :
  let s1 := callback commandTopic payloadOn idleBeforeWrap in
  let s2 := handleCoffeeProcess (delay 1000 s1) in
  currentState idleBeforeWrap = IDLE /\
  currentState s1 = WAITING /\
  eventStartTime s1 = 4294966700 /\
  millis (delay 1000 s1) = 404 /\
  1000 < coffeeWaitTime /\
  currentState s2 = IDLE /\
  coffeePouredCount s2 = coffeePouredCount idleBeforeWrap + 1.
Proof.
  cbv zeta. repeat split; vm_compute; reflexivity.
Qed.

Lemma handleCoffeeProcess_waiting s :
  currentState s = WAITING ->
  handleCoffeeProcess s
  = if timeElapsed (eventStartTime s) coffeeWaitTime s then pourCoffee s
    else s.
Proof.
  intros H. unfold handleCoffeeProcess. rewrite H. reflexivity.
Qed.

(** C8 (amended).  From IDLE a start command pulses the power relay
    (700 ms), stamps [eventStartTime] with the counter and enters WAITING.
    In WAITING each call of [handleCoffeeProcess] pours exactly when
    [timeElapsed eventStartTime 150000] holds, that is when the wrapped
    time since the stamp is at least 150000 ms or the counter reads below
    the stamp; pouring pulses the pour relay, adds one (modulo 2^32) to the
    session count and returns to IDLE.  As long as the counter does not
    wrap after the stamp, this is exactly when 150000 ms have passed since
    the stamp, and not before. *)
Theorem C8_brew_cycle (topic : string) (payload : list byte) (s : Sys) :
  commandOf payload = CmdOn ->
  currentState s = IDLE ->
  let s1 := callback topic payload s in
  (currentState s1 = WAITING /\
   eventStartTime s1 = millis s1 /\
   millis s1 = wrap32 (millis s + 700) /\
   coffeePouredCount s1 = coffeePouredCount s /\
   relayLog s1 = powerOn :: relayLog s) /\
  (forall s2, currentState s2 = WAITING ->
     timeElapsed (eventStartTime s2) coffeeWaitTime s2 = false ->
     handleCoffeeProcess s2 = s2) /\
  (forall s2, currentState s2 = WAITING ->
     timeElapsed (eventStartTime s2) coffeeWaitTime s2 = true ->
     currentState (handleCoffeeProcess s2) = IDLE /\
     coffeePouredCount (handleCoffeeProcess s2)
     = wrap32 (coffeePouredCount s2 + 1) /\
     relayLog (handleCoffeeProcess s2) = pourDoubleCoffe :: relayLog s2 /\
     millis (handleCoffeeProcess s2) = wrap32 (millis s2 + 700)) /\
  (forall d, 0 <= d -> millis s1 + d < 4294967296 ->
     (timeElapsed (eventStartTime s1) coffeeWaitTime (delay d s1) = true
      <-> coffeeWaitTime <= d) /\
     (d < coffeeWaitTime -> handleCoffeeProcess (delay d s1) = delay d s1) /\
     (coffeeWaitTime <= d ->
      currentState (handleCoffeeProcess (delay d s1)) = IDLE /\
      coffeePouredCount (handleCoffeeProcess (delay d s1))
      = wrap32 (coffeePouredCount s + 1))).
Proof.
  intros Hc Hs s1.
  assert (E1 : s1 = set_currentState WAITING
                      (set_eventStartTime (wrap32 (millis s + 700))
                         (powerOnCafeteria
                            (set_lastMQTTMessage (millis s) s)))).
  { unfold s1. rewrite callback_on by exact Hc. rewrite Hs. reflexivity. }
  assert (A : currentState s1 = WAITING /\
              eventStartTime s1 = millis s1 /\
              millis s1 = wrap32 (millis s + 700) /\
              coffeePouredCount s1 = coffeePouredCount s /\
              relayLog s1 = powerOn :: relayLog s).
  { rewrite E1. repeat split. }
  split; [exact A|]. destruct A as (A1 & A2 & A3 & A4 & _).
  split; [|split].
  - intros s2 Hw He. rewrite handleCoffeeProcess_waiting, He; auto.
  - intros s2 Hw He. rewrite handleCoffeeProcess_waiting, He by auto.
    repeat split.
  - intros d Hd Hno.
    assert (R : 0 <= millis s1 < 4294967296)
      by (rewrite A3; apply wrap32_range).
    assert (M : millis (delay d s1) = millis s1 + d)
      by (unfold delay; cbn [millis set_millis]; apply wrap32_small; lia).
    assert (T : timeElapsed (eventStartTime s1) coffeeWaitTime (delay d s1)
                = true <-> coffeeWaitTime <= d).
    { rewrite timeElapsed_true, M, A2.
      replace (millis s1 + d - millis s1) with d by lia.
      rewrite wrap32_small by lia. unfold coffeeWaitTime. lia. }
    assert (W : currentState (delay d s1) = WAITING) by exact A1.
    assert (Ev : eventStartTime (delay d s1) = eventStartTime s1)
      by reflexivity.
    split; [exact T|]. split.
    + intros Hlt. rewrite handleCoffeeProcess_waiting by exact W.
      rewrite Ev.
      destruct (timeElapsed (eventStartTime s1) coffeeWaitTime (delay d s1));
        [|reflexivity].
      exfalso. assert (coffeeWaitTime <= d) by (apply T; reflexivity). lia.
    + intros Hge. rewrite handleCoffeeProcess_waiting by exact W.
      rewrite Ev. apply T in Hge. rewrite Hge.
      split; [reflexivity|].
      cbn [pourCoffee coffeePouredCount set_currentState delay set_millis
           set_relayLog set_coffeePouredCount].
      now rewrite A4.
Qed.

(** The statement of C8 at a concrete input. *)
Lemma C8_witness :
  currentState (callback commandTopic payloadOn idleAtNoon) = WAITING /\
  handleCoffeeProcess
    (delay 149999 (callback commandTopic payloadOn idleAtNoon))
  = delay 149999 (callback commandTopic payloadOn idleAtNoon) /\
  coffeePouredCount
    (handleCoffeeProcess
       (delay 150000 (callback commandTopic payloadOn idleAtNoon)))
  = wrap32 (coffeePouredCount idleAtNoon + 1).
Proof.
  destruct (C8_brew_cycle commandTopic payloadOn idleAtNoon)
    as ((H1 & _) & _ & _ & H4).
  - vm_compute. reflexivity.
  - reflexivity.
  - split; [exact H1|]. split.
    + apply (H4 149999); [lia | vm_compute; reflexivity | vm_compute; reflexivity].
    + apply (H4 150000); [lia | vm_compute; reflexivity | vm_compute; discriminate].
Defined.

(** ** The restart request *)

(** C4 as stated fails.  Four minutes after a cold boot the links go down
    and the heap is low.  In the second iteration after that, which starts
    with no request pending, [checkWiFiConnection] raises the request with
    reason WIFI and [checkMemory], due for the first time, overwrites the
    reason with MEMORY; the next iteration commits MEMORY to the record. *)
Lemma C4_counterexample :
  match linkJustLost with
  | Running s0 =>
      millis s0 = 270150 /\ lastWiFiCheck s0 = 240000 /\
      lastMemoryCheck s0 = 0 /\ consecutiveFailures s0 = 3 /\
      forceRestart s0 = false /\
      match checkWiFiConnection (wifiCheck linksDownLowHeap) s0 with
      | Some sw =>
          forceRestart sw = true /\ pendingRestartReason sw = RESTART_WIFI
      | None => False
      end /\
      match loop linksDownLowHeap s0 with
      | Running s1 =>
          forceRestart s1 = true /\
          pendingRestartReason s1 = RESTART_MEMORY /\
          match loop linksDownLowHeap s1 with
          | Restarting s2 =>
              lastRestartReason (rtcData s2) = reasonCode RESTART_MEMORY /\
              totalRestarts (rtcData s2) = 1 /\
              memoryRestarts (rtcData s2) = 1 /\
              wifiRestarts (rtcData s2) = 0
          | _ => False
          end
      | _ => False
      end
  | _ => False
  end.
Proof.
  vm_compute. repeat split.
Qed.

Lemma recordRestart_lastRestartReason reason s :
  lastRestartReason (rtcData (recordRestart reason s)) = reasonCode reason.
Proof. destruct reason; reflexivity. Qed.

Lemma rtcData_delay ms s : rtcData (delay ms s) = rtcData s.
Proof. reflexivity. Qed.

Lemma drain_commits s :
  forceRestart s = true -> forall r,
  loop r s = Restarting (performRestart (pendingRestartReason s) s) /\
  lastRestartReason (rtcData (performRestart (pendingRestartReason s) s))
  = reasonCode (pendingRestartReason s).
Proof.
  intros H r. unfold loop. rewrite H. split; [reflexivity|].
  unfold performRestart. rewrite rtcData_delay.
  apply recordRestart_lastRestartReason.
Qed.

Lemma checkMemory_writes s heap block :
  timeElapsed (lastMemoryCheck s) memoryCheckInterval s = true ->
  0 < heap < minFreeHeap ->
  exists s', checkMemory heap block s = Ok s' /\
    forceRestart s' = true /\
    pendingRestartReason s' = RESTART_MEMORY.
Proof.
  intros Hdue [H0 Hlow]. unfold checkMemory. rewrite Hdue.
  replace (heap =? 0) with false by (symmetry; apply Z.eqb_neq; lia).
  replace (heap <? minFreeHeap) with true by (symmetry; apply Z.ltb_lt; lia).
  match goal with |- context [if 85 <? ?f then _ else _] =>
    destruct (85 <? f) end; eexists; repeat split.
Qed.

Lemma health_writes_metrics s :
  timeElapsed (lastSuccessfulMetrics s) maxSilentTime s = true ->
  forceRestart (performHealthCheck s) = true /\
  pendingRestartReason (performHealthCheck s) = RESTART_HEALTH.
Proof.
  intros H. unfold performHealthCheck. rewrite H. split; reflexivity.
Qed.

Lemma health_writes_silence s :
  timeElapsed (lastSuccessfulMetrics s) maxSilentTime s = false ->
  timeElapsed (lastMQTTMessage s) maxMQTTSilentTime s = true ->
  forceRestart (performHealthCheck s) = true /\
  pendingRestartReason (performHealthCheck s) = RESTART_MQTT.
Proof.
  intros H1 H2. unfold performHealthCheck. rewrite H1, H2.
  split; reflexivity.
Qed.

Lemma health_writes_wifi s :
  timeElapsed (lastSuccessfulMetrics s) maxSilentTime s = false ->
  timeElapsed (lastMQTTMessage s) maxMQTTSilentTime s = false ->
  20 < wifiReconnectCount s ->
  forceRestart (performHealthCheck s) = true /\
  pendingRestartReason (performHealthCheck s) = RESTART_WIFI.
Proof.
  intros H1 H2 H3. unfold performHealthCheck. rewrite H1, H2.
  apply Z.ltb_lt in H3. rewrite H3. split; reflexivity.
Qed.

Lemma health_writes_mqtt s :
  timeElapsed (lastSuccessfulMetrics s) maxSilentTime s = false ->
  timeElapsed (lastMQTTMessage s) maxMQTTSilentTime s = false ->
  wifiReconnectCount s <= 20 ->
  50 < mqttReconnectCount s ->
  forceRestart (performHealthCheck s) = true /\
  pendingRestartReason (performHealthCheck s) = RESTART_MQTT.
Proof.
  intros H1 H2 H3 H4. unfold performHealthCheck. rewrite H1, H2.
  apply Z.ltb_ge in H3. apply Z.ltb_lt in H4. rewrite H3, H4.
  split; reflexivity.
Qed.

Lemma checkWiFiConnection_writes s w s' :
  checkWiFiConnection w s = Some s' ->
  timeElapsed (lastWiFiCheck s) wifiCheckInterval s = true ->
  statusBefore w = false \/ addressIsZero w = true ->
  statusAfter w = false ->
  5 <= consecutiveFailures s' ->
  forceRestart s' = true /\ pendingRestartReason s' = RESTART_WIFI.
Proof.
  intros E Hdue Hdown Hafter H5.
  unfold checkWiFiConnection in E. rewrite Hdue, Hafter in E.
  replace (negb (statusBefore w) || addressIsZero w) with true in E
    by (destruct Hdown as [-> | ->]; [reflexivity | now rewrite orb_true_r]).
  destruct (setupWiFi (statusDuring w) (set_lastWiFiCheck (millis s) s))
    as [s1|]; [|discriminate].
  cbn [negb] in E.
  match type of E with context [if ?c then _ else _] =>
    destruct c eqn:C end; injection E as <-.
  - split; reflexivity.
  - apply Z.leb_gt in C. lia.
Qed.

(** C4 (amended).  The restart request is one flag and one reason.  Every
    writer sets the flag and stores its own reason without looking at the
    flag, so a reason already pending is overwritten and the reason of the
    last writer is the one pending.  An iteration of [loop] that finds the
    flag set does nothing but record the pending reason and restart. *)
Theorem C4_last_writer_wins (s : Sys) :
  (forceRestart s = true -> forall r,
     loop r s = Restarting (performRestart (pendingRestartReason s) s) /\
     lastRestartReason (rtcData (performRestart (pendingRestartReason s) s))
     = reasonCode (pendingRestartReason s)) /\
  (forall topic payload, commandOf payload = CmdRestart ->
     forceRestart (callback topic payload s) = true /\
     pendingRestartReason (callback topic payload s) = RESTART_USER) /\
  (forall heap block,
     timeElapsed (lastMemoryCheck s) memoryCheckInterval s = true ->
     0 < heap < minFreeHeap ->
     exists s', checkMemory heap block s = Ok s' /\
       forceRestart s' = true /\
       pendingRestartReason s' = RESTART_MEMORY) /\
  (timeElapsed (lastSuccessfulMetrics s) maxSilentTime s = true ->
     forceRestart (performHealthCheck s) = true /\
     pendingRestartReason (performHealthCheck s) = RESTART_HEALTH) /\
  (timeElapsed (lastSuccessfulMetrics s) maxSilentTime s = false ->
   timeElapsed (lastMQTTMessage s) maxMQTTSilentTime s = true ->
     forceRestart (performHealthCheck s) = true /\
     pendingRestartReason (performHealthCheck s) = RESTART_MQTT) /\
  (timeElapsed (lastSuccessfulMetrics s) maxSilentTime s = false ->
   timeElapsed (lastMQTTMessage s) maxMQTTSilentTime s = false ->
   20 < wifiReconnectCount s ->
     forceRestart (performHealthCheck s) = true /\
     pendingRestartReason (performHealthCheck s) = RESTART_WIFI) /\
  (timeElapsed (lastSuccessfulMetrics s) maxSilentTime s = false ->
   timeElapsed (lastMQTTMessage s) maxMQTTSilentTime s = false ->
   wifiReconnectCount s <= 20 ->
   50 < mqttReconnectCount s ->
     forceRestart (performHealthCheck s) = true /\
     pendingRestartReason (performHealthCheck s) = RESTART_MQTT) /\
  (forall w s',
     checkWiFiConnection w s = Some s' ->
     timeElapsed (lastWiFiCheck s) wifiCheckInterval s = true ->
     statusBefore w = false \/ addressIsZero w = true ->
     statusAfter w = false ->
     5 <= consecutiveFailures s' ->
     forceRestart s' = true /\ pendingRestartReason s' = RESTART_WIFI).
Proof.
  split; [exact (drain_commits s)|].
  split; [intros topic payload H; rewrite callback_restart by exact H;
          split; reflexivity|].
  split; [exact (checkMemory_writes s)|].
  split; [exact (health_writes_metrics s)|].
  split; [exact (health_writes_silence s)|].
  split; [exact (health_writes_wifi s)|].
  split; [exact (health_writes_mqtt s)|].
  exact (checkWiFiConnection_writes s).
Qed.

(** The statement of C4 at a concrete input. *)
Lemma C4_witness :
  pendingRestartReason wifiRestartPending = RESTART_WIFI /\
  pendingRestartReason
    (callback commandTopic payloadRestart wifiRestartPending) = RESTART_USER /\
  (exists s', checkMemory 500 400 wifiRestartPending = Ok s' /\
              pendingRestartReason s' = RESTART_MEMORY) /\
  lastRestartReason
    (rtcData (performRestart RESTART_WIFI wifiRestartPending))
  = reasonCode RESTART_WIFI.
Proof.
  destruct (C4_last_writer_wins wifiRestartPending)
    as (Hdrain & Hcb & Hmem & _).
  split; [reflexivity|]. split; [|split].
  - apply Hcb. vm_compute. reflexivity.
  - destruct (Hmem 500 400) as (s' & E & _ & P).
    + reflexivity.
    + unfold minFreeHeap. lia.
    + exists s'. split; assumption.
  - apply (Hdrain eq_refl linksDownLowHeap).
Defined.

(** ** The restart counters *)

Lemma wrap32_succ x : wrap32 (wrap32 x + 1) = wrap32 (x + 1).
Proof. unfold wrap32. apply Zplus_mod_idemp_l. Qed.

Lemma wrap32_le x : 0 <= x -> wrap32 x <= x.
Proof. intros H. unfold wrap32. apply Z.mod_le; lia. Qed.

Lemma wrap32_shift x y : wrap32 (x + wrap32 y) = wrap32 (x + y).
Proof. unfold wrap32. apply Zplus_mod_idemp_r. Qed.

Lemma countersOk_same n d d' :
  sameCounters d d' -> countersOk n d -> countersOk n d'.
Proof.
  unfold sameCounters, countersOk, sumRestarts.
  intros (-> & -> & -> & -> & -> & -> & -> & ->). auto.
Qed.

Lemma sameCounters_refl d : sameCounters d d.
Proof. unfold sameCounters. repeat split. Qed.

Lemma countersOk_weaken n m d : n <= m -> countersOk n d -> countersOk m d.
Proof. unfold countersOk. intuition lia. Qed.

(** The counters after [recordRestart], field by field. *)
Lemma recordRestart_counters reason s :
  let d := rtcData s in
  let d' := rtcData (recordRestart reason s) in
  let bump (hit : bool) x := if hit then wrap32 (x + 1) else x in
  totalRestarts d' = wrap32 (totalRestarts d + 1) /\
  watchdogRestarts d'
  = bump match reason with RESTART_WATCHDOG => true | _ => false end
         (watchdogRestarts d) /\
  memoryRestarts d'
  = bump match reason with RESTART_MEMORY => true | _ => false end
         (memoryRestarts d) /\
  wifiRestarts d'
  = bump match reason with RESTART_WIFI => true | _ => false end
         (wifiRestarts d) /\
  mqttRestarts d'
  = bump match reason with RESTART_MQTT => true | _ => false end
         (mqttRestarts d) /\
  healthRestarts d'
  = bump match reason with RESTART_HEALTH => true | _ => false end
         (healthRestarts d) /\
  userRestarts d'
  = bump match reason with RESTART_USER => true | _ => false end
         (userRestarts d) /\
  unknownRestarts d'
  = bump match reason with
         | RESTART_UNKNOWN | RESTART_POWER_ON => true
         | _ => false
         end (unknownRestarts d).
Proof. destruct reason; repeat split. Qed.

Lemma countersOk_recordRestart n reason s :
  countersOk n (rtcData s) ->
  countersOk (n + 1) (rtcData (recordRestart reason s)).
Proof.
  pose proof (recordRestart_counters reason s) as H. cbv zeta in H.
  destruct H as (HT & HW & HM & HWi & HMq & HH & HU & HUn).
  unfold countersOk, sumRestarts.
  rewrite HT, HW, HM, HWi, HMq, HH, HU, HUn. clear HT HW HM HWi HMq HH HU HUn.
  generalize (rtcData s). intros d (W & M & Wi & Mq & H & U & Un & T & S).
  rewrite T, wrap32_succ. unfold wrap32.
  destruct reason; (repeat split; [Z.div_mod_to_equations; lia ..]).
Qed.

Lemma countersOk_initRTCData n s : 0 <= n -> countersOk n (rtcData (initRTCData s)).
Proof.
  intros H. unfold countersOk, sumRestarts. repeat split; try reflexivity.
  exact H.
Qed.

Lemma sameCounters_loop_rtcUpdate s :
  sameCounters (rtcData s) (rtcData (loop_rtcUpdate s)).
Proof.
  unfold loop_rtcUpdate.
  destruct (timeElapsed (lastRTCUpdate s) 600000 s); repeat split.
Qed.

Lemma countersOk_callback n topic payload s :
  0 <= n -> countersOk n (rtcData s) ->
  countersOk n (rtcData (callback topic payload s)).
Proof.
  intros Hn H. destruct (commandOf payload) eqn:C.
  - rewrite callback_on by exact C.
    destruct (State_eqb (currentState s) IDLE); exact H.
  - rewrite callback_reset by exact C. apply countersOk_initRTCData, Hn.
  - rewrite callback_restart by exact C. exact H.
  - rewrite callback_other by auto. exact H.
  - rewrite callback_other by auto. exact H.
Qed.

Lemma restartCount_nonneg ops : 0 <= restartCount ops.
Proof.
  induction ops as [|[] ops IH]; cbn [restartCount]; lia.
Qed.

Lemma runOps_countersOk ops : forall s n,
  0 <= n -> countersOk n (rtcData s) ->
  countersOk (n + restartCount ops) (rtcData (runOps ops s)).
Proof.
  induction ops as [|op ops IH]; intros s n Hn H.
  - cbn [restartCount runOps fold_left]. now rewrite Z.add_0_r.
  - change (runOps (op :: ops) s) with (runOps ops (applyOp s op)).
    destruct op; cbn [restartCount applyOp].
    + replace (n + (1 + restartCount ops)) with (n + 1 + restartCount ops)
        by lia.
      apply IH; [lia|]. apply countersOk_recordRestart, H.
    + apply IH; [exact Hn|].
      eapply countersOk_same; [apply sameCounters_loop_rtcUpdate|exact H].
    + apply IH; [exact Hn|]. apply countersOk_callback; assumption.
    + apply IH; [exact Hn|exact H].
    + apply IH; [exact Hn|exact H].
Qed.

(** [n] user restarts in a row. *)
Lemma user_restarts n : forall s,
  0 <= totalRestarts (rtcData s) < 4294967296 ->
  0 <= userRestarts (rtcData s) < 4294967296 ->
  let d := rtcData s in
  let d' := rtcData (runOps (repeat (OpRecordRestart RESTART_USER) n) s) in
  totalRestarts d' = wrap32 (totalRestarts d + Z.of_nat n) /\
  userRestarts d' = wrap32 (userRestarts d + Z.of_nat n) /\
  watchdogRestarts d' = watchdogRestarts d /\
  memoryRestarts d' = memoryRestarts d /\
  wifiRestarts d' = wifiRestarts d /\
  mqttRestarts d' = mqttRestarts d /\
  healthRestarts d' = healthRestarts d /\
  unknownRestarts d' = unknownRestarts d.
Proof.
  induction n as [|n IH]; intros s HT HU; cbv zeta.
  - cbn [repeat runOps fold_left Z.of_nat].
    rewrite !Z.add_0_r, !wrap32_small by assumption. repeat split.
  - change (runOps (repeat (OpRecordRestart RESTART_USER) (S n)) s)
      with (runOps (repeat (OpRecordRestart RESTART_USER) n)
                   (recordRestart RESTART_USER s)).
    pose proof (recordRestart_counters RESTART_USER s) as H. cbv zeta in H.
    destruct H as (ET & EW & EM & EWi & EMq & EH & EU & EUn).
    specialize (IH (recordRestart RESTART_USER s)). cbv zeta in IH.
    rewrite ET, EW, EM, EWi, EMq, EH, EU, EUn in IH.
    destruct IH as (IT & IU & IW & IM & IWi & IMq & IH & IUn);
      try apply wrap32_range.
    rewrite IT, IU, IW, IM, IWi, IMq, IH, IUn.
    rewrite Nat2Z.inj_succ. unfold wrap32.
    rewrite !Zplus_mod_idemp_l.
    repeat split; f_equal; lia.
Qed.

Lemma runOps_app l1 l2 s : runOps (l1 ++ l2) s = runOps l2 (runOps l1 s).
Proof. apply fold_left_app. Qed.

(** [n] user restarts and then one WiFi restart, from zeroed counters. *)
Lemma user_then_wifi n s :
  totalRestarts (rtcData s) = 0 -> userRestarts (rtcData s) = 0 ->
  sumRestarts (rtcData s) = 0 -> wifiRestarts (rtcData s) = 0 ->
  let d := rtcData (runOps (repeat (OpRecordRestart RESTART_USER) n
                            ++ [OpRecordRestart RESTART_WIFI]) s) in
  totalRestarts d = wrap32 (wrap32 (Z.of_nat n) + 1) /\
  sumRestarts d = wrap32 (Z.of_nat n) + 1.
Proof.
  intros HT HU HS HWi. cbv zeta. rewrite runOps_app.
  pose proof (user_restarts n s) as H. cbv zeta in H.
  rewrite HT, HU in H.
  destruct H as (IT & IU & IW & IM & IWi & IMq & IH & IUn); [lia|lia|].
  revert IT IU IW IM IWi IMq IH IUn.
  generalize (runOps (repeat (OpRecordRestart RESTART_USER) n) s).
  intros s1 IT IU IW IM IWi IMq IH IUn.
  change (runOps [OpRecordRestart RESTART_WIFI] s1)
    with (recordRestart RESTART_WIFI s1).
  pose proof (recordRestart_counters RESTART_WIFI s1) as H. cbv zeta in H.
  destruct H as (ET & EW & EM & EWi & EMq & EH & EU & EUn).
  unfold sumRestarts in *.
  rewrite ET, EW, EM, EWi, EMq, EH, EU, EUn.
  rewrite IT, IU, IW, IM, IWi, IMq, IH, IUn, HWi.
  rewrite !Z.add_0_l. split; [reflexivity|].
  change (wrap32 1) with 1. lia.
Qed.

(** C3 as stated fails once the 32-bit counters wrap: after 2^32 - 1 user
    restarts and one WiFi restart [totalRestarts] is back to 0 while the
    counters add up to 2^32. *)
Lemma C3_counterexample :
  let d := rtcData (runOps manyRestarts (initRTCData (boot []))) in
  totalRestarts d = 0 /\ sumRestarts d = 4294967296 /\
  totalRestarts d <> sumRestarts d.
Proof.
  cbv zeta. unfold manyRestarts.
  destruct (user_then_wifi (Z.to_nat 4294967295) (initRTCData (boot [])))
    as [HT HS]; try reflexivity.
  rewrite Z2Nat.id in HT, HS by lia.
  rewrite HT, HS. repeat split. discriminate.
Qed.

(** C3 (amended).  Starting from an initialised record, after any sequence
    of [recordRestart] calls with any reasons, checkpoints, inbound
    commands (resets among them), pours and delays, [totalRestarts] equals
    the sum of the seven per-reason counters of the record modulo 2^32,
    and equals it exactly when fewer than 2^32 restarts were recorded.
    The record has no power-on counter: [RESTART_POWER_ON], like
    [RESTART_UNKNOWN], is counted in [unknownRestarts].  A reset command
    sets [totalRestarts] and all seven counters to zero. *)
Theorem C3_restart_total (s0 : Sys) (ops : list StoreOp) :
  let d := rtcData (runOps ops (initRTCData s0)) in
  totalRestarts d = wrap32 (sumRestarts d) /\
  (restartCount ops < 4294967296 -> totalRestarts d = sumRestarts d) /\
  (forall topic payload s,
      commandOf payload = CmdReset ->
      let d' := rtcData (callback topic payload s) in
      totalRestarts d' = 0 /\ watchdogRestarts d' = 0 /\
      memoryRestarts d' = 0 /\ wifiRestarts d' = 0 /\
      mqttRestarts d' = 0 /\ healthRestarts d' = 0 /\
      userRestarts d' = 0 /\ unknownRestarts d' = 0).
Proof.
  cbv zeta.
  pose proof (runOps_countersOk ops (initRTCData s0) 0 (Z.le_refl 0)
                (countersOk_initRTCData 0 s0 (Z.le_refl 0))) as H.
  rewrite Z.add_0_l in H.
  destruct H as (W & M & Wi & Mq & H & U & Un & T & S).
  split; [exact T|]. split.
  - intros Hlt. rewrite T. apply wrap32_small.
    unfold sumRestarts in *. lia.
  - intros topic payload s C. rewrite callback_reset by exact C.
    repeat split.
Qed.

(** The statement of C3 at a concrete input. *)
Lemma C3_witness :
  let d := rtcData (runOps [OpRecordRestart RESTART_USER;
                            OpRecordRestart RESTART_POWER_ON]
                           (initRTCData (boot []))) in
  totalRestarts d = sumRestarts d /\
  totalRestarts (rtcData (callback commandTopic payloadReset idleAtNoon)) = 0.
Proof.
  cbv zeta. split.
  - apply (proj1 (proj2 (C3_restart_total (boot [])
                           [OpRecordRestart RESTART_USER;
                            OpRecordRestart RESTART_POWER_ON]))).
    vm_compute. reflexivity.
  - apply (proj2 (proj2 (C3_restart_total (boot []) []))
             commandTopic payloadReset idleAtNoon).
    vm_compute. reflexivity.
Defined.
(* ================================================================== *)
(** * Part III: further properties of the sketch                       *)
(* ================================================================== *)

(** ** What the link, metrics, memory and health code leaves alone *)

Lemma delay_frame ms s :
  brewAndStore (delay ms s) = brewAndStore s /\
  request (delay ms s) = request s.
Proof. split; reflexivity. Qed.

Lemma setupWiFi_frame link s s' :
  setupWiFi link s = Some s' ->
  brewAndStore s' = brewAndStore s /\ request s' = request s.
Proof.
  unfold setupWiFi.
  destruct (setupWiFi_wait 61 link 0 (millis (delay 100 s)) (delay 100 s))
    as [[k s1]|] eqn:E; [|discriminate].
  apply setupWiFi_wait_frame in E.
  destruct (link k); intros H; injection H as <-; rewrite E; split;
    reflexivity.
Qed.

Lemma checkWiFiConnection_frame w s s' :
  checkWiFiConnection w s = Some s' -> brewAndStore s' = brewAndStore s.
Proof.
  unfold checkWiFiConnection.
  destruct (timeElapsed (lastWiFiCheck s) wifiCheckInterval s);
    [|intros H; injection H as <-; reflexivity].
  destruct (negb (statusBefore w) || addressIsZero w);
    [|intros H; injection H as <-; reflexivity].
  destruct (setupWiFi (statusDuring w) (set_lastWiFiCheck (millis s) s))
    as [s1|] eqn:E; [|discriminate].
  apply setupWiFi_frame in E. destruct E as [E _].
  change (brewAndStore (set_lastWiFiCheck (millis s) s))
    with (brewAndStore s) in E.
  rewrite <- E.
  destruct (negb (statusAfter w));
    [|intros H; injection H as <-; reflexivity].
  match goal with |- context [if ?c then _ else _] => destruct c end;
    intros H; injection H as <-; reflexivity.
Qed.

Lemma reconnectMQTT_frame wifiOk connectOk publishOk s :
  brewAndStore (snd (reconnectMQTT wifiOk connectOk publishOk s))
  = brewAndStore s /\
  request (snd (reconnectMQTT wifiOk connectOk publishOk s)) = request s.
Proof.
  unfold reconnectMQTT.
  destruct (negb wifiOk); [split; reflexivity|].
  destruct (timeElapsed (lastMQTTAttempt s) mqttRetryInterval s);
    [|split; reflexivity].
  destruct connectOk; split; reflexivity.
Qed.

Lemma publishMetrics_try_frame p left : forall attempt s,
  brewAndStore (snd (publishMetrics_try left attempt p s)) = brewAndStore s /\
  request (snd (publishMetrics_try left attempt p s)) = request s.
Proof.
  induction left as [|left IH]; intros attempt s; cbn [publishMetrics_try].
  - split; reflexivity.
  - destruct (publishResult p attempt); [split; reflexivity|].
    destruct (negb (brokerUpAfter p attempt)); [split; reflexivity|].
    destruct (IH (S attempt) (delay 200 s)) as [-> ->]. apply delay_frame.
Qed.

Lemma publishMetrics_frame p s :
  brewAndStore (snd (publishMetrics p s)) = brewAndStore s /\
  request (snd (publishMetrics p s)) = request s.
Proof.
  unfold publishMetrics.
  destruct (negb (brokerUp p)); [split; reflexivity|].
  destruct (negb (wifiUpAtPublish p)); [split; reflexivity|].
  apply publishMetrics_try_frame.
Qed.

Lemma sendPeriodicMetrics_frame p s :
  brewAndStore (sendPeriodicMetrics p s) = brewAndStore s /\
  request (sendPeriodicMetrics p s) = request s.
Proof.
  unfold sendPeriodicMetrics.
  destruct (timeElapsed (lastAliveTime s) aliveInterval s);
    [|split; reflexivity].
  pose proof (publishMetrics_frame p (set_lastAliveTime (millis s) s)) as H.
  destruct (publishMetrics p (set_lastAliveTime (millis s) s)) as [ok s1].
  cbn [snd] in H. destruct H as [H1 H2].
  change (brewAndStore (set_lastAliveTime (millis s) s))
    with (brewAndStore s) in H1.
  change (request (set_lastAliveTime (millis s) s)) with (request s) in H2.
  rewrite <- H1, <- H2. destruct ok; split; reflexivity.
Qed.

Lemma checkMemory_frame heap block s s' :
  checkMemory heap block s = Ok s' -> brewAndStore s' = brewAndStore s.
Proof.
  unfold checkMemory.
  destruct (timeElapsed (lastMemoryCheck s) memoryCheckInterval s);
    [|intros H; injection H as <-; reflexivity].
  destruct (heap =? 0); [discriminate|].
  destruct (heap <? minFreeHeap);
    match goal with |- context [if 85 <? ?f then _ else _] =>
      destruct (85 <? f) end;
    intros H; injection H as <-; reflexivity.
Qed.

Lemma performHealthCheck_frame s :
  brewAndStore (performHealthCheck s) = brewAndStore s.
Proof.
  unfold performHealthCheck.
  repeat match goal with
         | |- context [if ?c then _ else _] => destruct c
         end; reflexivity.
Qed.

(** X1.  The connection managers, the metrics report, the memory check and
    the health check never touch the brew state, its time stamp, the
    session count, the relays, the restart record or the RTC memory; the
    MQTT and metrics code never touches the restart request either. *)
Theorem X1_supervision_leaves_brew_and_store (s : Sys) :
  (forall w s', checkWiFiConnection w s = Some s' ->
     brewAndStore s' = brewAndStore s) /\
  (forall link s', setupWiFi link s = Some s' ->
     brewAndStore s' = brewAndStore s /\ request s' = request s) /\
  (forall wifiOk connectOk publishOk,
     brewAndStore (snd (reconnectMQTT wifiOk connectOk publishOk s))
     = brewAndStore s /\
     request (snd (reconnectMQTT wifiOk connectOk publishOk s))
     = request s) /\
  (forall p,
     brewAndStore (snd (publishMetrics p s)) = brewAndStore s /\
     request (snd (publishMetrics p s)) = request s) /\
  (forall p,
     brewAndStore (sendPeriodicMetrics p s) = brewAndStore s /\
     request (sendPeriodicMetrics p s) = request s) /\
  (forall heap block s', checkMemory heap block s = Ok s' ->
     brewAndStore s' = brewAndStore s) /\
  brewAndStore (performHealthCheck s) = brewAndStore s.
Proof.
  split; [intros w s'; apply checkWiFiConnection_frame|].
  split; [intros link s'; apply setupWiFi_frame|].
  split; [intros; apply reconnectMQTT_frame|].
  split; [intros; apply publishMetrics_frame|].
  split; [intros; apply sendPeriodicMetrics_frame|].
  split; [intros heap block s'; apply checkMemory_frame|].
  apply performHealthCheck_frame.
Qed.

(** The statement of X1 at a concrete input. *)
Lemma X1_witness :
  exists s', checkMemory 500 400 wifiRestartPending = Ok s' /\
             brewAndStore s' = brewAndStore wifiRestartPending.
Proof.
  eexists. split; [vm_compute; reflexivity|].
  destruct (X1_supervision_leaves_brew_and_store wifiRestartPending)
    as (_ & _ & _ & _ & _ & H & _).
  apply (H 500 400). vm_compute. reflexivity.
Defined.

(** ** The WiFi attempt *)

Lemma wrap32_add_l a b : wrap32 (wrap32 a + b) = wrap32 (a + b).
Proof. unfold wrap32. apply Zplus_mod_idemp_l. Qed.

Lemma millis_iter_delay d n s :
  millis (Nat.iter (S n) (delay d) s)
  = wrap32 (millis s + d * Z.of_nat (S n)).
Proof.
  induction n as [|n IH].
  - change (Nat.iter 1 (delay d) s) with (delay d s).
    unfold delay. cbn [millis set_millis].
    change (Z.of_nat 1) with 1. now rewrite Z.mul_1_r.
  - change (Nat.iter (S (S n)) (delay d) s)
      with (delay d (Nat.iter (S n) (delay d) s)).
    unfold delay at 1. cbn [millis set_millis]. rewrite IH, wrap32_add_l.
    rewrite (Nat2Z.inj_succ (S n)). f_equal. ring.
Qed.

(** What the waiting loop has done when it returns: [n] delays of 500 ms,
    every reading before the last one negative, and the last reading
    positive or the timeout elapsed. *)
Lemma setupWiFi_wait_spec link startAttempt fuel : forall k s k' s',
  setupWiFi_wait fuel link k startAttempt s = Some (k', s') ->
  exists n : nat,
    (n < fuel)%nat /\ k' = S (k + n) /\
    s' = Nat.iter n (delay 500) s /\
    (forall j, (j < n)%nat -> link (k + j)%nat = false) /\
    (link (k + n)%nat = true \/
     timeElapsed startAttempt wifiTimeout s' = true).
Proof.
  induction fuel as [|fuel IH]; intros k s k' s' H; cbn [setupWiFi_wait] in H.
  - discriminate.
  - destruct (link k) eqn:L; cbn [negb andb] in H.
    + injection H as <- <-. exists 0%nat. rewrite Nat.add_0_r.
      repeat split; try lia; auto.
    + destruct (timeElapsed startAttempt wifiTimeout s) eqn:T;
        cbn [negb] in H.
      * injection H as <- <-. exists 0%nat. rewrite Nat.add_0_r.
        repeat split; try lia; auto.
      * apply IH in H. destruct H as (n & Hn & -> & -> & Hall & Hlast).
        exists (S n). split; [lia|]. split; [f_equal; lia|].
        split; [symmetry; apply Nat.iter_succ_r|].
        split.
        -- intros [|j] Hj; [now rewrite Nat.add_0_r|].
           replace (k + S j)%nat with (S k + j)%nat by lia.
           apply Hall. lia.
        -- replace (k + S n)%nat with (S k + n)%nat by lia. exact Hlast.
Qed.

(** X2.  [setupWiFi] always returns: it waits for [n <= 60] periods of
    500 ms after the initial 100 ms, the readings before the [n]-th all
    negative, so at most 30.1 s, and not at all when the first reading is
    positive.  The reading made after the wait decides the outcome: if
    positive, [consecutiveFailures] is cleared; if negative, it and the
    cumulative [wifiReconnectCount] go up by one. *)
Theorem X2_setupWiFi_bounded (link : nat -> bool) (s : Sys) :
  exists (n : nat) (s' : Sys),
    (n <= 60)%nat /\
    setupWiFi link s = Some s' /\
    millis s' = wrap32 (millis s + 100 + 500 * Z.of_nat n) /\
    (forall j, (j < n)%nat -> link j = false) /\
    (link 0%nat = true -> n = 0%nat) /\
    (link (S n) = true ->
     consecutiveFailures s' = 0 /\ systemHealthy s' = true /\
     wifiReconnectCount s' = wifiReconnectCount s) /\
    (link (S n) = false ->
     consecutiveFailures s' = wrapInt (consecutiveFailures s + 1) /\
     systemHealthy s' = false /\
     wifiReconnectCount s' = wrapInt (wifiReconnectCount s + 1)).
Proof.
  destruct (setupWiFi_total link s) as [s' E].
  unfold setupWiFi in E |- *.
  destruct (setupWiFi_wait 61 link 0 (millis (delay 100 s)) (delay 100 s))
    as [[k s1]|] eqn:W; [|discriminate].
  destruct (setupWiFi_wait_spec _ _ _ _ _ _ _ W)
    as (n & Hn & -> & Hs1 & Hall & Hlast).
  cbn [Nat.add] in *.
  assert (M : millis s1 = wrap32 (millis s + 100 + 500 * Z.of_nat n)).
  { rewrite Hs1. destruct n as [|n].
    - change (Nat.iter 0 (delay 500) (delay 100 s)) with (delay 100 s).
      unfold delay. cbn [millis set_millis]. f_equal. lia.
    - rewrite millis_iter_delay. unfold delay. cbn [millis set_millis].
      rewrite wrap32_add_l. reflexivity. }
  assert (F : s1 = set_millis (millis s1) s).
  { apply setupWiFi_wait_frame in W. rewrite W at 1. reflexivity. }
  exists n. destruct (link (S n)) eqn:L.
  - eexists. split; [lia|]. split; [reflexivity|].
    split; [exact M|]. split; [exact Hall|].
    split; [intros L0; destruct n; [reflexivity|];
            rewrite (Hall 0%nat) in L0 by lia; discriminate|].
    split; [intros _|discriminate].
    rewrite F. repeat split.
  - eexists. split; [lia|]. split; [reflexivity|].
    split; [exact M|]. split; [exact Hall|].
    split; [intros L0; destruct n; [reflexivity|];
            rewrite (Hall 0%nat) in L0 by lia; discriminate|].
    split; [discriminate|intros _].
    rewrite F. repeat split.
Qed.

(** The statement of X2 at a concrete input. *)
Lemma X2_witness :
  exists s', setupWiFi (fun _ => true) (boot []) = Some s' /\
             millis s' = 100 /\ consecutiveFailures s' = 0.
Proof.
  destruct (X2_setupWiFi_bounded (fun _ => true) (boot []))
    as (n & s' & _ & E & M & _ & H0 & Hup & _).
  exists s'. split; [exact E|].
  rewrite (H0 eq_refl) in M. split; [exact M|].
  apply (Hup eq_refl).
Defined.

(** ** The metrics report *)

Lemma iter_delay_frame d n s :
  Nat.iter n (delay d) s = set_millis (millis (Nat.iter n (delay d) s)) s.
Proof.
  induction n as [|n IH].
  - destruct s; reflexivity.
  - change (Nat.iter (S n) (delay d) s)
      with (delay d (Nat.iter n (delay d) s)).
    rewrite IH at 1. reflexivity.
Qed.

(** The retry loop of [publishMetrics]: [n] failed attempts, each followed
    by a positive [client.connected()] and a delay of 200 ms, then either a
    success, or a failure with the broker gone, or no attempt left. *)
Lemma publishMetrics_try_spec p left : forall attempt s,
  exists n : nat,
    (n <= left)%nat /\
    (forall j, (j < n)%nat ->
       publishResult p (attempt + j)%nat = false /\
       brokerUpAfter p (attempt + j)%nat = true) /\
    ((publishMetrics_try left attempt p s
      = (true, set_lastSuccessfulMetrics
                 (millis (Nat.iter n (delay 200) s))
                 (Nat.iter n (delay 200) s)) /\
      (n < left)%nat /\ publishResult p (attempt + n)%nat = true) \/
     (publishMetrics_try left attempt p s
      = (false, Nat.iter n (delay 200) s) /\
      (n = left \/
       (n < left)%nat /\ publishResult p (attempt + n)%nat = false /\
       brokerUpAfter p (attempt + n)%nat = false))).
Proof.
  induction left as [|left IH]; intros attempt s; cbn [publishMetrics_try].
  - exists 0%nat. split; [lia|]. split; [intros j Hj; lia|].
    right. split; [reflexivity|]. now left.
  - destruct (publishResult p attempt) eqn:R.
    + exists 0%nat. rewrite Nat.add_0_r. split; [lia|].
      split; [intros j Hj; lia|]. left. repeat split; [lia|exact R].
    + destruct (brokerUpAfter p attempt) eqn:B; cbn [negb].
      * destruct (IH (S attempt) (delay 200 s)) as (n & Hn & Hall & Hend).
        exists (S n). split; [lia|]. split.
        -- intros [|j] Hj; [rewrite Nat.add_0_r; split; assumption|].
           replace (attempt + S j)%nat with (S attempt + j)%nat by lia.
           apply Hall. lia.
        -- replace (attempt + S n)%nat with (S attempt + n)%nat by lia.
           rewrite Nat.iter_succ_r.
           destruct Hend as [(E & Hlt & Hr)|(E & Hstop)].
           ++ left. split; [exact E|]. split; [lia|exact Hr].
           ++ right. split; [exact E|].
              destruct Hstop as [->|(Hlt & Hr & Hb)]; [now left|].
              right. split; [lia|]. split; assumption.
      * exists 0%nat. rewrite Nat.add_0_r. split; [lia|].
        split; [intros j Hj; lia|]. right. split; [reflexivity|].
        right. split; [lia|]. split; assumption.
Qed.

(** The outcome of [publishMetrics]. *)
Lemma publishMetrics_outcome (p : PublishReadings) (s : Sys) :
  let ok := fst (publishMetrics p s) in
  let s' := snd (publishMetrics p s) in
  (ok = true <->
   brokerUp p = true /\ wifiUpAtPublish p = true /\
   exists k : nat, (k < 3)%nat /\ publishResult p k = true /\
     forall j, (j < k)%nat ->
       publishResult p j = false /\ brokerUpAfter p j = true) /\
  (exists n : nat, (n <= 3)%nat /\
     s' = (if ok then set_lastSuccessfulMetrics (millis s') else fun x => x)
            (Nat.iter n (delay 200) s)) /\
  (ok = true -> lastSuccessfulMetrics s' = millis s') /\
  (ok = false -> lastSuccessfulMetrics s' = lastSuccessfulMetrics s) /\
  (brokerUp p = false \/ wifiUpAtPublish p = false -> s' = s).
Proof.
  cbv zeta. unfold publishMetrics.
  destruct (brokerUp p); cbn [negb].
  2:{ split; [split; [discriminate|intros [H _]; discriminate]|].
      split; [exists 0%nat; split; [lia|reflexivity]|].
      repeat split; discriminate. }
  destruct (wifiUpAtPublish p); cbn [negb].
  2:{ split; [split; [discriminate|intros (_ & H & _); discriminate]|].
      split; [exists 0%nat; split; [lia|reflexivity]|].
      repeat split; discriminate. }
  destruct (publishMetrics_try_spec p 3 0 s) as (n & Hn & Hall & Hend).
  cbn [Nat.add] in *.
  destruct Hend as [(E & Hlt & Hr)|(E & Hstop)]; rewrite E; cbn [fst snd].
  - split.
    { split; [intros _|reflexivity].
      repeat split. exists n. repeat split; auto; apply Hall; auto. }
    split; [exists n; split; [lia|reflexivity]|].
    split; [reflexivity|]. split; [discriminate|].
    intros [H|H]; discriminate.
  - split.
    { split; [discriminate|]. intros (_ & _ & k & Hk & Hrk & Hbefore).
      exfalso.
      destruct (Nat.lt_trichotomy k n) as [Hkn|[->|Hkn]].
      - destruct (Hall k Hkn) as [F _]. congruence.
      - destruct Hstop as [->|(_ & F & _)]; [lia|congruence].
      - destruct Hstop as [->|(_ & _ & F)]; [lia|].
        destruct (Hbefore n Hkn) as [_ T]. congruence. }
    split; [exists n; split; [lia|reflexivity]|].
    split; [discriminate|]. split.
    + intros _. rewrite (iter_delay_frame 200 n s). reflexivity.
    + intros [H|H]; discriminate.
Qed.

(** X3.  [publishMetrics] reports success exactly when the broker and the
    WiFi are up on entry and one of at most three attempts succeeds, every
    earlier attempt having failed with the broker still connected.  On
    success [lastSuccessfulMetrics] is the time of the successful attempt;
    on failure it is left as it was.  Nothing else changes but the clock,
    which advances by 200 ms per failed attempt that is retried, at most
    600 ms. *)
Theorem X3_publishMetrics_retries (p : PublishReadings) (s : Sys) :
  let ok := fst (publishMetrics p s) in
  let s' := snd (publishMetrics p s) in
  (ok = true <->
   brokerUp p = true /\ wifiUpAtPublish p = true /\
   exists k : nat, (k < 3)%nat /\ publishResult p k = true /\
     forall j, (j < k)%nat ->
       publishResult p j = false /\ brokerUpAfter p j = true) /\
  (exists n : nat, (n <= 3)%nat /\
     s' = (if ok then set_lastSuccessfulMetrics (millis s') else fun x => x)
            (Nat.iter n (delay 200) s)) /\
  (ok = true -> lastSuccessfulMetrics s' = millis s') /\
  (ok = false -> lastSuccessfulMetrics s' = lastSuccessfulMetrics s) /\
  (brokerUp p = false \/ wifiUpAtPublish p = false -> s' = s).
Proof. exact (publishMetrics_outcome p s). Qed.

(** The statement of X3 at a concrete input. *)
Lemma X3_witness :
  fst (publishMetrics
         (mkPublishReadings true true (fun k => Nat.eqb k 2) (fun _ => true))
         idleAtNoon) = true /\
  snd (publishMetrics pubDown idleAtNoon) = idleAtNoon.
Proof.
  split.
  - apply (proj1 (X3_publishMetrics_retries
                    (mkPublishReadings true true (fun k => Nat.eqb k 2)
                                       (fun _ => true)) idleAtNoon)).
    split; [reflexivity|]. split; [reflexivity|].
    exists 2%nat. split; [lia|]. split; [reflexivity|].
    intros [|[|j]] Hj; [split; reflexivity|split; reflexivity|lia].
  - apply (proj2 (proj2 (proj2 (proj2
             (X3_publishMetrics_retries pubDown idleAtNoon))))).
    left. reflexivity.
Defined.

(** X4.  [sendPeriodicMetrics] does nothing before its 60 s interval has
    elapsed.  When due it stamps [lastAliveTime] and publishes: a success
    clears [consecutiveFailures] and leaves the health check's 5-minute
    test on [lastSuccessfulMetrics] negative; a failure adds one to
    [consecutiveFailures] and leaves [lastSuccessfulMetrics] as it was. *)
Theorem X4_sendPeriodicMetrics_outcome (p : PublishReadings) (s : Sys) :
  let s' := sendPeriodicMetrics p s in
  (timeElapsed (lastAliveTime s) aliveInterval s = false -> s' = s) /\
  (timeElapsed (lastAliveTime s) aliveInterval s = true ->
   lastAliveTime s' = millis s /\
   (fst (publishMetrics p (set_lastAliveTime (millis s) s)) = true ->
    consecutiveFailures s' = 0 /\ systemHealthy s' = true /\
    lastSuccessfulMetrics s' = millis s' /\
    timeElapsed (lastSuccessfulMetrics s') maxSilentTime s' = false) /\
   (fst (publishMetrics p (set_lastAliveTime (millis s) s)) = false ->
    consecutiveFailures s' = wrapInt (consecutiveFailures s + 1) /\
    systemHealthy s' = false /\
    lastSuccessfulMetrics s' = lastSuccessfulMetrics s)).
Proof.
  cbv zeta. unfold sendPeriodicMetrics.
  destruct (timeElapsed (lastAliveTime s) aliveInterval s);
    (split; [try discriminate; reflexivity|]); [|discriminate].
  intros _.
  destruct (publishMetrics_outcome p (set_lastAliveTime (millis s) s))
    as (_ & (n & _ & Hs') & Hok & Hko & _).
  cbv zeta in Hs', Hok, Hko.
  destruct (publishMetrics p (set_lastAliveTime (millis s) s)) as [ok s1].
  cbn [fst snd] in *.
  rewrite (iter_delay_frame 200 n) in Hs'.
  destruct ok.
  - split; [rewrite Hs'; reflexivity|]. split; [intros _|discriminate].
    split; [reflexivity|]. split; [reflexivity|].
    specialize (Hok eq_refl). split; [exact Hok|].
    apply timeElapsed_false.
    cbn [negb lastSuccessfulMetrics millis set_consecutiveFailures
         set_systemHealthy].
    rewrite Hok, Z.sub_diag. unfold maxSilentTime.
    split; [reflexivity|lia].
  - split; [rewrite Hs'; reflexivity|]. split; [discriminate|intros _].
    split; [rewrite Hs'; reflexivity|]. split; [reflexivity|].
    exact (Hko eq_refl).
Qed.

(** The statement of X4 at a concrete input. *)
Lemma X4_witness :
  consecutiveFailures
    (sendPeriodicMetrics pubOk (set_consecutiveFailures 3 idleAtNoon)) = 0 /\
  consecutiveFailures
    (sendPeriodicMetrics pubDown (set_consecutiveFailures 3 idleAtNoon)) = 4.
Proof.
  split.
  - apply (proj2 (X4_sendPeriodicMetrics_outcome pubOk
                    (set_consecutiveFailures 3 idleAtNoon)));
      vm_compute; reflexivity.
  - change 4 with (wrapInt
      (consecutiveFailures (set_consecutiveFailures 3 idleAtNoon) + 1)).
    apply (proj2 (X4_sendPeriodicMetrics_outcome pubDown
                    (set_consecutiveFailures 3 idleAtNoon)));
      vm_compute; reflexivity.
Defined.

(** ** The broker connection *)



(** ** The memory check *)

Lemma heapFragmentation_sane heap block :
  0 < heap -> block mod 65536 <= heap ->
  heapFragmentationOf heap block = 100 - block mod 65536 * 100 / heap /\
  (85 < heapFragmentationOf heap block
   <-> 100 * (block mod 65536) < 15 * heap).
Proof.
  intros Hh Hb. unfold heapFragmentationOf.
  pose proof (Z.mod_pos_bound block 65536 ltac:(lia)) as B.
  set (b := block mod 65536) in *.
  assert (Q : 0 <= b * 100 / heap <= 100).
  { split; [apply Z.div_pos; lia|].
    apply Z.div_le_upper_bound; lia. }
  assert (E : wrap32 (100 - b * 100 / heap) mod 256 = 100 - b * 100 / heap).
  { rewrite wrap32_small by lia. apply Z.mod_small. lia. }
  split; [exact E|]. rewrite E.
  split.
  - intros H. assert (b * 100 / heap < 15) by lia.
    pose proof (Z.mul_succ_div_gt (b * 100) heap Hh). nia.
  - intros H. assert (b * 100 / heap < 15); [|lia].
    apply Z.div_lt_upper_bound; lia.
Qed.

Lemma heapFragmentation_wraps heap block :
  0 < heap ->
  101 * heap <= 100 * (block mod 65536) < 271 * heap ->
  85 < heapFragmentationOf heap block.
Proof.
  intros Hh [H1 H2]. unfold heapFragmentationOf.
  set (b := block mod 65536) in *.
  assert (Q : 101 <= b * 100 / heap <= 270).
  { split; [apply Z.div_le_lower_bound; lia|].
    assert (b * 100 / heap < 271); [|lia].
    apply Z.div_lt_upper_bound; lia. }
  replace (wrap32 (100 - b * 100 / heap))
    with (4294967296 + (100 - b * 100 / heap)).
  - replace (4294967296 + (100 - b * 100 / heap))
      with (356 - b * 100 / heap + 16777215 * 256) by lia.
    rewrite Z_mod_plus_full, Z.mod_small; lia.
  - unfold wrap32. apply (Z.mod_unique _ _ (-1)); lia.
Qed.

(** X6.  [checkMemory] works on the low 16 bits [b] of the largest-block
    reading, which is all its [uint16_t] keeps.  When the check is due,
    the free heap is not zero and [b] is not larger than it, the check
    stamps [lastMemoryCheck] and requests a MEMORY restart exactly when
    the free heap is below 1000 bytes or [b] is less than 15% of it;
    otherwise nothing else changes.  When [b] exceeds the heap reading by
    1% to 170%, the 8-bit fragmentation value wraps and a restart is
    requested as well.  A block reading of 65536 or more is cut down
    first: at 80000 bytes free and a block of 70000 a restart is
    requested. *)
Theorem X6_checkMemory_thresholds (heap block : Z) (s : Sys) :
  timeElapsed (lastMemoryCheck s) memoryCheckInterval s = true ->
  0 < heap ->
  (block mod 65536 <= heap ->
   (heap < minFreeHeap \/ 100 * (block mod 65536) < 15 * heap ->
    checkMemory heap block s
    = Ok (set_forceRestart true
            (set_pendingRestartReason RESTART_MEMORY
               (set_lastMemoryCheck (millis s) s)))) /\
   (minFreeHeap <= heap -> 15 * heap <= 100 * (block mod 65536) ->
    checkMemory heap block s = Ok (set_lastMemoryCheck (millis s) s))) /\
  (101 * heap <= 100 * (block mod 65536) < 271 * heap ->
   checkMemory heap block s
   = Ok (set_forceRestart true
           (set_pendingRestartReason RESTART_MEMORY
              (set_lastMemoryCheck (millis s) s)))).
Proof.
  intros Hdue Hh. unfold checkMemory. rewrite Hdue. cbv zeta.
  replace (heap =? 0) with false by (symmetry; apply Z.eqb_neq; lia).
  fold (heapFragmentationOf heap block).
  split.
  - intros Hb.
    destruct (heapFragmentation_sane heap block Hh Hb) as (_ & F).
    split.
    + intros H.
      destruct (heap <? minFreeHeap) eqn:L;
        destruct (85 <? heapFragmentationOf heap block) eqn:G;
        try reflexivity.
      exfalso. apply Z.ltb_ge in L, G. destruct H as [H|H]; [lia|].
      apply F in H. lia.
    + intros H1 H2.
      replace (heap <? minFreeHeap) with false
        by (symmetry; apply Z.ltb_ge; lia).
      replace (85 <? heapFragmentationOf heap block) with false;
        [reflexivity|].
      symmetry. apply Z.ltb_ge.
      destruct (Z_le_gt_dec (heapFragmentationOf heap block) 85) as [|G];
        [assumption|]. exfalso.
      assert (100 * (block mod 65536) < 15 * heap); [|lia].
      apply F. lia.
  - intros H.
    pose proof (heapFragmentation_wraps heap block Hh H) as G.
    apply Z.ltb_lt in G. rewrite G.
    destruct (heap <? minFreeHeap); reflexivity.
Qed.

(** The statement of X6 at concrete inputs: a fragmented heap, a healthy
    one, and a block reading that does not fit 16 bits. *)
Lemma X6_witness :
  checkMemory 30000 4000 (set_millis 300000 (boot []))
  = Ok (set_forceRestart true
          (set_pendingRestartReason RESTART_MEMORY
             (set_lastMemoryCheck 300000 (set_millis 300000 (boot []))))) /\
  checkMemory 30000 20000 (set_millis 300000 (boot []))
  = Ok (set_lastMemoryCheck 300000 (set_millis 300000 (boot []))) /\
  checkMemory 80000 70000 (set_millis 300000 (boot []))
  = Ok (set_forceRestart true
          (set_pendingRestartReason RESTART_MEMORY
             (set_lastMemoryCheck 300000 (set_millis 300000 (boot []))))).
Proof.
  destruct (X6_checkMemory_thresholds 30000 4000
              (set_millis 300000 (boot []))) as [[H1 _] _];
    [reflexivity|lia|vm_compute; discriminate|].
  destruct (X6_checkMemory_thresholds 30000 20000
              (set_millis 300000 (boot []))) as [[_ H2] _];
    [reflexivity|lia|vm_compute; discriminate|].
  destruct (X6_checkMemory_thresholds 80000 70000
              (set_millis 300000 (boot []))) as [[H3 _] _];
    [reflexivity|lia|vm_compute; discriminate|].
  split; [|split].
  - apply H1. right. vm_compute. reflexivity.
  - apply H2; vm_compute; discriminate.
  - apply H3. right. vm_compute. reflexivity.
Defined.

(** ** One iteration of [loop] *)

(** A property of the state kept by every function [loop] calls is kept by
    [loop], and by a run of [loop]. *)
Section LoopInvariant.

Variable P : Sys -> Prop.
Hypothesis P_performRestart : forall s reason, P s -> P (performRestart reason s).
Hypothesis P_callback : forall s topic payload, P s -> P (callback topic payload s).
Hypothesis P_checkWiFiConnection :
  forall s w s', P s -> checkWiFiConnection w s = Some s' -> P s'.
Hypothesis P_reconnectMQTT :
  forall s a b c, P s -> P (snd (reconnectMQTT a b c s)).
Hypothesis P_handleCoffeeProcess : forall s, P s -> P (handleCoffeeProcess s).
Hypothesis P_checkStateTimeout : forall s, P s -> P (checkStateTimeout s).
Hypothesis P_sendPeriodicMetrics :
  forall s p, P s -> P (sendPeriodicMetrics p s).
Hypothesis P_checkMemory :
  forall s heap block s', P s -> checkMemory heap block s = Ok s' -> P s'.
Hypothesis P_lastMemoryCheck :
  forall s, P s -> P (set_lastMemoryCheck (millis s) s).
Hypothesis P_loop_rtcUpdate : forall s, P s -> P (loop_rtcUpdate s).
Hypothesis P_delay : forall s ms, P s -> P (delay ms s).

Lemma P_clientLoop connected msg s : P s -> P (clientLoop connected msg s).
Proof.
  intros H. unfold clientLoop. destruct connected; [|exact H].
  destruct msg as [[topic payload]|]; [|exact H]. now apply P_callback.
Qed.

Lemma loop_invariant r s :
  P s ->
  match loop r s with
  | Running s' | Restarting s' | Crashed s' => P s'
  | OutOfFuel => True
  end.
Proof.
  intros H. unfold loop.
  destruct (forceRestart s); [now apply P_performRestart|].
  pose proof (P_clientLoop (connected1 r) (message1 r) s H) as H1.
  destruct (checkWiFiConnection (wifiCheck r)
              (clientLoop (connected1 r) (message1 r) s))
    as [s2|] eqn:E; [|exact I].
  pose proof (P_checkWiFiConnection _ _ _ H1 E) as H2.
  set (s3 := if negb (connected2 r) && wifiUp2 r
             then snd (reconnectMQTT (mqttWifiUp r) (mqttConnectOk r)
                         (mqttPublishOk r) s2)
             else s2).
  assert (H3 : P s3)
    by (unfold s3; destruct (negb (connected2 r) && wifiUp2 r);
        [now apply P_reconnectMQTT|exact H2]).
  pose proof (P_clientLoop (connected3 r) (message3 r) s3 H3) as H4.
  apply P_handleCoffeeProcess, P_checkStateTimeout in H4.
  apply (P_sendPeriodicMetrics _ (metrics r)) in H4.
  apply (P_clientLoop (connected4 r) (message4 r)) in H4.
  match goal with
  | |- match match checkMemory ?h ?b ?x with _ => _ end with _ => _ end =>
      destruct (checkMemory h b x) as [s5|] eqn:M
  end; [|now apply P_lastMemoryCheck].
  apply P_delay, P_clientLoop, P_loop_rtcUpdate.
  exact (P_checkMemory _ _ _ _ H4 M).
Qed.

Lemma runLoop_invariant rs : forall s,
  P s ->
  match runLoop rs s with
  | Running s' | Restarting s' | Crashed s' => P s'
  | OutOfFuel => True
  end.
Proof.
  induction rs as [|r rs IH]; intros s H; cbn [runLoop]; [exact H|].
  pose proof (loop_invariant r s H) as L.
  destruct (loop r s) as [s'|s'|s'|];
    [apply IH; exact L|exact L|exact L|exact I].
Qed.

End LoopInvariant.

(** The state at the fault has the memory check stamped. *)
Lemma loop_fault_after_stamp r s s' :
  loop r s = Crashed s' -> lastMemoryCheck s' = millis s'.
Proof.
  unfold loop. destruct (forceRestart s); [discriminate|].
  destruct (checkWiFiConnection _ _); [|discriminate].
  destruct (checkMemory _ _ _); [discriminate|].
  intros H. injection H as <-. reflexivity.
Qed.

(** X7.  An iteration of [loop] never runs out of fuel.  It ends in a
    restart exactly when a request is pending on entry; otherwise it
    returns, unless the memory check divides by a zero heap reading. *)
Theorem X7_loop_outcome (r : LoopReadings) (s : Sys) :
  loop r s <> OutOfFuel /\
  (forall s', loop r s = Restarting s' -> forceRestart s = true) /\
  (forall s', loop r s = Crashed s' ->
     forceRestart s = false /\ heapFree r = 0) /\
  (forceRestart s = false -> heapFree r <> 0 ->
   exists s', loop r s = Running s').
Proof.
  unfold loop. destruct (forceRestart s).
  { repeat split; try discriminate. }
  destruct (checkWiFiConnection_total (wifiCheck r)
              (clientLoop (connected1 r) (message1 r) s)) as [s2 ->].
  match goal with
  | |- context [checkMemory ?h ?b ?x] =>
      generalize x; intros s4
  end.
  unfold checkMemory.
  destruct (timeElapsed (lastMemoryCheck s4) memoryCheckInterval s4).
  - destruct (heapFree r =? 0) eqn:Z0.
    + apply Z.eqb_eq in Z0.
      repeat split; try discriminate; auto. intros _ H. contradiction.
    + repeat split; try discriminate. intros _ _. eauto.
  - repeat split; try discriminate. intros _ _. eauto.
Qed.

(** The statement of X7 at a concrete input. *)
Lemma X7_witness : exists s', loop online poweredOn = Running s'.
Proof.
  apply (proj2 (proj2 (proj2 (X7_loop_outcome online poweredOn)))).
  - reflexivity.
  - vm_compute. discriminate.
Defined.

(** ** The brew state *)

Lemma currentState_of_frame s s' :
  brewAndStore s' = brewAndStore s -> currentState s' = currentState s.
Proof. unfold brewAndStore. intros H. now injection H. Qed.

(** X8.  [checkStateTimeout] changes nothing but [currentState], which it
    sets to IDLE when the state is not IDLE and 300 s have elapsed since
    [eventStartTime]; neither the session count nor the restart request
    is touched.  Called after [handleCoffeeProcess], as [loop] does, it
    has nothing left to do unless the state was POURING: a WAITING state
    whose 300 s have elapsed has already been poured. *)
Theorem X8_state_timeout (s : Sys) :
  (checkStateTimeout s = s \/ checkStateTimeout s = set_currentState IDLE s) /\
  (currentState s <> IDLE ->
   timeElapsed (eventStartTime s) stateTimeout s = true ->
   checkStateTimeout s = set_currentState IDLE s) /\
  (currentState s <> POURING ->
   checkStateTimeout (handleCoffeeProcess s) = handleCoffeeProcess s).
Proof.
  split; [|split].
  - unfold checkStateTimeout.
    match goal with |- context [if ?c then _ else _] => destruct c end; auto.
  - intros Hs Ht. unfold checkStateTimeout. rewrite Ht.
    destruct (currentState s); [contradiction|reflexivity|reflexivity].
  - intros Hp. unfold handleCoffeeProcess.
    destruct (currentState s) eqn:C; [|clear Hp|contradiction].
    + cbn [State_eqb andb]. unfold checkStateTimeout. rewrite C. reflexivity.
    + cbn [State_eqb andb].
      destruct (timeElapsed (eventStartTime s) coffeeWaitTime s) eqn:T.
      * reflexivity.
      * unfold checkStateTimeout. rewrite C. cbn [State_eqb negb andb].
        replace (timeElapsed (eventStartTime s) stateTimeout s) with false;
          [reflexivity|].
        symmetry. apply timeElapsed_false. apply timeElapsed_false in T.
        unfold coffeeWaitTime, stateTimeout in *. lia.
Qed.

(** The statement of X8 at a concrete input. *)
Lemma X8_witness :
  let stuck := set_currentState POURING idleAtNoon in
  checkStateTimeout stuck = set_currentState IDLE stuck /\
  checkStateTimeout (handleCoffeeProcess idleAtNoon)
  = handleCoffeeProcess idleAtNoon.
Proof.
  cbv zeta. split.
  - apply (proj1 (proj2 (X8_state_timeout
                           (set_currentState POURING idleAtNoon)))).
    + discriminate.
    + reflexivity.
  - apply (proj2 (proj2 (X8_state_timeout idleAtNoon))). discriminate.
Defined.

Lemma callback_not_pouring topic payload s :
  currentState s <> POURING ->
  currentState (callback topic payload s) <> POURING.
Proof.
  intros H. destruct (commandOf payload) eqn:C.
  - rewrite callback_on by exact C.
    destruct (State_eqb (currentState s) IDLE); [discriminate|exact H].
  - rewrite callback_reset by exact C. discriminate.
  - rewrite callback_restart by exact C. exact H.
  - rewrite callback_other by auto. exact H.
  - rewrite callback_other by auto. exact H.
Qed.

Lemma handleCoffeeProcess_not_pouring s :
  currentState s <> POURING ->
  currentState (handleCoffeeProcess s) <> POURING.
Proof.
  intros H. unfold handleCoffeeProcess.
  match goal with |- context [if ?c then _ else _] => destruct c end;
    [discriminate|exact H].
Qed.

Lemma checkStateTimeout_not_pouring s :
  currentState s <> POURING ->
  currentState (checkStateTimeout s) <> POURING.
Proof.
  intros H. unfold checkStateTimeout.
  match goal with |- context [if ?c then _ else _] => destruct c end;
    [discriminate|exact H].
Qed.

Lemma currentState_delay ms s : currentState (delay ms s) = currentState s.
Proof. reflexivity. Qed.

Lemma currentState_recordRestart reason s :
  currentState (recordRestart reason s) = currentState s.
Proof. reflexivity. Qed.

Lemma currentState_loop_rtcUpdate s :
  currentState (loop_rtcUpdate s) = currentState s.
Proof.
  unfold loop_rtcUpdate.
  destruct (timeElapsed (lastRTCUpdate s) 600000 s); reflexivity.
Qed.

(** X9.  POURING is never the state between two statements of [loop]:
    [pourCoffee] enters and leaves it in one call.  From a state that is
    not POURING, no command, no health check and no run of [loop] ends in
    POURING. *)
Theorem X9_pouring_is_transient (s : Sys) :
  currentState s <> POURING ->
  (forall topic payload,
     currentState (callback topic payload s) <> POURING) /\
  currentState (performHealthCheck s) <> POURING /\
  currentState (pourCoffee s) = IDLE /\
  (forall rs,
     match runLoop rs s with
     | Running s' | Restarting s' | Crashed s' => currentState s' <> POURING
     | OutOfFuel => True
     end).
Proof.
  intros H.
  split; [intros; now apply callback_not_pouring|].
  split; [now rewrite (currentState_of_frame _ _ (performHealthCheck_frame s))|].
  split; [reflexivity|].
  intros rs.
  apply (runLoop_invariant (fun x => currentState x <> POURING)).
  - intros x reason Hx. unfold performRestart.
    now rewrite currentState_delay, currentState_recordRestart.
  - intros; now apply callback_not_pouring.
  - intros x w x' Hx E.
    now rewrite (currentState_of_frame _ _ (checkWiFiConnection_frame _ _ _ E)).
  - intros x a b c Hx.
    now rewrite (currentState_of_frame _ _
                   (proj1 (reconnectMQTT_frame a b c x))).
  - intros; now apply handleCoffeeProcess_not_pouring.
  - intros; now apply checkStateTimeout_not_pouring.
  - intros x p Hx.
    now rewrite (currentState_of_frame _ _
                   (proj1 (sendPeriodicMetrics_frame p x))).
  - intros x heap block x' Hx E.
    now rewrite (currentState_of_frame _ _ (checkMemory_frame _ _ _ _ E)).
  - intros x Hx. exact Hx.
  - intros x Hx. now rewrite currentState_loop_rtcUpdate.
  - intros x ms Hx. exact Hx.
  - exact H.
Qed.

(** The statement of X9 at a concrete input. *)
Lemma X9_witness :
  match runLoop [online; linksDown; online] poweredOn with
  | Running s' | Restarting s' | Crashed s' => currentState s' <> POURING
  | OutOfFuel => True
  end.
Proof.
  apply (proj2 (proj2 (proj2 (X9_pouring_is_transient poweredOn
                                ltac:(vm_compute; discriminate))))).
Defined.

(** ** The record in RTC memory *)

Lemma u32_bytes x :
  u32 x ->
  byteZ (Zbyte x) + 256 * byteZ (Zbyte (x / 256)) +
  65536 * byteZ (Zbyte (x / 65536)) +
  16777216 * byteZ (Zbyte (x / 16777216)) = x.
Proof. intros H. exact (u32At_le32 x [] H). Qed.

Lemma u32At_range blk off : u32 (u32At blk off).
Proof.
  unfold u32, u32At.
  pose proof (byteZ_range (nth off blk x00)).
  pose proof (byteZ_range (nth (off + 1) blk x00)).
  pose proof (byteZ_range (nth (off + 2) blk x00)).
  pose proof (byteZ_range (nth (off + 3) blk x00)).
  lia.
Qed.

Lemma rtcOfBytes_rtcBytes d : rtcInRange d -> rtcOfBytes (rtcBytes d) = d.
Proof.
  destruct d as [c t w m wi mq h u un l p].
  unfold rtcInRange.
  cbn [crc32 totalRestarts watchdogRestarts memoryRestarts wifiRestarts
       mqttRestarts healthRestarts userRestarts unknownRestarts
       lastRestartReason coffeePouredTotal].
  intros (Hc & Ht & Hw & Hm & Hwi & Hmq & Hh & Hu & Hun & Hl & Hp).
  unfold rtcOfBytes, rtcBytes, u32At, le32.
  cbn [crc32 totalRestarts watchdogRestarts memoryRestarts wifiRestarts
       mqttRestarts healthRestarts userRestarts unknownRestarts
       lastRestartReason coffeePouredTotal app nth Nat.add].
  rewrite !u32_bytes by assumption. reflexivity.
Qed.

(** X10.  The record and its 44-byte block determine each other: decoding
    the bytes of a record whose fields are 32-bit values gives the record
    back, encoding the record decoded from any 44 bytes gives the bytes
    back, and a decoded record always has 32-bit fields. *)
Theorem X10_record_codec :
  (forall d, rtcInRange d -> rtcOfBytes (rtcBytes d) = d) /\
  (forall blk, List.length blk = 44%nat -> rtcBytes (rtcOfBytes blk) = blk) /\
  (forall blk, rtcInRange (rtcOfBytes blk)) /\
  (forall d, List.length (rtcBytes d) = 44%nat).
Proof.
  split; [exact rtcOfBytes_rtcBytes|].
  split; [exact rtcBytes_rtcOfBytes|].
  split; [|reflexivity].
  intros blk. unfold rtcInRange, rtcOfBytes.
  cbn [crc32 totalRestarts watchdogRestarts memoryRestarts wifiRestarts
       mqttRestarts healthRestarts userRestarts unknownRestarts
       lastRestartReason coffeePouredTotal].
  repeat split; apply u32At_range.
Qed.

(** The statement of X10 at a concrete input. *)
Lemma X10_witness :
  rtcOfBytes (rtcBytes (mkRTCData 1 2 3 4 5 6 7 8 9 10 4294967295))
  = mkRTCData 1 2 3 4 5 6 7 8 9 10 4294967295 /\
  rtcBytes (rtcOfBytes (repeat xff 44)) = repeat xff 44.
Proof.
  split.
  - apply (proj1 X10_record_codec). unfold rtcInRange, u32. cbn. lia.
  - apply (proj1 (proj2 X10_record_codec)). reflexivity.
Defined.

Lemma writeRTCData_inSync s : inSync (writeRTCData s).
Proof. split; reflexivity. Qed.

Lemma inSync_same s s' :
  rtcData s' = rtcData s -> rtcMem s' = rtcMem s -> inSync s -> inSync s'.
Proof. unfold inSync. intros -> ->. auto. Qed.

Lemma inSync_of_frame s s' :
  brewAndStore s' = brewAndStore s -> inSync s -> inSync s'.
Proof.
  unfold brewAndStore. intros H. injection H as H1 H2 _ _ _ _.
  now apply inSync_same.
Qed.

(** A block in sync with its record validates when read back. *)
Lemma readRTCData_inSync s s' :
  inSync s -> rtcMem s' = rtcMem s ->
  fst (readRTCData true s') = true /\
  (rtcInRange (rtcData s) ->
   readRTCData true s' = (true, set_rtcData (rtcData s) s')).
Proof.
  intros [Hm Hc] E.
  assert (L : List.length (rtcMem s') = 44%nat)
    by (rewrite E, Hm; reflexivity).
  assert (V : (calculateCRC32 (skipn 4 (rtcMem s')) =? u32At (rtcMem s') 0)
              = true).
  { rewrite E, Hm. apply Z.eqb_eq.
    change (u32At (rtcBytes (rtcData s)) 0)
      with (u32At (le32 (crc32 (rtcData s))
                   ++ skipn 4 (rtcBytes (rtcData s))) 0).
    rewrite u32At_le32; [symmetry; exact Hc|].
    rewrite Hc. apply calculateCRC32_range. }
  split.
  - rewrite readRTCData_spec by exact L. exact V.
  - intros R. unfold readRTCData.
    cbn [rtcData set_rtcData].
    rewrite rtcBytes_rtcOfBytes by exact L.
    cbn [rtcOfBytes crc32]. rewrite V.
    rewrite E, Hm, rtcOfBytes_rtcBytes by exact R. reflexivity.
Qed.

Lemma rtcInRange_recordRestart reason s :
  rtcInRange (rtcData s) -> u32 (coffeePouredCount s) ->
  rtcInRange (rtcData (recordRestart reason s)).
Proof.
  intros (_ & Ht & Hw & Hm & Hwi & Hmq & Hh & Hu & Hun & _ & _) Hc.
  pose proof (recordRestart_counters reason s) as H. cbv zeta in H.
  destruct H as (ET & EW & EM & EWi & EMq & EH & EU & EUn).
  unfold rtcInRange.
  rewrite ET, EW, EM, EWi, EMq, EH, EU, EUn,
    recordRestart_lastRestartReason, recordRestart_coffeePouredTotal.
  assert (C : crc32 (rtcData (recordRestart reason s))
              = calculateCRC32
                  (skipn 4 (rtcBytes (rtcData (recordRestart reason s)))))
    by (destruct reason; reflexivity).
  rewrite C.
  unfold u32 in *.
  pose proof (calculateCRC32_range
                (skipn 4 (rtcBytes (rtcData (recordRestart reason s))))).
  pose proof (wrap32_range (totalRestarts (rtcData s) + 1)).
  pose proof (wrap32_range (watchdogRestarts (rtcData s) + 1)).
  pose proof (wrap32_range (memoryRestarts (rtcData s) + 1)).
  pose proof (wrap32_range (wifiRestarts (rtcData s) + 1)).
  pose proof (wrap32_range (mqttRestarts (rtcData s) + 1)).
  pose proof (wrap32_range (healthRestarts (rtcData s) + 1)).
  pose proof (wrap32_range (userRestarts (rtcData s) + 1)).
  pose proof (wrap32_range (unknownRestarts (rtcData s) + 1)).
  destruct reason; cbn [reasonCode]; repeat split; lia.
Qed.

Lemma setup_total readOk link s : exists s', setup readOk link s = Some s'.
Proof.
  unfold setup. destruct (readRTCData readOk s) as [valid s1].
  apply setupWiFi_total.
Qed.

(** [setup] after a block that validates. *)
Lemma setup_valid link s d :
  readRTCData true s = (true, set_rtcData d s) ->
  exists s', setup true link s = Some s' /\
    rtcData s' = d /\ rtcMem s' = rtcMem s /\
    coffeePouredCount s' = 0 /\ request s' = request s /\
    currentState s' = currentState s.
Proof.
  intros E. destruct (setup_total true link s) as [s' S]. exists s'.
  split; [exact S|].
  unfold setup in S. rewrite E in S.
  apply setupWiFi_frame in S. destruct S as [F R].
  unfold brewAndStore in F. injection F as F1 F2 F3 _ F5 _.
  split; [exact F1|]. split; [exact F2|]. split; [exact F5|].
  split; [exact R|exact F3].
Qed.

(** X11.  A restart is remembered: after [performRestart] and the reboot,
    [setup] finds a block that validates and loads the record written
    before the restart, with the reason and the incremented total; the
    session count starts at 0 and no request is pending.  (The record's
    fields and the session count are 32-bit values.) *)
Theorem X11_restart_survives_reboot
    (reason : RestartReason) (link : nat -> bool) (s : Sys) :
  rtcInRange (rtcData s) ->
  u32 (coffeePouredCount s) ->
  exists s2,
    setup true link (reboot (performRestart reason s)) = Some s2 /\
    rtcData s2 = rtcData (performRestart reason s) /\
    lastRestartReason (rtcData s2) = reasonCode reason /\
    totalRestarts (rtcData s2) = wrap32 (totalRestarts (rtcData s) + 1) /\
    coffeePouredCount s2 = 0 /\
    forceRestart s2 = false /\
    currentState s2 = IDLE.
Proof.
  intros R C.
  assert (Sy : inSync (recordRestart reason s))
    by (unfold recordRestart; apply writeRTCData_inSync).
  assert (Rr := rtcInRange_recordRestart reason s R C).
  destruct (readRTCData_inSync (recordRestart reason s)
              (reboot (performRestart reason s)) Sy eq_refl) as [_ V].
  specialize (V Rr).
  destruct (setup_valid link _ _ V) as (s2 & S & D & _ & Cc & Rq & St).
  exists s2. split; [exact S|].
  unfold performRestart. rewrite rtcData_delay.
  split; [exact D|]. rewrite D.
  split; [apply recordRestart_lastRestartReason|].
  split; [exact (proj1 (recordRestart_counters reason s))|].
  split; [exact Cc|].
  split; [|exact St].
  unfold request in Rq. now injection Rq.
Qed.

(** The statement of X11 at a concrete input. *)
Lemma X11_witness :
  exists s2,
    setup true (fun _ => true)
      (reboot (performRestart RESTART_MEMORY poweredOn)) = Some s2 /\
    lastRestartReason (rtcData s2) = 3 /\
    totalRestarts (rtcData s2) = 1.
Proof.
  destruct (X11_restart_survives_reboot RESTART_MEMORY (fun _ => true)
              poweredOn) as (s2 & S & _ & L & T & _).
  - unfold rtcInRange, u32. vm_compute.
    repeat split; first [reflexivity|discriminate].
  - unfold u32. vm_compute. split; first [reflexivity|discriminate].
  - exists s2. split; [exact S|]. split; [exact L|exact T].
Defined.

Lemma frame_fields s s' :
  brewAndStore s' = brewAndStore s ->
  rtcData s' = rtcData s /\ rtcMem s' = rtcMem s /\
  currentState s' = currentState s /\
  coffeePouredCount s' = coffeePouredCount s.
Proof.
  unfold brewAndStore. intros H. injection H as H1 H2 H3 _ H5 _. auto.
Qed.

Lemma request_fields s s' :
  request s' = request s ->
  forceRestart s' = forceRestart s /\
  pendingRestartReason s' = pendingRestartReason s.
Proof. unfold request. intros H. injection H as H1 H2. auto. Qed.

(** X12.  [setup] always returns.  When the RTC read fails or the block
    does not validate (a cold boot), the record is initialised: all
    counters and the all-time coffee count are 0 and the last restart
    reason is POWER_ON.  In every case with a 44-byte block, the RTC
    memory afterwards holds the bytes of the record in use and they
    validate. *)
Theorem X12_setup_initialises
    (readOk : bool) (link : nat -> bool) (mem : list byte) :
  exists s',
    setup readOk link (boot mem) = Some s' /\
    coffeePouredCount s' = 0 /\ forceRestart s' = false /\
    currentState s' = IDLE /\
    (fst (readRTCData readOk (boot mem)) = false ->
     totalRestarts (rtcData s') = 0 /\ sumRestarts (rtcData s') = 0 /\
     lastRestartReason (rtcData s') = reasonCode RESTART_POWER_ON /\
     coffeePouredTotal (rtcData s') = 0 /\
     inSync s') /\
    (List.length mem = 44%nat ->
     inSync s' /\ fst (readRTCData true s') = true).
Proof.
  destruct (setup_total readOk link (boot mem)) as [s' S]. exists s'.
  split; [exact S|]. unfold setup in S.
  destruct readOk.
  - (* the block was read *)
    assert (L44 : List.length mem = 44%nat ->
                  rtcBytes (rtcOfBytes mem) = mem)
      by apply rtcBytes_rtcOfBytes.
    unfold readRTCData in S |- *.
    cbn [rtcData set_rtcData rtcMem boot] in S |- *.
    destruct (calculateCRC32 (skipn 4 (rtcBytes (rtcOfBytes mem)))
              =? crc32 (rtcOfBytes mem)) eqn:V.
    + apply setupWiFi_frame in S. destruct S as [F R].
      destruct (frame_fields _ _ F) as (F1 & F2 & F3 & F5).
      apply request_fields in R. destruct R as [R1 _].
      split; [exact F5|]. split; [exact R1|]. split; [exact F3|].
      split; [discriminate|].
      intros L. specialize (L44 L).
      assert (Sy : inSync s').
      { split.
        - rewrite F1, F2. symmetry. exact L44.
        - rewrite F1. symmetry. apply Z.eqb_eq. exact V. }
      split; [exact Sy|].
      exact (proj1 (readRTCData_inSync s' s' Sy eq_refl)).
    + apply setupWiFi_frame in S. destruct S as [F R].
      destruct (frame_fields _ _ F) as (F1 & F2 & F3 & F5).
      apply request_fields in R. destruct R as [R1 _].
      split; [exact F5|]. split; [exact R1|]. split; [exact F3|].
      assert (Sy : inSync s').
      { apply (inSync_same (initRTCData (set_rtcData (rtcOfBytes mem)
                                                     (boot mem))));
          [exact F1|exact F2|].
        unfold initRTCData. apply writeRTCData_inSync. }
      split.
      * intros _. rewrite F1. do 4 (split; [reflexivity|]). exact Sy.
      * intros _. split; [exact Sy|].
        exact (proj1 (readRTCData_inSync s' s' Sy eq_refl)).
  - (* the read failed *)
    unfold readRTCData in S |- *.
    apply setupWiFi_frame in S. destruct S as [F R].
    destruct (frame_fields _ _ F) as (F1 & F2 & F3 & F5).
    apply request_fields in R. destruct R as [R1 _].
    split; [exact F5|]. split; [exact R1|]. split; [exact F3|].
    assert (Sy : inSync s').
    { apply (inSync_same (initRTCData (boot mem))); [exact F1|exact F2|].
      unfold initRTCData. apply writeRTCData_inSync. }
    split.
    + intros _. rewrite F1. do 4 (split; [reflexivity|]). exact Sy.
    + intros _. split; [exact Sy|].
      exact (proj1 (readRTCData_inSync s' s' Sy eq_refl)).
Qed.

(** The statement of X12 at a concrete input. *)
Lemma X12_witness :
  exists s',
    setup true (fun _ => false) (boot (repeat x00 44)) = Some s' /\
    lastRestartReason (rtcData s') = 7 /\
    fst (readRTCData true s') = true.
Proof.
  destruct (X12_setup_initialises true (fun _ => false) (repeat x00 44))
    as (s' & S & _ & _ & _ & Hcold & Hsync).
  exists s'. split; [exact S|]. split.
  - apply Hcold. vm_compute. reflexivity.
  - apply Hsync. reflexivity.
Defined.

Lemma callback_inSync topic payload s :
  inSync s -> inSync (callback topic payload s).
Proof.
  intros H. destruct (commandOf payload) eqn:C.
  - rewrite callback_on by exact C.
    destruct (State_eqb (currentState s) IDLE);
      now apply (inSync_same s).
  - rewrite callback_reset by exact C.
    unfold initRTCData. apply writeRTCData_inSync.
  - rewrite callback_restart by exact C. now apply (inSync_same s).
  - rewrite callback_other by auto. now apply (inSync_same s).
  - rewrite callback_other by auto. now apply (inSync_same s).
Qed.

Lemma loop_rtcUpdate_inSync s : inSync s -> inSync (loop_rtcUpdate s).
Proof.
  intros H. unfold loop_rtcUpdate.
  destruct (timeElapsed (lastRTCUpdate s) 600000 s); [|exact H].
  apply writeRTCData_inSync.
Qed.

Lemma rtcMem_delay ms s : rtcMem (delay ms s) = rtcMem s.
Proof. reflexivity. Qed.

Lemma performRestart_inSync reason s : inSync (performRestart reason s).
Proof.
  unfold performRestart.
  apply (inSync_same (recordRestart reason s));
    [apply rtcData_delay|apply rtcMem_delay|].
  unfold recordRestart. apply writeRTCData_inSync.
Qed.

(** X13.  The RTC memory never lags behind the record: every function
    that changes the record writes it back with a fresh CRC.  If the
    memory holds the bytes of the record and they validate, this is still
    so after any command, any health check and any run of [loop], so a
    read of the memory would validate at any of those points. *)
Theorem X13_memory_in_sync (s : Sys) :
  inSync s ->
  (forall topic payload, inSync (callback topic payload s)) /\
  inSync (performHealthCheck s) /\
  (forall rs,
     match runLoop rs s with
     | Running s' | Restarting s' | Crashed s' =>
         inSync s' /\ fst (readRTCData true s') = true
     | OutOfFuel => True
     end).
Proof.
  intros H.
  split; [intros; now apply callback_inSync|].
  split; [exact (inSync_of_frame _ _ (performHealthCheck_frame s) H)|].
  intros rs.
  assert (R := runLoop_invariant inSync
    (fun x reason _ => performRestart_inSync reason x)
    (fun x topic payload Hx => callback_inSync topic payload x Hx)
    (fun x w x' Hx E =>
       inSync_of_frame _ _ (checkWiFiConnection_frame _ _ _ E) Hx)
    (fun x a b c Hx =>
       inSync_of_frame _ _ (proj1 (reconnectMQTT_frame a b c x)) Hx)
    (fun x Hx => inSync_same x (handleCoffeeProcess x)
                   ltac:(unfold handleCoffeeProcess;
                         match goal with |- context [if ?c then _ else _] =>
                           destruct c end; reflexivity)
                   ltac:(unfold handleCoffeeProcess;
                         match goal with |- context [if ?c then _ else _] =>
                           destruct c end; reflexivity) Hx)
    (fun x Hx => inSync_same x (checkStateTimeout x)
                   ltac:(unfold checkStateTimeout;
                         match goal with |- context [if ?c then _ else _] =>
                           destruct c end; reflexivity)
                   ltac:(unfold checkStateTimeout;
                         match goal with |- context [if ?c then _ else _] =>
                           destruct c end; reflexivity) Hx)
    (fun x p Hx =>
       inSync_of_frame _ _ (proj1 (sendPeriodicMetrics_frame p x)) Hx)
    (fun x heap block x' Hx E =>
       inSync_of_frame _ _ (checkMemory_frame _ _ _ _ E) Hx)
    (fun x Hx =>
       inSync_same x (set_lastMemoryCheck (millis x) x) eq_refl eq_refl Hx)
    loop_rtcUpdate_inSync
    (fun x ms Hx => inSync_same x (delay ms x) eq_refl eq_refl Hx)
    rs s H).
  destruct (runLoop rs s) as [s'|s'|s'|]; try exact I;
    (split; [exact R|exact (proj1 (readRTCData_inSync s' s' R eq_refl))]).
Qed.

(** The statement of X13 at a concrete input. *)
Lemma X13_witness :
  match runLoop [online; linksDown] poweredOn with
  | Running s' | Restarting s' | Crashed s' =>
      inSync s' /\ fst (readRTCData true s') = true
  | OutOfFuel => True
  end.
Proof.
  apply (proj2 (proj2 (X13_memory_in_sync poweredOn
                         ltac:(split; vm_compute; reflexivity)))).
Defined.

(** ** A changed word of the block *)

Lemma bitsRun_app x y s : bitsRun (x ++ y) s = bitsRun x (bitsRun y s).
Proof. unfold bitsRun. apply fold_right_app. Qed.

Lemma app_inj_length (A : Type) (a a' b b' : list A) :
  List.length a = List.length a' -> a ++ b = a' ++ b' -> a = a' /\ b = b'.
Proof.
  revert a'. induction a as [|x a IH]; intros [|x' a'] L E;
    try discriminate; cbn in *; [auto|].
  injection E as -> E. injection L as L.
  destruct (IH a' L E) as [-> ->]. auto.
Qed.

Lemma byteBits_inj c c' :
  byteBits (byteZ c) = byteBits (byteZ c') -> c = c'.
Proof.
  intros H. apply byteZ_inj.
  rewrite <- (bitsValue_byteBits c), <- (bitsValue_byteBits c').
  now rewrite H.
Qed.

(** Four bytes fed to the register from the same state: different bytes
    leave different states. *)
Lemma crcWord_inj t (w w' : list byte) :
  List.length w = 4%nat -> List.length w' = 4%nat ->
  fold_left crcByte w t = fold_left crcByte w' t -> w = w'.
Proof.
  intros L L' H.
  destruct w as [|a [|b [|c [|d [|? ?]]]]]; try discriminate L.
  destruct w' as [|a' [|b' [|c' [|d' [|? ?]]]]]; try discriminate L'.
  cbn [fold_left] in H. rewrite !crcByte_bitsRun, <- !bitsRun_app in H.
  assert (E : ((byteBits (byteZ d) ++ byteBits (byteZ c))
                ++ byteBits (byteZ b)) ++ byteBits (byteZ a)
              = ((byteBits (byteZ d') ++ byteBits (byteZ c'))
                 ++ byteBits (byteZ b')) ++ byteBits (byteZ a')).
  { apply (bitsRun_inj _ _ t 32);
      [reflexivity|cbn; lia|intros k _; now rewrite H]. }
  clear H. rename E into H. rewrite <- !app_assoc in H.
  apply app_inj_length in H; [|reflexivity]. destruct H as [Hd H].
  apply app_inj_length in H; [|reflexivity]. destruct H as [Hc H].
  apply app_inj_length in H; [|reflexivity]. destruct H as [Hb Ha].
  apply byteBits_inj in Ha, Hb, Hc, Hd. congruence.
Qed.

Lemma crc_word_change pre w w' post :
  List.length w = 4%nat -> List.length w' = 4%nat -> w <> w' ->
  calculateCRC32 (pre ++ w ++ post) <> calculateCRC32 (pre ++ w' ++ post).
Proof.
  intros L L' Hw H. unfold calculateCRC32 in H.
  rewrite !fold_left_app in H.
  apply crcFold_inj_state in H;
    [|apply crcFold_range, crcFold_range; lia
     |apply crcFold_range, crcFold_range; lia].
  apply crcWord_inj in H; auto.
Qed.

Lemma word_split (l : list byte) : forall o,
  (o + 4 <= List.length l)%nat ->
  l = firstn o l ++ firstn 4 (skipn o l) ++ skipn (o + 4) l /\
  List.length (firstn 4 (skipn o l)) = 4%nat.
Proof.
  intros o H. split.
  - rewrite <- (firstn_skipn o l) at 1. f_equal.
    rewrite <- (firstn_skipn 4 (skipn o l)) at 1. f_equal.
    rewrite skipn_skipn. f_equal. lia.
  - rewrite List.length_firstn, List.length_skipn. lia.
Qed.

(** A block made of a CRC followed by its data stops checking when four
    consecutive bytes, the CRC itself or any four bytes of the data, are
    replaced by four other bytes. *)
Lemma block_check_word (rest : list byte) off w :
  let blk := le32 (calculateCRC32 rest) ++ rest in
  off = 0%nat \/ (4 <= off)%nat ->
  (off + 4 <= 4 + List.length rest)%nat ->
  List.length w = 4%nat ->
  w <> firstn 4 (skipn off blk) ->
  (calculateCRC32 (skipn 4 (setWord off w blk))
   =? u32At (setWord off w blk) 0) = false.
Proof.
  intros blk Hoff Hlen Lw Hw. apply Z.eqb_neq.
  pose proof (calculateCRC32_range rest) as R.
  assert (U : u32At blk 0 = calculateCRC32 rest)
    by (apply u32At_le32; exact R).
  destruct w as [|a [|b [|c [|d [|? ?]]]]]; try discriminate Lw.
  destruct Hoff as [->|Hoff].
  - (* the stored CRC is replaced *)
    assert (D : skipn 4 (setWord 0 [a; b; c; d] blk) = rest) by reflexivity.
    rewrite D, <- U. intros E. symmetry in E.
    apply (f_equal le32) in E. revert E.
    unfold blk, u32At, le32 at 2 4.
    cbn [setWord firstn skipn app nth Nat.add].
    rewrite !le32_u32. intros E. apply Hw. exact E.
  - (* four bytes of the data are replaced *)
    destruct off as [|[|[|[|o]]]]; try lia.
    assert (Ho : (o + 4 <= List.length rest)%nat) by lia.
    assert (D : skipn 4 (setWord (4 + o) [a; b; c; d] blk)
                = firstn o rest ++ [a; b; c; d] ++ skipn (o + 4) rest)
      by reflexivity.
    assert (U' : u32At (setWord (4 + o) [a; b; c; d] blk) 0 = u32At blk 0)
      by reflexivity.
    change (S (S (S (S o)))) with (4 + o)%nat.
    rewrite D, U', U. intros E.
    destruct (word_split rest o Ho) as [Sp L4].
    assert (M : calculateCRC32 rest
                = calculateCRC32 (firstn o rest ++ firstn 4 (skipn o rest)
                                  ++ skipn (o + 4) rest))
      by (rewrite <- Sp; reflexivity).
    rewrite M in E. revert E.
    apply crc_word_change; [reflexivity|exact L4|exact Hw].
Qed.

(** X14.  Validation also catches a whole changed word: if four
    consecutive bytes of the written block, the stored CRC or any four
    bytes after it (an entire field of the record, for one), are replaced
    by four bytes that differ from them, [readRTCData] rejects the
    block. *)
Theorem X14_changed_word_detected
    (s s' : Sys) (off : nat) (w : list byte) :
  off = 0%nat \/ (4 <= off)%nat ->
  (off + 4 <= 44)%nat ->
  List.length w = 4%nat ->
  w <> firstn 4 (skipn off (rtcMem (writeRTCData s))) ->
  rtcMem s' = setWord off w (rtcMem (writeRTCData s)) ->
  fst (readRTCData true s') = false.
Proof.
  intros Hoff Hlen Lw Hw E.
  assert (L : List.length (rtcMem s') = 44%nat).
  { rewrite E. unfold setWord.
    rewrite !List.length_app, List.length_firstn, List.length_skipn, Lw.
    change (List.length (rtcMem (writeRTCData s))) with 44%nat. lia. }
  rewrite readRTCData_spec by exact L. rewrite E.
  rewrite rtcMem_writeRTCData in Hw |- *.
  apply block_check_word; [exact Hoff|exact Hlen|exact Lw|exact Hw].
Qed.

(** The statement of X14 at a concrete input. *)
Lemma X14_witness :
  fst (readRTCData true
         (set_rtcMem (setWord 4 [x01; x00; x00; x00]
                        (rtcMem (writeRTCData (boot []))))
                     (boot []))) = false.
Proof.
  apply (X14_changed_word_detected (boot []) _ 4 [x01; x00; x00; x00]).
  - right. lia.
  - lia.
  - reflexivity.
  - vm_compute. discriminate.
  - reflexivity.
Defined.

(** ** The all-time coffee count that is reported *)

Lemma reportedCoffeeTotal_pourCoffee s :
  reportedCoffeeTotal (pourCoffee s) = wrap32 (reportedCoffeeTotal s + 1).
Proof.
  unfold reportedCoffeeTotal, pourCoffee.
  cbn [rtcData coffeePouredCount set_currentState delay set_millis
       set_relayLog set_coffeePouredCount].
  rewrite wrap32_shift, wrap32_add_l. f_equal. lia.
Qed.

Lemma reportedCoffeeTotal_loop_rtcUpdate s :
  reportedCoffeeTotal (loop_rtcUpdate s) = reportedCoffeeTotal s.
Proof.
  destruct (timeElapsed (lastRTCUpdate s) 600000 s) eqn:E.
  - destruct (loop_rtcUpdate_coffeePouredTotal s E) as [T C].
    unfold reportedCoffeeTotal. rewrite T, C, Z.add_0_r.
    unfold wrap32. apply Z.mod_mod. lia.
  - unfold loop_rtcUpdate. now rewrite E.
Qed.

(** X15.  The count reported as ["coffee_poured_total"] (the stored total
    plus the session count, modulo 2^32) goes up by one with each pour and
    is not changed by a checkpoint, which only moves the session count
    into the record: over any sequence of pours, checkpoints and delays
    it grows by exactly the number of pours. *)
Theorem X15_reported_total_counts_pours (ops : list StoreOp) (s : Sys) :
  forallb isBrewOp ops = true ->
  reportedCoffeeTotal (runOps ops s)
  = wrap32 (reportedCoffeeTotal s + pourCount ops).
Proof.
  revert s. induction ops as [|op ops IH]; intros s H.
  - cbn [runOps fold_left pourCount]. unfold reportedCoffeeTotal.
    rewrite Z.add_0_r. unfold wrap32. symmetry. apply Z.mod_mod. lia.
  - cbn [forallb] in H. apply andb_true_iff in H. destruct H as [Hop H].
    change (runOps (op :: ops) s) with (runOps ops (applyOp s op)).
    rewrite (IH _ H).
    destruct op; try discriminate Hop; cbn [applyOp pourCount].
    + now rewrite reportedCoffeeTotal_loop_rtcUpdate.
    + rewrite reportedCoffeeTotal_pourCoffee, wrap32_add_l. f_equal. lia.
    + reflexivity.
Qed.

(** The statement of X15 at a concrete input. *)
Lemma X15_witness :
  reportedCoffeeTotal (runOps fiveThenTwo (initRTCData (boot []))) = 7.
Proof.
  change 7 with (wrap32 (reportedCoffeeTotal (initRTCData (boot []))
                         + pourCount fiveThenTwo)).
  apply X15_reported_total_counts_pours. reflexivity.
Defined.

(** ** Commands and the brew cycle *)

(** X16.  A start command is only taken in IDLE: in any other state it
    changes nothing but the activity stamp, so the heat timer is not
    restarted and the power relay is not pulsed.  A reset command ends a
    brew in progress: the state is IDLE, the session and reported counts
    are 0, the record is initialised and written, [handleCoffeeProcess]
    and [checkStateTimeout] then have nothing to do; the relays and a
    pending restart request are left as they were. *)
Theorem X16_commands_and_brew
    (topic : string) (payload : list byte) (s : Sys) :
  (commandOf payload = CmdOn -> currentState s <> IDLE ->
   callback topic payload s = set_lastMQTTMessage (millis s) s) /\
  (commandOf payload = CmdReset ->
   let s' := callback topic payload s in
   currentState s' = IDLE /\ coffeePouredCount s' = 0 /\
   reportedCoffeeTotal s' = 0 /\
   lastRestartReason (rtcData s') = reasonCode RESTART_POWER_ON /\
   inSync s' /\
   handleCoffeeProcess s' = s' /\ checkStateTimeout s' = s' /\
   relayLog s' = relayLog s /\ request s' = request s).
Proof.
  split.
  - intros C H. rewrite callback_on by exact C.
    destruct (currentState s); [contradiction|reflexivity|reflexivity].
  - intros C. cbv zeta. rewrite callback_reset by exact C.
    split; [reflexivity|]. split; [reflexivity|]. split; [reflexivity|].
    split; [reflexivity|].
    split; [unfold initRTCData; apply writeRTCData_inSync|].
    split; [reflexivity|]. split; [reflexivity|].
    split; reflexivity.
Qed.

(** The statement of X16 at a concrete input. *)
Lemma X16_witness :
  let waiting := callback commandTopic payloadOn idleAtNoon in
  eventStartTime (callback commandTopic payloadOn (delay 60000 waiting))
  = eventStartTime waiting /\
  currentState (callback commandTopic payloadReset waiting) = IDLE.
Proof.
  cbv zeta. split.
  - rewrite (proj1 (X16_commands_and_brew commandTopic payloadOn
                      (delay 60000
                         (callback commandTopic payloadOn idleAtNoon)))).
    + reflexivity.
    + vm_compute. reflexivity.
    + vm_compute. discriminate.
  - apply (proj2 (X16_commands_and_brew commandTopic payloadReset
                    (callback commandTopic payloadOn idleAtNoon))).
    vm_compute. reflexivity.
Defined.

(** ** A restart request is kept *)

Lemma kept_callback topic payload s :
  forceRestart s = true -> forceRestart (callback topic payload s) = true.
Proof.
  intros H. destruct (commandOf payload) eqn:C.
  - rewrite callback_on by exact C.
    destruct (State_eqb (currentState s) IDLE); exact H.
  - rewrite callback_reset by exact C. exact H.
  - rewrite callback_restart by exact C. reflexivity.
  - rewrite callback_other by (right; exact C). exact H.
  - rewrite callback_other by (left; exact C). exact H.
Qed.

Lemma kept_clientLoop connected msg s :
  forceRestart s = true -> forceRestart (clientLoop connected msg s) = true.
Proof.
  intros H. unfold clientLoop. destruct connected; [|exact H].
  destruct msg as [[topic payload]|]; [|exact H]. now apply kept_callback.
Qed.

Lemma deliversRestart_requests connected msg s :
  deliversRestart connected msg = true ->
  forceRestart (clientLoop connected msg s) = true.
Proof.
  unfold deliversRestart, clientLoop. destruct connected; [|discriminate].
  destruct msg as [[topic payload]|]; [|discriminate]. cbn [andb].
  destruct (commandOf payload) eqn:C; try discriminate. intros _.
  rewrite callback_restart by exact C. reflexivity.
Qed.

Lemma kept_checkWiFiConnection w s s' :
  checkWiFiConnection w s = Some s' ->
  forceRestart s = true -> forceRestart s' = true.
Proof.
  unfold checkWiFiConnection. intros E H.
  destruct (timeElapsed (lastWiFiCheck s) wifiCheckInterval s);
    [|injection E as <-; exact H].
  destruct (negb (statusBefore w) || addressIsZero w);
    [|injection E as <-; exact H].
  destruct (setupWiFi (statusDuring w) (set_lastWiFiCheck (millis s) s))
    as [s1|] eqn:S; [|discriminate].
  apply setupWiFi_frame in S. destruct S as [_ S].
  apply request_fields in S. destruct S as [S _].
  change (forceRestart (set_lastWiFiCheck (millis s) s))
    with (forceRestart s) in S. rewrite H in S.
  destruct (negb (statusAfter w)); [|injection E as <-; exact S].
  match type of E with context [if ?c then _ else _] => destruct c end;
    injection E as <-; [reflexivity|exact S].
Qed.

Lemma kept_checkMemory heap block s s' :
  checkMemory heap block s = Ok s' ->
  forceRestart s = true -> forceRestart s' = true.
Proof.
  unfold checkMemory. intros E H.
  destruct (timeElapsed (lastMemoryCheck s) memoryCheckInterval s);
    [|injection E as <-; exact H].
  destruct (heap =? 0); [discriminate|].
  destruct (heap <? minFreeHeap);
    match type of E with context [if 85 <? ?f then _ else _] =>
      destruct (85 <? f) end;
    injection E as <-; first [reflexivity|exact H].
Qed.

Lemma kept_performHealthCheck s :
  forceRestart s = true -> forceRestart (performHealthCheck s) = true.
Proof.
  intros H. unfold performHealthCheck.
  repeat match goal with
         | |- context [if ?c then _ else _] => destruct c
         end; first [reflexivity|exact H].
Qed.

Lemma kept_handleCoffeeProcess s :
  forceRestart (handleCoffeeProcess s) = forceRestart s.
Proof.
  unfold handleCoffeeProcess.
  destruct (State_eqb (currentState s) WAITING
            && timeElapsed (eventStartTime s) coffeeWaitTime s); reflexivity.
Qed.

Lemma kept_checkStateTimeout s :
  forceRestart (checkStateTimeout s) = forceRestart s.
Proof.
  unfold checkStateTimeout.
  destruct (negb (State_eqb (currentState s) IDLE)
            && timeElapsed (eventStartTime s) stateTimeout s); reflexivity.
Qed.

Lemma kept_loop_rtcUpdate s :
  forceRestart (loop_rtcUpdate s) = forceRestart s.
Proof.
  unfold loop_rtcUpdate.
  destruct (timeElapsed (lastRTCUpdate s) 600000 s); reflexivity.
Qed.

(** X17.  A restart request is never withdrawn.  No command (a reset
    included), health check, brew step or checkpoint clears [forceRestart],
    and a restart command handed over by any of the four calls of
    [client.loop()] of an iteration of [loop] is still pending when the
    iteration returns, whatever the later steps of the iteration do; the
    next iteration then does nothing but record the pending reason and
    restart. *)
Theorem X17_restart_request_kept (r : LoopReadings) (s : Sys) :
  (forceRestart s = true ->
   (forall topic payload, forceRestart (callback topic payload s) = true) /\
   forceRestart (performHealthCheck s) = true /\
   forceRestart (handleCoffeeProcess s) = true /\
   forceRestart (checkStateTimeout s) = true /\
   forceRestart (loop_rtcUpdate s) = true) /\
  (restartCommanded r = true ->
   match loop r s with
   | Running s' =>
       forceRestart s' = true /\
       forall r' rs,
         runLoop (r' :: rs) s'
         = Restarting (performRestart (pendingRestartReason s') s')
   | Restarting _ | Crashed _ | OutOfFuel => True
   end).
Proof.
  split.
  - intros H.
    split; [intros topic payload; now apply kept_callback|].
    split; [now apply kept_performHealthCheck|].
    split; [now rewrite kept_handleCoffeeProcess|].
    split; [now rewrite kept_checkStateTimeout|].
    now rewrite kept_loop_rtcUpdate.
  - intros C. unfold loop.
    destruct (forceRestart s); [exact I|].
    pose proof (deliversRestart_requests (connected1 r) (message1 r) s) as D1.
    set (s1 := clientLoop (connected1 r) (message1 r) s) in *.
    destruct (checkWiFiConnection (wifiCheck r) s1) as [s2|] eqn:W;
      [|exact I].
    pose proof (kept_checkWiFiConnection _ _ _ W) as K2.
    cbv zeta.
    set (s3 := if negb (connected2 r) && wifiUp2 r
               then snd (reconnectMQTT (mqttWifiUp r) (mqttConnectOk r)
                           (mqttPublishOk r) s2)
               else s2).
    assert (K3 : forceRestart s3 = forceRestart s2).
    { unfold s3. destruct (negb (connected2 r) && wifiUp2 r); [|reflexivity].
      apply request_fields, reconnectMQTT_frame. }
    pose proof (deliversRestart_requests (connected3 r) (message3 r) s3) as D3.
    pose proof (kept_clientLoop (connected3 r) (message3 r) s3) as K4.
    set (s4 := clientLoop (connected3 r) (message3 r) s3) in *.
    pose proof (kept_handleCoffeeProcess s4) as K5.
    set (s5 := handleCoffeeProcess s4) in *.
    pose proof (kept_checkStateTimeout s5) as K6.
    set (s6 := checkStateTimeout s5) in *.
    assert (K7 : forceRestart (sendPeriodicMetrics (metrics r) s6)
                 = forceRestart s6)
      by apply request_fields, sendPeriodicMetrics_frame.
    set (s7 := sendPeriodicMetrics (metrics r) s6) in *.
    pose proof (deliversRestart_requests (connected4 r) (message4 r) s7) as D8.
    pose proof (kept_clientLoop (connected4 r) (message4 r) s7) as K8.
    set (s8 := clientLoop (connected4 r) (message4 r) s7) in *.
    destruct (checkMemory (heapFree r) (heapMaxBlock r) s8) as [s9|] eqn:M;
      [|exact I].
    pose proof (kept_checkMemory _ _ _ _ M) as K9.
    pose proof (kept_loop_rtcUpdate s9) as K10.
    set (s10 := loop_rtcUpdate s9) in *.
    pose proof (deliversRestart_requests (connected5 r) (message5 r) s10)
      as D11.
    pose proof (kept_clientLoop (connected5 r) (message5 r) s10) as K11.
    set (s11 := clientLoop (connected5 r) (message5 r) s10) in *.
    assert (F : forceRestart (delay 50 s11) = true).
    { change (forceRestart (delay 50 s11)) with (forceRestart s11).
      unfold restartCommanded in C.
      apply orb_true_iff in C. destruct C as [C|C5]; [|auto].
      apply orb_true_iff in C. destruct C as [C|C4].
      - apply orb_true_iff in C. destruct C as [C1|C3].
        + apply K11. rewrite K10. apply K9, K8. rewrite K7, K6, K5.
          apply K4. rewrite K3. auto.
        + apply K11. rewrite K10. apply K9, K8. rewrite K7, K6, K5. auto.
      - apply K11. rewrite K10. apply K9. auto. }
    split; [exact F|]. intros r' rs. cbn [runLoop]. unfold loop.
    rewrite F. reflexivity.
Qed.

(** The statement of X17 at a concrete input. *)
Lemma X17_witness :
  match loop restartOrdered poweredOn with
  | Running s' =>
      forceRestart s' = true /\
      forall r' rs,
        runLoop (r' :: rs) s'
        = Restarting (performRestart (pendingRestartReason s') s')
  | Restarting _ | Crashed _ | OutOfFuel => True
  end.
Proof.
  apply (proj2 (X17_restart_request_kept restartOrdered poweredOn)).
  vm_compute. reflexivity.
Defined.

(** ** White space around a command *)

Lemma dropSpaces_spaces ws l :
  forallb isspace ws = true -> dropSpaces (ws ++ l) = dropSpaces l.
Proof.
  induction ws as [|c ws IH]; cbn [forallb app dropSpaces]; [reflexivity|].
  intros H. apply andb_true_iff in H. destruct H as [-> H]. now apply IH.
Qed.

Lemma dropSpaces_app m b :
  dropSpaces (m ++ b)
  = match dropSpaces m with [] => dropSpaces b | l => l ++ b end.
Proof.
  induction m as [|c m IH]; cbn [app dropSpaces]; [reflexivity|].
  destruct (isspace c); [exact IH|reflexivity].
Qed.

Lemma forallb_rev (A : Type) (f : A -> bool) l :
  forallb f l = true -> forallb f (rev l) = true.
Proof.
  rewrite !forallb_forall. intros H x Hx. apply H. now apply in_rev.
Qed.

Lemma trimmed_padding a m b :
  forallb isspace a = true -> forallb isspace b = true ->
  rev (dropSpaces (rev (dropSpaces (a ++ m ++ b))))
  = rev (dropSpaces (rev (dropSpaces m))).
Proof.
  intros Ha Hb. rewrite dropSpaces_spaces by exact Ha.
  rewrite dropSpaces_app. destruct (dropSpaces m) as [|c r] eqn:E.
  - rewrite <- (app_nil_r b), dropSpaces_spaces by exact Hb. reflexivity.
  - rewrite rev_app_distr, dropSpaces_spaces by (apply forallb_rev, Hb).
    reflexivity.
Qed.

Lemma trim_padding (a p b : list byte) :
  forallb isspace (map ascii_of_byte a) = true ->
  forallb isspace (map ascii_of_byte b) = true ->
  trim (string_of_list_byte (a ++ p ++ b)) = trim (string_of_list_byte p).
Proof.
  intros Ha Hb. unfold trim, string_of_list_byte.
  rewrite !list_ascii_of_string_of_list_ascii, !map_app.
  now rewrite trimmed_padding.
Qed.

(** X18.  [callback] looks at the payload with the white space at both
    ends removed and never at the topic: a payload padded with spaces,
    tabs, line feeds or carriage returns (codes 9 to 13 and 32) is taken
    for the same command and has the same effect, on whatever topic it
    arrives. *)
Theorem X18_command_padding
    (topic topic' : string) (a p b : list byte) (s : Sys) :
  forallb isspace (map ascii_of_byte a) = true ->
  forallb isspace (map ascii_of_byte b) = true ->
  commandOf (a ++ p ++ b) = commandOf p /\
  callback topic (a ++ p ++ b) s = callback topic' p s.
Proof.
  intros Ha Hb. unfold commandOf, callback.
  rewrite (trim_padding a p b Ha Hb). split; reflexivity.
Qed.

(** The statement of X18 at a concrete input. *)
Lemma X18_witness :
  commandOf (list_byte_of_string " " ++ payloadOn ++ [x0d; x0a]) = CmdOn /\
  callback "other/topic" (list_byte_of_string " " ++ payloadOn ++ [x0d; x0a])
           idleAtNoon
  = callback commandTopic payloadOn idleAtNoon.
Proof.
  apply (X18_command_padding "other/topic" commandTopic
           (list_byte_of_string " ") payloadOn [x0d; x0a] idleAtNoon);
    reflexivity.
Defined.
